(** * confcheck: a shallow embedding of [confcheck.py] and its properties

    The script gates a configuration deployment: it refreshes a working copy
    of the configuration repository, optionally checks that the operator
    stands in the directory of the current host, and then walks the pairs of
    [./CONFCHECKLIST], asking the operator what to do when a live file has
    drifted from the version under version control.

    The embedding is over an explicit world (files, operator input, what the
    script wrote and ran).  Python values are modelled as the script uses
    them: [str] as [string] (a Python 2 byte string), an uncaught exception as
    a [Raise] result, [None] as [None].

    What the script leaves to its surroundings is modelled as follows.
    - Files are a finite map from the file a path names to its bytes and
      metadata; which file a path names is a parameter of the model, so
      that two spellings of one file can be told from two files.
    - The operator's input is a finite list of lines; past its end
      [raw_input] raises [EOFError].
    - [diff -q] compares bytes, as its contract in the specification says;
      every other external program is a parameter that gives an exit status
      and an effect on the files.
    - An exception that reaches the interpreter ends the process with a
      traceback and exit status 1.
    - [sys.exit(n)] ends the process with the status [n mod 256]: the
      system keeps the low eight bits. *)

From Stdlib Require Import ZArith Ascii String List Lia Bool.
From stdpp Require Import base tactics option list gmap strings pretty.

Local Open Scope string_scope.
Local Open Scope Z_scope.

(** ** Python string and list primitives used by the script *)

Module Py.

(** The characters that [str.strip] and [str.isspace] treat as blank. *)
Definition isspace (c : ascii) : bool :=
  let n := nat_of_ascii c in
  ((9 <=? n) && (n <=? 13))%nat || (n =? 32)%nat.

Definition lower_char (c : ascii) : ascii :=
  let n := nat_of_ascii c in
  if ((65 <=? n) && (n <=? 90))%nat then ascii_of_nat (n + 32) else c.

Definition upper_char (c : ascii) : ascii :=
  let n := nat_of_ascii c in
  if ((97 <=? n) && (n <=? 122))%nat then ascii_of_nat (n - 32) else c.

Definition isupper (c : ascii) : bool :=
  let n := nat_of_ascii c in ((65 <=? n) && (n <=? 90))%nat.

Definition islower (c : ascii) : bool :=
  let n := nat_of_ascii c in ((97 <=? n) && (n <=? 122))%nat.

(** [list(s)]: the characters of a string. *)
Fixpoint chars (s : string) : list ascii :=
  match s with
  | EmptyString => []
  | String c s' => c :: chars s'
  end.

Fixpoint lower (s : string) : string :=
  match s with
  | EmptyString => EmptyString
  | String c s' => String (lower_char c) (lower s')
  end.

Fixpoint lstrip (s : string) : string :=
  match s with
  | EmptyString => EmptyString
  | String c s' => if isspace c then lstrip s' else s
  end.

(** [rstrip] drops the blank suffix: a character is kept when something
    that is kept follows it, or when it is not blank itself. *)
Fixpoint rstrip (s : string) : string :=
  match s with
  | EmptyString => EmptyString
  | String c s' =>
      match rstrip s' with
      | EmptyString => if isspace c then EmptyString else String c EmptyString
      | t => String c t
      end
  end.

Definition strip (s : string) : string := rstrip (lstrip s).

(** [sep in s] for a one-character separator. *)
Fixpoint contains (sep : ascii) (s : string) : bool :=
  match s with
  | EmptyString => false
  | String c s' => if Ascii.eqb c sep then true else contains sep s'
  end.

(** Number of occurrences of a character. *)
Fixpoint count (sep : ascii) (s : string) : nat :=
  match s with
  | EmptyString => O
  | String c s' => ((if Ascii.eqb c sep then 1 else 0) + count sep s')%nat
  end.

(** The text before and after the first occurrence of [sep], if any. *)
Fixpoint cut (sep : ascii) (s : string) : option (string * string) :=
  match s with
  | EmptyString => None
  | String c s' =>
      if Ascii.eqb c sep then Some (EmptyString, s')
      else match cut sep s' with
           | Some (a, b) => Some (String c a, b)
           | None => None
           end
  end.

(** [s.split(sep, maxsplit)] for a one-character separator: at most
    [maxsplit] cuts are made, left to right, so the result has at most
    [maxsplit + 1] items and the last one keeps every later separator. *)
Fixpoint split_max (sep : ascii) (maxsplit : nat) (s : string) : list string :=
  match maxsplit with
  | O => [s]
  | S m =>
      match cut sep s with
      | None => [s]
      | Some (a, b) => a :: split_max sep m b
      end
  end.

(** [s.split(sep)] with no limit. *)
Fixpoint split (sep : ascii) (s : string) : list string :=
  match s with
  | EmptyString => [EmptyString]
  | String c s' =>
      if Ascii.eqb c sep then EmptyString :: split sep s'
      else match split sep s' with
           | [] => [String c EmptyString]
           | x :: xs => String c x :: xs
           end
  end.

(** [l[i]] with Python's negative indices; [None] stands for IndexError. *)
Definition index {A} (l : list A) (i : Z) : option A :=
  let n := Z.of_nat (length l) in
  if (0 <=? i) && (i <? n) then l !! Z.to_nat i
  else if (i <? 0) && (- n <=? i) then l !! Z.to_nat (n + i)
  else None.

(** The lines a file object yields when iterated: each keeps its newline. *)
Fixpoint readlines (s : string) : list string :=
  match s with
  | EmptyString => []
  | String c s' =>
      if Ascii.eqb c "010" then String c EmptyString :: readlines s'
      else match readlines s' with
           | [] => [String c EmptyString]
           | x :: xs => String c x :: xs
           end
  end.

(** [sep.join(parts)]. *)
Fixpoint join (sep : string) (parts : list string) : string :=
  match parts with
  | [] => EmptyString
  | [x] => x
  | x :: rest => x ++ sep ++ join sep rest
  end.

End Py.

(** ** Exceptions, results and the world *)

(** The exceptions the script can meet.  Only [ExternalCommandFailure] is
    the script's own class; the others are raised by the interpreter and its
    library.  [LoopBudget] is no Python exception: it is the result of the
    model's escalation loop when its iteration budget is used up, which
    [check_entry_within_budget] shows never happens. *)
Inductive exn : Type :=
  | ExternalCommandFailure (return_code : Z)
  | IndexError
  | ValueError
  | EOFError
  | IOError
  | ShutilError
  | ConfigParserError
  | LoopBudget.

Inductive res (A : Type) : Type :=
  | Ret (a : A)
  | Raise (e : exn).
Arguments Ret {A} a.
Arguments Raise {A} e.

(** A regular file: its bytes and the metadata the script never reads. *)
Record file : Type := File { content : string; mode : Z; mtime : Z }.

Inductive node : Type :=
  | Regular (f : file)
  | Directory.

(** What [subprocess.Popen] is given: the command (an argument vector or
    one string) and the keyword arguments [shell] and [cwd]. *)
Inductive command : Type :=
  | Argv (parts : list string)
  | Line (text : string).

Record call : Type := Call { cmd : command; shell : bool; cwd : option string }.

(** What a run leaves to observe, in order: what it printed, what it
    asked, the programs it ran with their exit status, and the captured
    output it dumped. *)
Inductive event : Type :=
  | Printed (text : string)
  | Prompted (text : string)
  | Ran (c : call) (return_code : Z)
  | Dumped (c : call).

Record World : Type := mkWorld {
  files : gmap string node;
  stdin : list string;
  stdout : list event;
  clock : Z
}.

Definition set_files (fs : gmap string node) (w : World) : World :=
  mkWorld fs (stdin w) (stdout w) (clock w).
Definition set_stdin (i : list string) (w : World) : World :=
  mkWorld (files w) i (stdout w) (clock w).
Definition emit (e : event) (w : World) : World :=
  mkWorld (files w) (stdin w) (stdout w ++ [e]) (clock w).

(** The values read from section [git] of the configuration file. *)
Record settings : Type := Settings {
  cfg_working_copy_dir : string;
  cfg_repo_url : string;
  cfg_username : string
}.

(** What the script takes from its surroundings and does not implement:
    - [resolve]: the file that a path names for this process (relative
      paths are looked up from its current directory);
    - [abspath]: [os.path.abspath];
    - [spawn]: the exit status of an external program and what it does to
      the files ([diff -q] apart, which [popen] below gives its meaning);
    - [config_get]: [ConfigParser] on the bytes of the configuration file. *)
Class OS : Type := {
  resolve : string -> string;
  abspath : string -> string;
  spawn : call -> gmap string node -> Z * gmap string node;
  config_get : string -> res settings
}.

(** The process: host name, current directory and parsed arguments. *)
Record Env : Type := {
  gethostname : string;
  getcwd : string
}.

Record Args : Type := {
  dir_level : option Z;
  diff_mode : bool;
  package_list_mode : bool;
  config_path : string;
  verbose : bool
}.

(** How the process ends: [sys.exit] with a status, or an exception that
    nothing catches, which the interpreter reports with a traceback and
    exit status 1. *)
Inductive outcome : Type :=
  | Exit (status : Z)
  | Traceback (e : exn).

(** The status that the parent of the process sees: the system keeps the
    low eight bits of what the process exits with. *)
Definition exit_status (o : outcome) : Z :=
  match o with
  | Exit status => status mod 256
  | Traceback _ => 1
  end.

(** ** The state-and-exception monad of the script *)

Definition M (A : Type) : Type := World -> res A * World.

Definition ret {A} (a : A) : M A := fun w => (Ret a, w).
Definition raise {A} (e : exn) : M A := fun w => (Raise e, w).
Definition bind {A B} (m : M A) (k : A -> M B) : M B :=
  fun w => match m w with
           | (Ret a, w') => k a w'
           | (Raise e, w') => (Raise e, w')
           end.

Notation "x <- m ;; k" := (bind m (fun x => k))
  (at level 100, m at next level, right associativity).
Notation "m ;;; k" := (bind m (fun _ => k))
  (at level 100, right associativity).

Definition SUCCESS : Z := 0.
Definition FAILURE : Z := 2.

(** How one pass of a loop body ends: [continue]/[break] to the next
    checklist entry, or [return code] out of [main]. *)
Inductive flow : Type :=
  | NextEntry
  | ReturnCode (code : Z).

Definition dq : string := String "034" EmptyString.
Definition nl : string := String "010" EmptyString.

(** ** The script *)

Section Script.
Context `{os : OS}.

(** *** Library calls *)

Definition print (text : string) : M unit :=
  fun w => (Ret tt, emit (Printed text) w).

Definition is_regular (fs : gmap string node) (path : string) : bool :=
  match fs !! resolve path with
  | Some (Regular _) => true
  | _ => false
  end.

Definition is_directory (fs : gmap string node) (path : string) : bool :=
  match fs !! resolve path with
  | Some Directory => true
  | _ => false
  end.

Definition bytes_of (fs : gmap string node) (path : string) : option string :=
  match fs !! resolve path with
  | Some (Regular f) => Some (content f)
  | _ => None
  end.

Definition os_path_isfile (path : string) : M bool :=
  fun w => (Ret (is_regular (files w) path), w).

Definition os_path_isdir (path : string) : M bool :=
  fun w => (Ret (is_directory (files w) path), w).

(** [os.access(path, os.X_OK)] for the super-user: some execute bit is set. *)
Definition os_access_x (path : string) : M bool :=
  fun w => (Ret match files w !! resolve path with
                | Some (Regular f) => negb (Z.land (mode f) 73 =? 0)
                | Some Directory => true
                | None => false
                end, w).

(** [open(path)] read to the end. *)
Definition read_file (path : string) : M string :=
  fun w => match bytes_of (files w) path with
           | Some s => (Ret s, w)
           | None => (Raise IOError, w)
           end.

(** What writing [bytes] into [dst] makes of the files: [dst] keeps its
    mode when it was a regular file already, and is stamped with [now]. *)
Definition write_bytes (fs : gmap string node) (dst bytes : string) (now : Z)
    : gmap string node :=
  <[resolve dst := Regular (File bytes
                              match fs !! resolve dst with
                              | Some (Regular g) => mode g
                              | _ => 420
                              end now)]> fs.

(** [shutil.copyfile(src, dst)]: refuses to copy a file onto itself, then
    writes the bytes of [src] into [dst]. *)
Definition shutil_copyfile (src dst : string) : M unit :=
  fun w =>
    match files w !! resolve src with
    | Some (Regular f) =>
        if decide (resolve src = resolve dst) then (Raise ShutilError, w)
        else match files w !! resolve dst with
             | Some Directory => (Raise IOError, w)
             | _ => (Ret tt, set_files (write_bytes (files w) dst (content f) (clock w)) w)
             end
    | _ => (Raise IOError, w)
    end.

(** The exit status of [diff -q a b]: 0 when both are regular files with
    the same bytes, 1 when the bytes differ, 2 on trouble. *)
Definition diff_status (fs : gmap string node) (a b : string) : Z :=
  match bytes_of fs a, bytes_of fs b with
  | Some x, Some y => if decide (x = y) then 0 else 1
  | _, _ => 2
  end.

(** [Popen(...).communicate()] and [returncode]. *)
Definition popen (c : call) (fs : gmap string node) : Z * gmap string node :=
  match cmd c, shell c, cwd c with
  | Argv [prog; opt; a; b], false, None =>
      if String.eqb prog "diff" && String.eqb opt "-q" then (diff_status fs a b, fs)
      else spawn c fs
  | _, _, _ => spawn c fs
  end.

(** *** [run_command] *)

(** The keyword arguments of [run_command]: its own two and what it
    passes on to [Popen]. *)
Record kwargs : Type := Kwargs {
  kw_shell : bool;
  kw_cwd : option string;
  display_output : bool;
  abort_on_failure : bool
}.

Definition plain : kwargs := Kwargs false None false true.
Definition with_shell (k : kwargs) : kwargs :=
  Kwargs true (kw_cwd k) (display_output k) (abort_on_failure k).
Definition with_cwd (d : string) (k : kwargs) : kwargs :=
  Kwargs (kw_shell k) (Some d) (display_output k) (abort_on_failure k).
Definition with_display (k : kwargs) : kwargs :=
  Kwargs (kw_shell k) (kw_cwd k) true (abort_on_failure k).
Definition without_abort (k : kwargs) : kwargs :=
  Kwargs (kw_shell k) (kw_cwd k) (display_output k) false.

Definition command_str (c : command) : string :=
  match c with
  | Argv parts => Py.join " " parts
  | Line text => text
  end.

(** [dump_output(error_output, output)] for the output captured from [c]. *)
Definition dump_output (c : call) (w : World) : World := emit (Dumped c) w.

(** [Ran] records the command and its exit status, as the script logs
    them at debug level. *)
Definition run_command (args0 : command) (k : kwargs) : M bool :=
  fun w =>
    let c := Call args0 (kw_shell k) (kw_cwd k) in
    let '(return_code, fs) := popen c (files w) in
    let w1 := emit (Ran c return_code) (set_files fs w) in
    let w2 := if display_output k then dump_output c w1 else w1 in
    let was_successful := return_code =? 0 in
    if negb was_successful then
      if abort_on_failure k then
        (Raise (ExternalCommandFailure return_code),
         dump_output c
           (emit (Printed ("Command '" +:+ command_str args0 +:+ "' failed, return value was "
                           +:+ pretty return_code)) w2))
      else (Ret was_successful, w2)
    else (Ret was_successful, w2).

Definition is_git_repo (path : string) : M bool :=
  run_command (Argv ["git"; "rev-parse"]) (without_abort (with_cwd path plain)).

(** *** [prompt_user] *)

(** The first loop of [prompt_user]: the lower-cased options, and the
    last item that equals its own upper case as the default. *)
Fixpoint scan_responses (items : string) (allowed_responses : gset ascii)
    (default_response : option ascii) : gset ascii * option ascii :=
  match items with
  | EmptyString => (allowed_responses, default_response)
  | String item rest =>
      scan_responses rest ({[ Py.lower_char item ]} ∪ allowed_responses)
        (if Ascii.eqb item (Py.upper_char item) then Some item else default_response)
  end.

Definition not_recognized : string :=
  "Your response was not recognized; please try again.".

(** The [while True] loop of [prompt_user], one line of operator input per
    pass; [raw_input] raises [EOFError] when the input has ended. *)
Fixpoint prompt_loop (prompt : string) (allowed_responses : gset ascii)
    (default_response : option ascii) (input : list string) (w : World) : res ascii * World :=
  match input with
  | [] => (Raise EOFError, set_stdin [] (emit (Prompted prompt) w))
  | line :: rest =>
      let w1 := set_stdin rest (emit (Prompted prompt) w) in
      match Py.lower (Py.strip line), default_response with
      | EmptyString, Some d => (Ret d, w1)
      | EmptyString, None => (Raise IndexError, w1)
      | String response _, _ =>
          if decide (response ∈ allowed_responses) then (Ret response, w1)
          else prompt_loop prompt allowed_responses default_response rest
                 (emit (Printed not_recognized) w1)
      end
  end.

Definition prompt_user (prompt allowed_responses_string : string) : M ascii :=
  fun w =>
    let '(allowed_responses, default_response) :=
      scan_responses allowed_responses_string ∅ None in
    match prompt_loop prompt allowed_responses default_response (stdin w) w with
    | (Ret response, w') => (Ret (Py.lower_char response), w')
    | (Raise e, w') => (Raise e, w')
    end.

(** *** [read_checklist] *)

(** [re.sub(r'#.*$', '', line)] on one line of a file: the text from the
    first [#] on is dropped, the line's own newline stays. *)
Fixpoint ends_with_newline (s : string) : bool :=
  match s with
  | EmptyString => false
  | String c EmptyString => Ascii.eqb c "010"
  | String _ s' => ends_with_newline s'
  end.

Fixpoint trim_comment (line : string) : string :=
  match line with
  | EmptyString => EmptyString
  | String c rest =>
      if Ascii.eqb c "#" then (if ends_with_newline rest then nl else EmptyString)
      else String c (trim_comment rest)
  end.

Definition nonempty (s : string) : bool :=
  match s with
  | EmptyString => false
  | _ => true
  end.

(** The body of the loop over the lines: [None] when the line adds
    nothing, [ValueError] when the unpacking [source, target = ...] does
    not get exactly two items. *)
Definition checklist_line (line : string) : res (option (string * string)) :=
  let separator := ","%char in
  let line := trim_comment line in
  let line := Py.strip line in
  if Py.contains separator line then
    match Py.split_max separator 2 line with
    | [source; target] =>
        if nonempty source && nonempty target then Ret (Some (source, target))
        else Ret None
    | _ => Raise ValueError
    end
  else Ret None.

Fixpoint checklist_lines (lines : list string) (checklist : list (string * string))
    : res (list (string * string)) :=
  match lines with
  | [] => Ret checklist
  | line :: rest =>
      match checklist_line line with
      | Ret (Some entry) => checklist_lines rest (checklist ++ [entry])
      | Ret None => checklist_lines rest checklist
      | Raise e => Raise e
      end
  end.

Definition read_checklist (checklist_file_path : string) : M (list (string * string)) :=
  text <- read_file checklist_file_path ;;
  fun w => (checklist_lines (Py.readlines text) [], w).

(** *** [update_package_list] *)

Definition update_package_list (hostname working_copy_dir username : string) : M (option Z) :=
  let package_list_file := "dpkg-selections" in
  let current_host_dir := working_copy_dir +:+ "/" +:+ hostname in
  present <- os_path_isdir current_host_dir ;;
  if negb present then
    print ("Current host directory " +:+ current_host_dir +:+ " doesn't exist") ;;;
    ret (Some FAILURE)
  else
    let dpkg := "/usr/bin/dpkg" in
    let command := dpkg +:+ " --get-selections \* > " +:+ current_host_dir +:+ "/conf/"
                   +:+ package_list_file in
    is_file <- os_path_isfile dpkg ;;
    usable <- (if is_file then os_access_x dpkg else ret false) ;;
    let '(package_list_file, command) :=
      if negb usable then
        ("package.list",
         "/bin/rpm -qa --queryformat " +:+ dq +:+ "%{NAME}.%{ARCH}.%{VERSION}\n" +:+ dq
         +:+ " > " +:+ current_host_dir +:+ "/conf/" +:+ "package.list")
      else (package_list_file, command) in
    run_command (Line command) (with_shell plain) ;;;
    run_command (Line ("sudo -u " +:+ username +:+ " sh -c " +:+ dq +:+ "git add "
                       +:+ package_list_file +:+ dq)) (with_shell plain) ;;;
    run_command (Line ("sudo -u " +:+ username +:+ " sh -c " +:+ dq +:+ "git commit -m " +:+ dq
                       +:+ "Auto-commit by confcheck running on " +:+ hostname +:+ dq +:+ dq))
                (with_shell plain) ;;;
    run_command (Line ("sudo -u " +:+ username +:+ " sh -c " +:+ dq +:+ "git push" +:+ dq))
                (with_shell plain) ;;;
    ret None.

(** *** [main] *)

(** Lines 80 to 112: the configuration file, the working copy directory
    and the clone or pull.  [inl code] is [return code]; [inr] carries
    [working_copy_dir] and [username] on. *)
Definition read_config (path : string) : M settings :=
  fun w => (config_get (default EmptyString (bytes_of (files w) path)), w).

Definition sync_repository (args : Args) : M (Z + string * string) :=
  found <- os_path_isfile (config_path args) ;;
  if negb found then
    print ("Config path " +:+ config_path args +:+ " doesn't exist") ;;;
    ret (inl FAILURE)
  else
    config <- read_config (config_path args) ;;
    let working_copy_dir := abspath (cfg_working_copy_dir config) in
    let repo_url := cfg_repo_url config in
    let username := cfg_username config in
    present <- os_path_isdir working_copy_dir ;;
    if negb present then
      print ("Working copy path " +:+ working_copy_dir +:+ " doesn't exist or isn't a directory") ;;;
      ret (inl FAILURE)
    else
      run_command (Argv ["chown"; "-R"; username; working_copy_dir]) plain ;;;
      repo <- is_git_repo working_copy_dir ;;
      (if repo then
         run_command (Line ("sudo -u " +:+ username +:+ " sh -c " +:+ dq +:+ "cd "
                            +:+ working_copy_dir +:+ " && git pull" +:+ dq)) (with_shell plain)
       else
         run_command (Line ("sudo -u " +:+ username +:+ " sh -c " +:+ dq +:+ "git clone "
                            +:+ repo_url +:+ " " +:+ working_copy_dir +:+ dq)) (with_shell plain)) ;;;
      ret (inr (working_copy_dir, username)).

(** Python's truth value of [args.dir_level]: an absent option is
    [None], and the integer 0 is false as well. *)
Definition truthy (v : option Z) : bool :=
  match v with
  | Some n => negb (n =? 0)
  | None => false
  end.

(** Lines 119 to 128. *)
Definition check_host_dir (env : Env) (args : Args) : M flow :=
  let hostname := gethostname env in
  if truthy (dir_level args) then
    let path_parts := rev (Py.split "/" (getcwd env)) in
    match Py.index path_parts (default 0 (dir_level args)) with
    | None => raise IndexError
    | Some current_host_dir =>
        if negb (String.eqb current_host_dir hostname) then
          response <- prompt_user
            ("WARNING! Your current host directory, " +:+ current_host_dir
             +:+ ", doesn't match your " +:+ "server's fully qualified hostname, "
             +:+ hostname +:+ ". Continue anyway [y/N]? ") "yN" ;;
          if negb (Ascii.eqb response "y") then ret (ReturnCode 2) else ret NextEntry
        else ret NextEntry
    end
  else ret NextEntry.

(** [re.sub(r'^.*?/conf/', '', cwd)]: the text after the first [/conf/],
    or all of it when there is none on its first line. *)
Fixpoint skip (n : nat) (s : string) : string :=
  match n, s with
  | S m, String _ s' => skip m s'
  | _, _ => s
  end.

Fixpoint after_conf (s : string) : option string :=
  if String.prefix "/conf/" s then Some (skip 6 s)
  else match s with
       | EmptyString => None
       | String c s' => if Ascii.eqb c "010" then None else after_conf s'
       end.

Definition module_path_of (cwd : string) : string := default cwd (after_conf cwd).

Definition clear_screen : M bool :=
  run_command (Argv ["clear"]) (with_display (with_shell plain)).

(** Lines 175 to 190: the operator's decision on a target that differs
    from the version under version control.  [again] is the next pass of
    the enclosing [while True] loop. *)
Definition modified_prompt (target : string) : string :=
  "WARNING! Target file " +:+ target +:+ " has been modified since last git checkin."
  +:+ nl +:+ "Continue anyway [y/N/(C)opy target to local dir/(V)iew diff] "
  +:+ "(Default: N)? ".

Definition escalate (file_path_in_working_copy source target : string) (again : M flow)
    : M flow :=
  response <- prompt_user (modified_prompt target) "yNcv" ;;
  if Ascii.eqb response "n" then ret (ReturnCode FAILURE)
  else if Ascii.eqb response "y" then ret NextEntry
  else if Ascii.eqb response "v" then
    clear_screen ;;;
    let command := "diff -u " +:+ file_path_in_working_copy +:+ " " +:+ target
                   +:+ " | less" in
    print ("Executing " +:+ command +:+ "...") ;;;
    run_command (Line command) (with_display (without_abort (with_shell plain))) ;;;
    again
  else if Ascii.eqb response "c" then
    shutil_copyfile target source ;;;
    again
  else again.

Definition working_copy_path (working_copy_dir module_path source : string) : string :=
  working_copy_dir +:+ "/" +:+ module_path +:+ "/" +:+ source.

(** Lines 165 to 190, the [while True] loop of check mode.  Every pass
    that goes round again has read a line of operator input, so
    [check_entry] gives the loop one pass more than there are lines. *)
Fixpoint check_loop (budget : nat) (working_copy_dir module_path source target : string)
    : M flow :=
  match budget with
  | O => raise LoopBudget
  | S budget' =>
      let file_path_in_working_copy :=
        working_copy_path working_copy_dir module_path source in
      tracked <- os_path_isfile file_path_in_working_copy ;;
      if negb tracked then
        print (source +:+ " doesn't appear to exist in version control, aborting") ;;;
        ret (ReturnCode FAILURE)
      else
        same <- run_command (Argv ["diff"; "-q"; file_path_in_working_copy; target])
                  (without_abort plain) ;;
        if same then ret NextEntry
        else escalate file_path_in_working_copy source target
               (check_loop budget' working_copy_dir module_path source target)
  end.

(** Lines 141 to 190, the body of the loop over the checklist. *)
Definition check_entry (args : Args) (working_copy_dir module_path checklist_file_path : string)
    (entry : string * string) : M flow :=
  let '(source, target) := entry in
  have_source <- os_path_isfile source ;;
  if negb have_source then
    print ("Config source file " +:+ source +:+ " referenced in " +:+ checklist_file_path
           +:+ " doesn't exist; " +:+ "please correct this and try again.") ;;;
    ret (ReturnCode FAILURE)
  else
    have_target <- os_path_isfile target ;;
    if negb have_target then
      response <- prompt_user ("Target file " +:+ target +:+ " doesn't exist. Continue [Y/n]? ")
                    "Yn" ;;
      if Ascii.eqb response "n" then ret (ReturnCode FAILURE) else ret NextEntry
    else if diff_mode args then
      let prompt := "File " +:+ target +:+ " differs from " +:+ source
                    +:+ ". Display diff [Y/n]? " in
      same <- run_command (Argv ["diff"; "-q"; target; source]) (without_abort plain) ;;
      let different := negb same in
      (if different then
         response <- prompt_user prompt "Yn" ;;
         if Ascii.eqb response "y" then
           clear_screen ;;;
           run_command (Line ("diff -u " +:+ dq +:+ target +:+ dq +:+ " " +:+ dq +:+ source
                              +:+ dq +:+ " | less"))
             (without_abort (with_display (with_shell plain))) ;;;
           ret tt
         else ret tt
       else ret tt) ;;;
      ret NextEntry
    else
      fun w => check_loop (S (length (stdin w))) working_copy_dir module_path source target w.

Fixpoint for_entries (args : Args) (working_copy_dir module_path checklist_file_path : string)
    (checklist : list (string * string)) : M (option Z) :=
  match checklist with
  | [] => ret (Some SUCCESS)
  | entry :: rest =>
      f <- check_entry args working_copy_dir module_path checklist_file_path entry ;;
      match f with
      | ReturnCode code => ret (Some code)
      | NextEntry => for_entries args working_copy_dir module_path checklist_file_path rest
      end
  end.

(** Lines 130 to 192. *)
Definition reconcile (env : Env) (args : Args) (working_copy_dir : string) : M (option Z) :=
  let checklist_file_path := "./CONFCHECKLIST" in
  found <- os_path_isfile checklist_file_path ;;
  if negb found then
    print ("Checklist file " +:+ checklist_file_path +:+ " doesn't exist") ;;;
    ret (Some 2)
  else
    let module_path := module_path_of (getcwd env) in
    checklist <- read_checklist checklist_file_path ;;
    for_entries args working_copy_dir module_path checklist_file_path checklist.

Definition main (env : Env) (args : Args) : M (option Z) :=
  let hostname := gethostname env in
  synced <- sync_repository args ;;
  match synced with
  | inl code => ret (Some code)
  | inr (working_copy_dir, username) =>
      if package_list_mode args then
        update_package_list hostname working_copy_dir username
      else
        f <- check_host_dir env args ;;
        match f with
        | ReturnCode code => ret (Some code)
        | NextEntry => reconcile env args working_copy_dir
        end
  end.

(** *** The [__main__] block *)

(** [sys.exit(None)] ends the process with status 0, and [sys.exit(n)]
    with the low eight bits of [n], [n mod 256]: a status is a number from
    0 to 255.  So the return code -9 that [Popen] gives for a program
    killed by signal 9 becomes the status 247. *)
Definition sys_exit (v : option Z) : outcome := Exit (default 0 v mod 256).

(** [try: sys.exit(main()) except ExternalCommandFailure as e:
    sys.exit(e.return_code)]. *)
Definition top_level (r : res (option Z) * World) : outcome * World :=
  match r with
  | (Ret v, w') => (sys_exit v, w')
  | (Raise (ExternalCommandFailure return_code), w') => (sys_exit (Some return_code), w')
  | (Raise e, w') => (Traceback e, w')
  end.

Definition script (env : Env) (args : Args) (w : World) : outcome * World :=
  top_level (main env args w).

(** A run that gets as far as the loop over the checklist: from [w0] the
    repository is synchronised, package-list mode is off, the host
    directory check lets the run go on, and [./CONFCHECKLIST] is read as
    [checklist], which leaves the world [w]. *)
Definition reaches_checklist (env : Env) (args : Args) (w0 : World)
    (working_copy_dir : string) (checklist : list (string * string)) (w : World) : Prop :=
  exists username w1,
    sync_repository args w0 = (Ret (inr (working_copy_dir, username)), w1)
    /\ package_list_mode args = false
    /\ check_host_dir env args w1 = (Ret NextEntry, w)
    /\ is_regular (files w) "./CONFCHECKLIST" = true
    /\ read_checklist "./CONFCHECKLIST" w = (Ret checklist, w).

(** *** Checklists whose every entry has drifted *)

(** Every entry finds, when its turn comes, a target whose bytes differ
    from the version under version control, while its local source is
    another file than both.  [fs] are the files before the first entry;
    each entry leaves them with its target copied over its source. *)
Fixpoint drifted (working_copy_dir module_path : string) (checklist : list (string * string))
    (fs : gmap string node) (now : Z) : Prop :=
  match checklist with
  | [] => True
  | (source, target) :: more =>
      let path := working_copy_path working_copy_dir module_path source in
      is_regular fs source = true
      /\ resolve source <> resolve target
      /\ resolve source <> resolve path
      /\ exists tb wb,
           bytes_of fs target = Some tb /\ bytes_of fs path = Some wb /\ wb <> tb
           /\ drifted working_copy_dir module_path more (write_bytes fs source tb now) now
  end.

(** The files after each target has been copied over its source, in order. *)
Fixpoint copy_all (checklist : list (string * string)) (fs : gmap string node) (now : Z)
    : gmap string node :=
  match checklist with
  | [] => fs
  | (source, target) :: more =>
      copy_all more
        match bytes_of fs target with
        | Some tb => write_bytes fs source tb now
        | None => fs
        end now
  end.

End Script.

(** ** A concrete system for examples *)

(** Path lookup from a current directory, without links: an absolute path
    names itself, a relative one is joined to the directory. *)
Definition join_path (dir path : string) : string :=
  if String.prefix "/" path then path
  else if String.prefix "./" path then dir +:+ "/" +:+ skip 2 path
  else dir +:+ "/" +:+ path.

(** External programs that leave the files alone and exit with the status
    that [status] gives them. *)
Definition posix (dir : string) (config : settings) (status : call -> Z) : OS := {|
  resolve := join_path dir;
  abspath := join_path dir;
  spawn := fun c fs => (status c, fs);
  config_get := fun _ => Ret config
|}.

Definition default_settings : settings :=
  Settings "/var/cache/confcheck" "/opt/git/confcheck" "confcheck".

Definition all_succeed : call -> Z := fun _ => 0.

Definition text_file (s : string) : node := Regular (File s 420 0).

(** The directory an external program starts in: the [cwd] keyword when
    [Popen] is given one, the directory of the script's process otherwise. *)
Definition start_dir (env : Env) (c : call) : string := default (getcwd env) (cwd c).

(** ** What the operator types *)

(** The line is blank: the operator just pressed enter. *)
Definition blank (line : string) : Prop := Py.strip line = EmptyString.

(** The line starts, after blanks and in either case, with [c]. *)
Definition answers (line : string) (c : ascii) : Prop :=
  exists c0 tail, Py.strip line = String c0 tail /\ Py.lower_char c0 = c.

(** A line of operator input that [prompt_user] takes as an answer: blank,
    or starting (after blanks, in either case) with one of the options. *)
Definition recognized (options : gset ascii) (line : string) : Prop :=
  match Py.strip line with
  | EmptyString => True
  | String c _ => Py.lower_char c ∈ options
  end.

(** The world after [raw_input(prompt)] has read a line and left [rest]. *)
Definition asked (prompt : string) (rest : list string) (w : World) : World :=
  set_stdin rest (emit (Prompted prompt) w).


(** ** The external programs of the checklist loop *)

Definition diff_call (a b : string) : call := Call (Argv ["diff"; "-q"; a; b]) false None.

Definition clear_call : call := Call (Argv ["clear"]) true None.

(** The pager of diff mode. *)
Definition pager_call (target source : string) : call :=
  Call (Line ("diff -u " +:+ dq +:+ target +:+ dq +:+ " " +:+ dq +:+ source +:+ dq +:+ " | less"))
       true None.

Definition differs_prompt (target source : string) : string :=
  "File " +:+ target +:+ " differs from " +:+ source +:+ ". Display diff [Y/n]? ".


(** [n] times: a line that starts with c, then a line that starts with y. *)
Fixpoint copy_then_yes (n : nat) (lines : list string) : Prop :=
  match n, lines with
  | O, [] => True
  | S n', first :: second :: more =>
      answers first "c" /\ answers second "y" /\ copy_then_yes n' more
  | _, _ => False
  end.

(** ** Verdicts and what they depend on *)

(** The outcome of comparing, for one entry, the target with its
    counterpart in the working copy (line 171): equal bytes let the entry
    pass, different bytes bring the question to the operator. *)
Inductive DivergenceVerdict : Type :=
  | UpToDate
  | TargetModifiedLocally.

Definition verdict_of (e : event) : option DivergenceVerdict :=
  match e with
  | Ran (Call (Argv [prog; opt; _; _]) false None) return_code =>
      if String.eqb prog "diff" && String.eqb opt "-q"
      then Some (if return_code =? 0 then UpToDate else TargetModifiedLocally)
      else None
  | _ => None
  end.

(** The verdicts of a run, in order, read off what it ran. *)
Definition verdicts (out : list event) : list DivergenceVerdict := omap verdict_of out.

(** What is left of a node when its metadata is put aside: the bytes of a
    regular file, nothing of a directory. *)
Definition node_bytes (n : node) : option string :=
  match n with
  | Regular f => Some (content f)
  | Directory => None
  end.

(** Two file systems with the same files, directories and bytes: modes
    and modification times may differ. *)
Definition same_bytes (fs1 fs2 : gmap string node) : Prop :=
  forall key, node_bytes <$> fs1 !! key = node_bytes <$> fs2 !! key.

(** Two worlds with the same bytes on disk, the same operator input to
    come and the same output so far: clocks may differ. *)
Definition alike (w1 w2 : World) : Prop :=
  same_bytes (files w1) (files w2) /\ stdin w1 = stdin w2 /\ stdout w1 = stdout w2.

(** A computation that cannot tell such worlds apart. *)
Definition respects {A} (m : M A) : Prop :=
  forall w1 w2, alike w1 w2 -> (m w1).1 = (m w2).1 /\ alike (m w1).2 (m w2).2.


(** ** The budget of the escalation loop *)

(** A computation that reads no operator input and does not run out of
    budget. *)
Definition tame {A} (m : M A) : Prop :=
  forall w, (m w).1 <> Raise LoopBudget /\ stdin (m w).2 = stdin w.

(** A computation that does not run out of budget. *)
Definition within_budget {A} (m : M A) : Prop :=
  forall w, (m w).1 <> Raise LoopBudget.


(** ** Example worlds *)

(** The operator works in [/home/op/repo/conf/web] on host
    [hostA.example.com]; the working copy is the default one. *)
Definition example_dir : string := "/home/op/repo/conf/web".

Definition example_env : Env :=
  {| gethostname := "hostA.example.com"; getcwd := example_dir |}.

Definition arguments (level : option Z) (diff packages : bool) : Args :=
  {| dir_level := level; diff_mode := diff; package_list_mode := packages;
     config_path := "/etc/confcheck.conf"; verbose := false |}.

Definition check_args : Args := arguments None false false.
Definition diff_args : Args := arguments None true false.
Definition package_args : Args := arguments None false true.

Definition quiet_os : OS := posix example_dir default_settings all_succeed.

(** [clear] exits with 1 (no terminal), everything else with 0. *)
Definition clear_fails : call -> Z :=
  fun c => match cmd c with
           | Argv [prog] => if String.eqb prog "clear" then 1 else 0
           | _ => 0
           end.

(** [chown] exits with 7, everything else with 0. *)
Definition chown_fails : call -> Z :=
  fun c => match cmd c with
           | Argv (prog :: _) => if String.eqb prog "chown" then 7 else 0
           | _ => 0
           end.

(** The files of the examples: the configuration file, the working copy
    with the tracked [web/nginx.conf], the local source, a checklist of one
    line, and the live target when it is given. *)
Definition example_files (checklist : string) (target : option string) : gmap string node :=
  let fs : gmap string node :=
    <["/etc/confcheck.conf" := text_file "[git]"]>
    (<["/var/cache/confcheck" := Directory]>
    (<["/var/cache/confcheck/hostA.example.com" := Directory]>
    (<["/var/cache/confcheck/web/nginx.conf" := text_file "worker_processes 2;"]>
    (<["/home/op/repo/conf/web/CONFCHECKLIST" := text_file checklist]>
    (<["/home/op/repo/conf/web/nginx.conf" := text_file "worker_processes 4;"]> ∅))))) in
  match target with
  | Some bytes => <["/etc/nginx/nginx.conf" := text_file bytes]> fs
  | None => fs
  end.

Definition nginx_line : string := "nginx.conf,/etc/nginx/nginx.conf" +:+ nl.

Definition example_world (checklist : string) (target : option string) (input : list string)
    : World :=
  mkWorld (example_files checklist target) input [] 0.

(** The same bytes under other modes and modification times, and another
    clock. *)
Definition touched (w : World) : World :=
  mkWorld (fmap (fun n => match n with
                          | Regular f => Regular (File (content f) 384 (mtime f + 86400))
                          | Directory => Directory
                          end) (files w))
          (stdin w) (stdout w) (clock w + 86400).

(** The operator works inside the working copy itself: [/srv/conf] is
    the working copy and the current directory is [/srv/conf/web], so the
    local [nginx.conf] and its counterpart are one file. *)
Definition inplace_os : OS :=
  posix "/srv/conf/web" (Settings "/srv/conf" "/opt/git/confcheck" "confcheck") all_succeed.

Definition inplace_env : Env :=
  {| gethostname := "hostA.example.com"; getcwd := "/srv/conf/web" |}.

Definition inplace_world (input : list string) : World :=
  mkWorld (<["/etc/confcheck.conf" := text_file "[git]"]>
           (<["/srv/conf" := Directory]>
           (<["/srv/conf/web/CONFCHECKLIST" := text_file nginx_line]>
           (<["/srv/conf/web/nginx.conf" := text_file "worker_processes 2;"]>
           (<["/etc/nginx/nginx.conf" := text_file "worker_processes 8;"]> ∅)))))
          input [] 0.

Definition prompts (out : list event) : list string :=
  omap (fun e => match e with Prompted text => Some text | _ => None end) out.


(** ** Checklist files written as the script's documentation describes *)

(** A field that can stand in a checklist line: no separator, no comment
    sign, no newline. *)
Definition clean (s : string) : bool :=
  forallb (fun c => negb (Ascii.eqb c "," || Ascii.eqb c "#" || Ascii.eqb c "010"))
    (Py.chars s).

Definition starts_nonblank (s : string) : bool :=
  match s with
  | EmptyString => false
  | String c _ => negb (Py.isspace c)
  end.

Fixpoint ends_nonblank (s : string) : bool :=
  match s with
  | EmptyString => false
  | String c EmptyString => negb (Py.isspace c)
  | String _ s' => ends_nonblank s'
  end.

(** A pair that a checklist line can hold as it is: the source does not
    start with a blank and the target does not end with one. *)
Definition writable (e : string * string) : bool :=
  clean e.1 && starts_nonblank e.1 && clean e.2 && ends_nonblank e.2.

(** The line [source,target] with its newline, and the file of such lines. *)
Definition entry_line (e : string * string) : string := e.1 +:+ "," +:+ e.2 +:+ nl.

Fixpoint render_checklist (checklist : list (string * string)) : string :=
  match checklist with
  | [] => EmptyString
  | e :: more => entry_line e +:+ render_checklist more
  end.

Fixpoint no_char (c : ascii) (s : string) : bool :=
  match s with
  | EmptyString => true
  | String x s' => negb (Ascii.eqb x c) && no_char c s'
  end.

(** A line as a file yields it: a newline, if any, is its last character. *)
Fixpoint newline_last_only (s : string) : bool :=
  match s with
  | EmptyString => true
  | String _ EmptyString => true
  | String c s' => negb (Ascii.eqb c "010") && newline_last_only s'
  end.

(** ** What [prompt_user] does with a line *)

(** A line that [prompt_user] answers with its error message: it is not
    blank and starts (after blanks, in either case) with no option. *)
Definition rejected (options : gset ascii) (line : string) : Prop :=
  match Py.strip line with
  | EmptyString => False
  | String c _ => Py.lower_char c ∉ options
  end.

(** What [n] rejected lines leave on the terminal. *)
Fixpoint retries (prompt : string) (n : nat) : list event :=
  match n with
  | O => []
  | S n' => Prompted prompt :: Printed not_recognized :: retries prompt n'
  end.

(** What a line that is not rejected makes [prompt_user] return. *)
Definition reply (default_response : option ascii) (line : string) : res ascii :=
  match Py.strip line, default_response with
  | EmptyString, Some d => Ret (Py.lower_char d)
  | EmptyString, None => Raise IndexError
  | String c _, _ => Ret (Py.lower_char c)
  end.

(** ** The commands of package-list mode *)

Definition git_as (username command : string) : call :=
  Call (Line ("sudo -u " +:+ username +:+ " sh -c " +:+ dq +:+ command +:+ dq)) true None.

Definition commit_call (username hostname : string) : call :=
  git_as username ("git commit -m " +:+ dq +:+ "Auto-commit by confcheck running on "
                   +:+ hostname +:+ dq).

(** The message that [run_command] prints before it raises. *)
Definition failure_message (c : call) (return_code : Z) : string :=
  "Command '" +:+ command_str (cmd c) +:+ "' failed, return value was "
  +:+ pretty return_code.

(** ** Invariants of a run *)

(** [sat R E V m]: from any world [w], the computation [m] ends in a
    world related to [w] by [R]; what it returns satisfies [V], and an
    exception that it raises satisfies [E] in the world it leaves. *)
Definition sat {A} (R : World -> World -> Prop) (E : exn -> World -> Prop) (V : A -> Prop)
    (m : M A) : Prop :=
  forall w, R w (m w).2
            /\ match (m w).1 with
               | Ret a => V a
               | Raise e => E e (m w).2
               end.

Definition any {A} : A -> Prop := fun _ => True.

Definition anywhere : World -> World -> Prop := fun _ _ => True.

(** What [main] returns, and how a pass of a loop body ends. *)
Definition exit_value (v : option Z) : Prop :=
  v = None \/ v = Some SUCCESS \/ v = Some FAILURE.

Definition flow_value (f : flow) : Prop := f = NextEntry \/ f = ReturnCode FAILURE.

(** The output ends with the report of a command that exited with
    [return_code]: [run_command] has printed its message and dumped what
    it captured. *)
Definition reported (return_code : Z) (out : list event) : Prop :=
  return_code <> 0
  /\ exists c before,
       out = (before ++ [Printed (failure_message c return_code); Dumped c])%list
       /\ Ran c return_code ∈ before.

(** [ExternalCommandFailure] is only raised with such a report. *)
Definition raised_with_report (e : exn) (w : World) : Prop :=
  match e with
  | ExternalCommandFailure return_code => reported return_code (stdout w)
  | _ => True
  end.

(** The exceptions of the interpreter and its libraries, which nothing
    in the script catches. *)
Definition uncaught (e : exn) : bool :=
  match e with
  | ExternalCommandFailure _ | LoopBudget => false
  | _ => true
  end.

(** From [w] to [w'] the operator has been asked nothing and no input
    has been read. *)
Definition unasked (w w' : World) : Prop :=
  stdin w' = stdin w /\ prompts (stdout w') = prompts (stdout w).

(** From [w] to [w'] the files in [K] have not changed. *)
Definition unchanged_on (K : string -> Prop) (w w' : World) : Prop :=
  forall key, K key -> files w' !! key = files w !! key.

(** ** What check mode shows *)

(** The pager of check mode. *)
Definition view_command (file_path_in_working_copy target : string) : string :=
  "diff -u " +:+ file_path_in_working_copy +:+ " " +:+ target +:+ " | less".

(** ** The host directory warning, and the module path *)

Definition host_warning (current_host_dir hostname : string) : string :=
  "WARNING! Your current host directory, " +:+ current_host_dir
  +:+ ", doesn't match your server's fully qualified hostname, "
  +:+ hostname +:+ ". Continue anyway [y/N]? ".

(** [/conf/] occurs in [s]. *)
Fixpoint occurs_conf (s : string) : bool :=
  String.prefix "/conf/" s
  || match s with
     | EmptyString => false
     | String _ s' => occurs_conf s'
     end.

(** ** Further example systems *)

(** [git rev-parse] exits with 128 (not a repository), everything else
    with 0. *)
Definition no_repository : call -> Z :=
  fun c => match cmd c with
           | Argv [prog; sub] =>
               if String.eqb prog "git" && String.eqb sub "rev-parse" then 128 else 0
           | _ => 0
           end.

(** [git commit] exits with 1 (nothing to commit), everything else with 0. *)
Definition nothing_to_commit : call -> Z :=
  fun c => match c with
           | Call (Line text) true None =>
               if String.eqb text
                    (command_str (cmd (commit_call "confcheck" "hostA.example.com")))
               then 1 else 0
           | _ => 0
           end.

(** The operator works two levels below the directory of the host. *)
Definition host_env : Env :=
  {| gethostname := "hostA.example.com"; getcwd := "/srv/repo/hostA.example.com/conf/web" |}.


(** ** The question of diff mode *)

(** What the operator has been shown when the question of diff mode is
    answered, after [n] lines that were rejected. *)
Definition asked_trace (source target : string) (n : nat) (w : World) : list event :=
  (stdout w ++ Ran (diff_call target source) 1
             :: retries (differs_prompt target source) n
             ++ [Prompted (differs_prompt target source)])%list.

(** ** Systems in which the claims on exit statuses and directories fail *)

(** [chown] is killed by signal 9, for which [Popen] gives the return
    code -9; everything else exits with 0. *)
Definition chown_killed : call -> Z :=
  fun c => match cmd c with
           | Argv (prog :: _) => if String.eqb prog "chown" then -9 else 0
           | _ => 0
           end.

(** The directories in which the programs of a run were started, in order. *)
Definition started_in (env : Env) (out : list event) : list string :=
  omap (fun e => match e with
                 | Ran c _ => Some (start_dir env c)
                 | _ => None
                 end) out.

(** The operator works inside the working copy, which has a directory
    for this host. *)
Definition inplace_host_world (input : list string) : World :=
  mkWorld (<["/srv/conf/hostA.example.com" := Directory]> (files (inplace_world input)))
          input [] 0.


(** * Properties *)

(** ** Characters *)

Lemma lower_char_idem (c : ascii) : Py.lower_char (Py.lower_char c) = Py.lower_char c.
Proof. destruct c as [[] [] [] [] [] [] [] []]; reflexivity. Qed.

Lemma upper_marks_itself (c : ascii) :
  Py.isupper c = true -> Ascii.eqb c (Py.upper_char c) = true.
Proof. destruct c as [[] [] [] [] [] [] [] []]; vm_compute; congruence. Qed.

Lemma lower_marks_nothing (c : ascii) :
  Py.islower c = true -> Ascii.eqb c (Py.upper_char c) = false.
Proof. destruct c as [[] [] [] [] [] [] [] []]; vm_compute; congruence. Qed.

Lemma chars_app (s t : string) : Py.chars (s +:+ t) = (Py.chars s ++ Py.chars t)%list.
Proof. induction s as [|c s IH]; simpl; [reflexivity | now rewrite IH]. Qed.

Lemma string_app_assoc (a b c : string) : (a +:+ b) +:+ c = a +:+ (b +:+ c).
Proof.
  induction a as [|x a IH]; [reflexivity|].
  change (String x ((a +:+ b) +:+ c) = String x (a +:+ (b +:+ c))). now rewrite IH.
Qed.

(** A line that starts with a character that is not blank keeps it as
    its first character when stripped. *)
Lemma strip_first (c : ascii) (text : string) :
  Py.isspace c = false -> exists tail, Py.strip (String c text) = String c tail.
Proof.
  intros H. unfold Py.strip. simpl Py.lstrip. rewrite H. simpl Py.rstrip.
  destruct (Py.rstrip text); [rewrite H|]; eauto.
Qed.

(** ** The monad *)

Lemma bind_ret_l {A B} (a : A) (k : A -> M B) (w : World) : bind (ret a) k w = k a w.
Proof. reflexivity. Qed.

Lemma bind_run {A B} (m : M A) (k : A -> M B) (w w' : World) (a : A) :
  m w = (Ret a, w') -> bind m k w = k a w'.
Proof. unfold bind. now intros ->. Qed.

Lemma bind_raise {A B} (m : M A) (k : A -> M B) (w w' : World) (e : exn) :
  m w = (Raise e, w') -> bind m k w = (Raise e, w').
Proof. unfold bind. now intros ->. Qed.

(** ** [prompt_user] *)

(** The option set that [prompt_user] builds holds the lower-cased
    characters of the response string, and nothing else. *)
Lemma scan_responses_allowed (items : string) (allowed : gset ascii) (d : option ascii) (c : ascii) :
  c ∈ (scan_responses items allowed d).1 <->
  c ∈ allowed \/ exists item, item ∈ Py.chars items /\ c = Py.lower_char item.
Proof.
  revert allowed d. induction items as [|item items IH]; intros allowed d; simpl.
  - split; [auto | intros [H | (item & H & _)]; [exact H | inversion H]].
  - rewrite IH, elem_of_union, elem_of_singleton. split.
    + intros [[-> | H] | (i & Hi & ->)].
      * right. exists item. split; [left | reflexivity].
      * now left.
      * right. exists i. split; [now right | reflexivity].
    + intros [H | (i & Hi & ->)].
      * left. now right.
      * apply elem_of_cons in Hi as [-> | Hi]; [left; now left | right; eauto].
Qed.

(** The default that [prompt_user] finds when one item is an upper-case
    letter and the others are lower-case letters. *)
Lemma scan_responses_lower (items : string) (allowed : gset ascii) (d : option ascii) :
  forallb Py.islower (Py.chars items) = true ->
  (scan_responses items allowed d).2 = d.
Proof.
  revert allowed d. induction items as [|item items IH]; intros allowed d H; simpl in *.
  - reflexivity.
  - apply andb_true_iff in H as [Hc H]. rewrite IH by exact H.
    now rewrite (lower_marks_nothing _ Hc).
Qed.

Lemma scan_responses_default (before after : string) (d : ascii) (allowed : gset ascii)
    (d0 : option ascii) :
  forallb Py.islower (Py.chars before) = true -> Py.isupper d = true ->
  forallb Py.islower (Py.chars after) = true ->
  (scan_responses (before +:+ String d after) allowed d0).2 = Some d.
Proof.
  intros Hb Hd Ha. revert allowed d0. induction before as [|c before IH]; intros allowed d0.
  - simpl. rewrite scan_responses_lower by exact Ha. now rewrite (upper_marks_itself _ Hd).
  - simpl in Hb. apply andb_true_iff in Hb as [Hc Hb]. simpl. now apply IH.
Qed.

(** Whatever [prompt_loop] returns was typed as an option or is the default. *)
Lemma prompt_loop_returns (prompt : string) (allowed : gset ascii) (d : option ascii)
    (input : list string) (w w' : World) (r : ascii) :
  prompt_loop prompt allowed d input w = (Ret r, w') -> r ∈ allowed \/ d = Some r.
Proof.
  revert w. induction input as [|line rest IH]; intros w; simpl.
  - discriminate.
  - destruct (Py.lower (Py.strip line)) as [|c tail].
    + destruct d; [|discriminate]. intros [= -> _]. now right.
    + destruct (decide (c ∈ allowed)) as [Hin|Hout].
      * intros [= -> _]. now left.
      * apply IH.
Qed.

Lemma lower_strip_empty (line : string) :
  Py.strip line = EmptyString -> Py.lower (Py.strip line) = EmptyString.
Proof. now intros ->. Qed.

Lemma lower_strip_first (line : string) (c : ascii) (tail : string) :
  Py.strip line = String c tail ->
  Py.lower (Py.strip line) = String (Py.lower_char c) (Py.lower tail).
Proof. now intros ->. Qed.

Lemma prompt_user_default (prompt spec line : string) (rest : list string) (d : ascii) (w : World) :
  (scan_responses spec ∅ None).2 = Some d ->
  stdin w = line :: rest -> Py.strip line = EmptyString ->
  prompt_user prompt spec w = (Ret (Py.lower_char d), set_stdin rest (emit (Prompted prompt) w)).
Proof.
  intros Hd Hin Hline. unfold prompt_user.
  destruct (scan_responses spec ∅ None) as [allowed d'] eqn:E. simpl in Hd. subst d'.
  rewrite Hin. simpl. now rewrite (lower_strip_empty _ Hline).
Qed.

Lemma prompt_user_accepts (prompt spec line : string) (rest : list string) (c : ascii)
    (tail : string) (w : World) :
  stdin w = line :: rest -> Py.strip line = String c tail ->
  Py.lower_char c ∈ (scan_responses spec ∅ None).1 ->
  prompt_user prompt spec w
  = (Ret (Py.lower_char c), set_stdin rest (emit (Prompted prompt) w)).
Proof.
  intros Hin Hline Hc. unfold prompt_user.
  destruct (scan_responses spec ∅ None) as [allowed d'] eqn:E. simpl in Hc.
  rewrite Hin. simpl. rewrite (lower_strip_first _ _ _ Hline).
  destruct (decide (Py.lower_char c ∈ allowed)); [|contradiction].
  now rewrite lower_char_idem.
Qed.

Lemma prompt_user_retries (prompt spec line : string) (rest : list string) (c : ascii)
    (tail : string) (w : World) :
  stdin w = line :: rest -> Py.strip line = String c tail ->
  Py.lower_char c ∉ (scan_responses spec ∅ None).1 ->
  prompt_user prompt spec w
  = prompt_user prompt spec
      (emit (Printed not_recognized) (set_stdin rest (emit (Prompted prompt) w))).
Proof.
  intros Hin Hline Hc. unfold prompt_user.
  destruct (scan_responses spec ∅ None) as [allowed d'] eqn:E. simpl in Hc.
  rewrite Hin. simpl. rewrite (lower_strip_first _ _ _ Hline).
  destruct (decide (Py.lower_char c ∈ allowed)); [contradiction|]. reflexivity.
Qed.

Lemma prompt_user_member (prompt spec : string) (w w' : World) (r : ascii) :
  prompt_user prompt spec w = (Ret r, w') -> r ∈ (scan_responses spec ∅ None).1.
Proof.
  unfold prompt_user.
  destruct (scan_responses spec ∅ None) as [allowed d] eqn:E. simpl.
  destruct (prompt_loop prompt allowed d (stdin w) w) as [[r0|e] w0] eqn:L; [|discriminate].
  intros [= <- <-]. apply prompt_loop_returns in L as [H | ->].
  - assert (H' : r0 ∈ (scan_responses spec ∅ None).1) by now rewrite E.
    apply scan_responses_allowed in H' as [H' | (item & Hi & ->)]; [inversion H'|].
    rewrite lower_char_idem.
    change allowed with ((allowed, d).1). rewrite <- E.
    apply scan_responses_allowed. right. eauto.
  - (* the default is an item of the response string *)
    assert (G : forall items a d0 x, (scan_responses items a d0).2 = Some x ->
                d0 = Some x \/ x ∈ Py.chars items).
    { clear. induction items as [|i items IH]; intros a d0 x; simpl.
      - now left.
      - intros H. apply IH in H as [H | H].
        + destruct (Ascii.eqb i (Py.upper_char i)).
          * injection H as ->. right. left.
          * now left.
        + right. now right. }
    assert (E2 : (scan_responses spec ∅ None).2 = Some r0) by now rewrite E.
    apply G in E2 as [? | Hi]; [discriminate|].
    change allowed with ((allowed, Some r0).1). rewrite <- E.
    apply scan_responses_allowed. right. eauto.
Qed.

Lemma prompt_loop_answers (prompt : string) (allowed : gset ascii) (d : ascii)
    (input : list string) (w : World) :
  Exists (recognized allowed) input ->
  exists r w', prompt_loop prompt allowed (Some d) input w = (Ret r, w').
Proof.
  revert w. induction input as [|line rest IH]; intros w H.
  - inversion H.
  - simpl. unfold recognized in H.
    destruct (Py.strip line) as [|c tail] eqn:E; simpl.
    + eauto.
    + destruct (decide (Py.lower_char c ∈ allowed)) as [Hin|Hout]; [eauto|].
      apply IH. inversion H as [? ? Hh | ? ? Ht]; subst.
      * rewrite E in Hh. contradiction.
      * exact Ht.
Qed.

(** C8 (amended).  For a response string with exactly one upper-case
    letter [d] among lower-case letters, the option set of [prompt_user]
    is the set of the lower-cased letters, and: a blank line returns the default (lower
    case); otherwise only the first character counts (blanks around the
    line are dropped before), in either case, and is returned when it is an
    option; a line that starts with anything else prints the error and asks
    again with the rest of the input; whatever is returned is an option; and
    input that holds an answer somewhere gets a value returned. *)
Theorem prompt_user_contract (prompt before after : string) (d : ascii) :
  forallb Py.islower (Py.chars before) = true ->
  Py.isupper d = true ->
  forallb Py.islower (Py.chars after) = true ->
  let spec := before +:+ String d after in
  let options := (scan_responses spec ∅ None).1 in
  (forall c, c ∈ options <-> exists item, item ∈ Py.chars spec /\ c = Py.lower_char item)
  /\ (forall w line rest,
        stdin w = line :: rest -> Py.strip line = EmptyString ->
        prompt_user prompt spec w
        = (Ret (Py.lower_char d), set_stdin rest (emit (Prompted prompt) w)))
  /\ (forall w line rest c tail,
        stdin w = line :: rest -> Py.strip line = String c tail ->
        Py.lower_char c ∈ options ->
        prompt_user prompt spec w
        = (Ret (Py.lower_char c), set_stdin rest (emit (Prompted prompt) w)))
  /\ (forall w line rest c tail,
        stdin w = line :: rest -> Py.strip line = String c tail ->
        Py.lower_char c ∉ options ->
        prompt_user prompt spec w
        = prompt_user prompt spec
            (emit (Printed not_recognized) (set_stdin rest (emit (Prompted prompt) w))))
  /\ (forall w c text rest,
        stdin w = String c text :: rest -> Py.isspace c = false ->
        (Py.lower_char c ∈ options ->
         prompt_user prompt spec w
         = (Ret (Py.lower_char c), set_stdin rest (emit (Prompted prompt) w)))
        /\ (Py.lower_char c ∉ options ->
            prompt_user prompt spec w
            = prompt_user prompt spec
                (emit (Printed not_recognized) (set_stdin rest (emit (Prompted prompt) w)))))
  /\ (forall w r w', prompt_user prompt spec w = (Ret r, w') -> r ∈ options)
  /\ (forall w, Exists (recognized options) (stdin w) ->
        exists r w', prompt_user prompt spec w = (Ret r, w')).
Proof.
  intros Hb Hd Ha spec options.
  assert (Hdef : (scan_responses spec ∅ None).2 = Some d)
    by now apply scan_responses_default.
  split; [|split; [|split; [|split; [|split; [|split]]]]].
  - intros c. split.
    + intros H. apply scan_responses_allowed in H as [H | H]; [inversion H | exact H].
    + intros H. apply scan_responses_allowed. now right.
  - intros w line rest Hin Hline. now apply (prompt_user_default _ _ line).
  - intros w line rest c tail Hin Hline Hc. now apply (prompt_user_accepts _ _ line _ _ tail).
  - intros w line rest c tail Hin Hline Hc. now apply (prompt_user_retries _ _ line _ c tail).
  - intros w c text rest Hin Hc. destruct (strip_first c text Hc) as [tail Hline]. split.
    + intros Ho. now apply (prompt_user_accepts _ _ (String c text) _ _ tail).
    + intros Ho. now apply (prompt_user_retries _ _ (String c text) _ c tail).
  - intros w r w' H. now apply prompt_user_member in H.
  - intros w H. unfold prompt_user. subst options.
    destruct (scan_responses spec ∅ None) as [allowed d'] eqn:E. simpl in *. subst d'.
    destruct (prompt_loop_answers prompt allowed d (stdin w) w H) as (r & w' & ->).
    eauto.
Qed.

Section Properties.
Context `{os : OS}.

(** ** [run_command] and the exit status *)

Lemma run_command_ok (c : command) (k : kwargs) (w : World) (fs : gmap string node) :
  popen (Call c (kw_shell k) (kw_cwd k)) (files w) = (0, fs) ->
  run_command c k w
  = (Ret true,
     let w1 := emit (Ran (Call c (kw_shell k) (kw_cwd k)) 0) (set_files fs w) in
     if display_output k then emit (Dumped (Call c (kw_shell k) (kw_cwd k))) w1 else w1).
Proof. unfold run_command. now intros ->. Qed.

Lemma run_command_tolerated (c : command) (k : kwargs) (w : World) (fs : gmap string node)
    (rc : Z) :
  popen (Call c (kw_shell k) (kw_cwd k)) (files w) = (rc, fs) ->
  rc <> 0 -> abort_on_failure k = false ->
  run_command c k w
  = (Ret false,
     let w1 := emit (Ran (Call c (kw_shell k) (kw_cwd k)) rc) (set_files fs w) in
     if display_output k then emit (Dumped (Call c (kw_shell k) (kw_cwd k))) w1 else w1).
Proof.
  unfold run_command. intros -> Hrc ->.
  apply Z.eqb_neq in Hrc. now rewrite Hrc.
Qed.

Lemma run_command_fatal (c : command) (k : kwargs) (w : World) (fs : gmap string node)
    (rc : Z) :
  popen (Call c (kw_shell k) (kw_cwd k)) (files w) = (rc, fs) ->
  rc <> 0 -> abort_on_failure k = true ->
  (run_command c k w).1 = Raise (ExternalCommandFailure rc).
Proof.
  unfold run_command. intros -> Hrc ->.
  apply Z.eqb_neq in Hrc. now rewrite Hrc.
Qed.

Lemma script_returns (env : Env) (args : Args) (w w' : World) (v : option Z) :
  main env args w = (Ret v, w') -> script env args w = (Exit (default 0 v mod 256), w').
Proof. unfold script, top_level. now intros ->. Qed.

Lemma script_aborts (env : Env) (args : Args) (w w' : World) (code : Z) :
  main env args w = (Raise (ExternalCommandFailure code), w') ->
  script env args w = (Exit (code mod 256), w').
Proof. unfold script, top_level. now intros ->. Qed.

(** C9 (amended).  [run_command] returns [True] exactly when the return
    code of the command is 0.  With another return code it raises
    [ExternalCommandFailure] with that code when failures abort, and
    returns [False] when they do not.  The [__main__] block passes the code
    that the exception carries to [sys.exit], so the process ends with
    that code modulo 256: with the code itself when the command exited
    (a code from 1 to 255), and with 256 - n when the command was killed
    by signal n, for which [Popen] gives the return code -n.  For one, so
    it is with whatever [chown] returns. *)
Theorem run_command_contract (c : command) (k : kwargs) (w : World) :
  let return_code := (popen (Call c (kw_shell k) (kw_cwd k)) (files w)).1 in
  ((run_command c k w).1 = Ret true <-> return_code = 0)
  /\ (return_code <> 0 -> abort_on_failure k = true ->
      (run_command c k w).1 = Raise (ExternalCommandFailure return_code))
  /\ (return_code <> 0 -> abort_on_failure k = false ->
      (run_command c k w).1 = Ret false)
  /\ (forall env args w0 w' code,
        main env args w0 = (Raise (ExternalCommandFailure code), w') ->
        script env args w0 = (Exit (code mod 256), w')
        /\ (0 <= code < 256 -> script env args w0 = (Exit code, w'))
        /\ (-256 < code < 0 -> script env args w0 = (Exit (256 + code), w')))
  /\ (forall env args w0 config code,
        is_regular (files w0) (config_path args) = true ->
        (read_config (config_path args) w0).1 = Ret config ->
        is_directory (files w0) (abspath (cfg_working_copy_dir config)) = true ->
        (spawn (Call (Argv ["chown"; "-R"; cfg_username config;
                            abspath (cfg_working_copy_dir config)]) false None)
               (files w0)).1 = code ->
        code <> 0 ->
        (script env args w0).1 = Exit (code mod 256)
        /\ (0 < code < 256 -> (script env args w0).1 = Exit code)
        /\ (-256 < code < 0 -> (script env args w0).1 = Exit (256 + code))).
Proof.
  intros return_code. subst return_code.
  destruct (popen (Call c (kw_shell k) (kw_cwd k)) (files w)) as [rc fs] eqn:E. simpl.
  split; [split|split; [|split; [|split]]].
  - unfold run_command. rewrite E. destruct (rc =? 0) eqn:Hz; simpl.
    + intros _. now apply Z.eqb_eq.
    + destruct (abort_on_failure k); discriminate.
  - intros ->. now rewrite (run_command_ok _ _ _ _ E).
  - intros Hrc Hk. now apply (run_command_fatal _ _ _ fs).
  - intros Hrc Hk. now rewrite (run_command_tolerated _ _ _ _ _ E Hrc Hk).
  - intros env args w0 w' code H. apply script_aborts in H. rewrite H.
    split; [reflexivity|]. split; intros Hcode.
    + now rewrite Z.mod_small by lia.
    + replace (code mod 256) with (256 + code); [reflexivity|].
      apply (Z.mod_unique code 256 (-1)); lia.
  - intros env args w0 config code Hcfg Hread Hdir Hchown Hcode.
    enough (Hexit : (script env args w0).1 = Exit (code mod 256)).
    { rewrite Hexit. split; [reflexivity|]. split; intros Hrange.
      - now rewrite Z.mod_small by lia.
      - replace (code mod 256) with (256 + code); [reflexivity|].
        apply (Z.mod_unique code 256 (-1)); lia. }
    unfold script, top_level, main, sync_repository, bind at 1 2.
    unfold os_path_isfile at 1. rewrite Hcfg. simpl.
    unfold bind at 1. unfold read_config in *. simpl in Hread. rewrite Hread.
    unfold bind at 1. unfold os_path_isdir at 1. rewrite Hdir. simpl.
    unfold bind at 1.
    destruct (run_command _ plain w0) as [r w1] eqn:R.
    assert (Hr : r = Raise (ExternalCommandFailure code)).
    { change r with ((r, w1).1). rewrite <- R.
      destruct (spawn (Call (Argv ["chown"; "-R"; cfg_username config;
                  abspath (cfg_working_copy_dir config)]) false None) (files w0))
        as [rc' fs'] eqn:S. simpl in Hchown. subst rc'.
      apply (run_command_fatal _ _ _ fs'); [|exact Hcode|reflexivity].
      simpl. unfold popen. simpl. exact S. }
    subst r. reflexivity.
Qed.

(** ** Package-list mode *)

Lemma run_shell_ok (text : string) (w : World) :
  (spawn (Call (Line text) true None) (files w)).1 = 0 ->
  run_command (Line text) (with_shell plain) w
  = (Ret true, emit (Ran (Call (Line text) true None) 0)
                 (set_files (spawn (Call (Line text) true None) (files w)).2 w)).
Proof.
  intros H. unfold run_command, popen. simpl.
  destruct (spawn (Call (Line text) true None) (files w)) as [rc fs].
  simpl in H. now subst rc.
Qed.

(** C10 (amended).  In package-list mode, once the repository is
    synchronised, the host directory is there and the shell commands
    succeed, the script
    runs four commands: the inventory, redirected into
    [working_copy_dir/hostname/conf/], then [git add], [git commit] and
    [git push].  None is given a directory, so each starts in the current
    directory of the script's process, whatever the working copy is.
    [update_package_list] then returns [None], and the process exits
    with status 0. *)
Theorem package_list_runs_in_cwd (env : Env) (args : Args) (w0 w1 : World)
    (working_copy_dir username : string) :
  sync_repository args w0 = (Ret (inr (working_copy_dir, username)), w1) ->
  package_list_mode args = true ->
  is_directory (files w1) (working_copy_dir +:+ "/" +:+ gethostname env) = true ->
  (forall c fs, shell c = true -> (spawn c fs).1 = 0) ->
  exists w' package_list_file inventory,
    update_package_list (gethostname env) working_copy_dir username w1 = (Ret None, w')
    /\ script env args w0 = (Exit 0, w')
    /\ ((package_list_file = "dpkg-selections"
         /\ inventory = "/usr/bin/dpkg" +:+ " --get-selections \* > " +:+ working_copy_dir
                        +:+ "/" +:+ gethostname env +:+ "/conf/" +:+ package_list_file)
        \/ (package_list_file = "package.list"
            /\ inventory = "/bin/rpm -qa --queryformat " +:+ dq
                           +:+ "%{NAME}.%{ARCH}.%{VERSION}\n" +:+ dq +:+ " > "
                           +:+ working_copy_dir +:+ "/" +:+ gethostname env +:+ "/conf/"
                           +:+ package_list_file))
    /\ stdout w'
       = (stdout w1 ++
          [Ran (Call (Line inventory) true None) 0;
           Ran (Call (Line ("sudo -u " +:+ username +:+ " sh -c " +:+ dq +:+ "git add "
                            +:+ package_list_file +:+ dq)) true None) 0;
           Ran (Call (Line ("sudo -u " +:+ username +:+ " sh -c " +:+ dq +:+ "git commit -m "
                            +:+ dq +:+ "Auto-commit by confcheck running on "
                            +:+ gethostname env +:+ dq +:+ dq)) true None) 0;
           Ran (Call (Line ("sudo -u " +:+ username +:+ " sh -c " +:+ dq +:+ "git push" +:+ dq))
                  true None) 0])%list
    /\ (forall c rc, Ran c rc ∈ drop (length (stdout w1)) (stdout w') ->
          cwd c = None /\ start_dir env c = getcwd env).
Proof.
  intros Hsync Hmode Hdir Hok.
  assert (Hrun : forall text w,
             run_command (Line text) (with_shell plain) w
             = (Ret true, emit (Ran (Call (Line text) true None) 0)
                            (set_files (spawn (Call (Line text) true None) (files w)).2 w))).
  { intros text w. apply run_shell_ok. now apply Hok. }
  assert (Hscript : forall w',
             update_package_list (gethostname env) working_copy_dir username w1 = (Ret None, w') ->
             script env args w0 = (Exit 0, w')).
  { intros w' H. apply (script_returns _ _ _ _ None).
    unfold main. rewrite (bind_run _ _ _ _ _ Hsync). now rewrite Hmode. }
  assert (Hcwd : forall (out : list event) a b c d,
             (forall x rc, Ran x rc ∈ drop (length out)
                (out ++ [Ran (Call a true None) 0; Ran (Call b true None) 0;
                         Ran (Call c true None) 0; Ran (Call d true None) 0])%list ->
              cwd x = None /\ start_dir env x = getcwd env)).
  { intros out a b c d x rc. rewrite drop_app_length.
    rewrite !elem_of_cons, elem_of_nil.
    intros [H | [H | [H | [H | []]]]]; injection H as -> _; now split. }
  assert (Hgo : forall (pick : bool),
    let package_list_file := if pick then "dpkg-selections" else "package.list" in
    let inventory := if pick
      then "/usr/bin/dpkg" +:+ " --get-selections \* > " +:+ (working_copy_dir +:+ "/"
           +:+ gethostname env) +:+ "/conf/" +:+ "dpkg-selections"
      else "/bin/rpm -qa --queryformat " +:+ dq +:+ "%{NAME}.%{ARCH}.%{VERSION}\n" +:+ dq
           +:+ " > " +:+ (working_copy_dir +:+ "/" +:+ gethostname env) +:+ "/conf/"
           +:+ "package.list" in
    exists w',
      (run_command (Line inventory) (with_shell plain) ;;;
       run_command (Line ("sudo -u " +:+ username +:+ " sh -c " +:+ dq +:+ "git add "
                          +:+ package_list_file +:+ dq)) (with_shell plain) ;;;
       run_command (Line ("sudo -u " +:+ username +:+ " sh -c " +:+ dq +:+ "git commit -m "
                          +:+ dq +:+ "Auto-commit by confcheck running on "
                          +:+ gethostname env +:+ dq +:+ dq)) (with_shell plain) ;;;
       run_command (Line ("sudo -u " +:+ username +:+ " sh -c " +:+ dq +:+ "git push" +:+ dq))
                   (with_shell plain) ;;;
       ret None) w1 = (Ret (@None Z), w')
      /\ stdout w'
         = (stdout w1 ++
            [Ran (Call (Line inventory) true None) 0;
             Ran (Call (Line ("sudo -u " +:+ username +:+ " sh -c " +:+ dq +:+ "git add "
                              +:+ package_list_file +:+ dq)) true None) 0;
             Ran (Call (Line ("sudo -u " +:+ username +:+ " sh -c " +:+ dq
                              +:+ "git commit -m " +:+ dq
                              +:+ "Auto-commit by confcheck running on "
                              +:+ gethostname env +:+ dq +:+ dq)) true None) 0;
             Ran (Call (Line ("sudo -u " +:+ username +:+ " sh -c " +:+ dq +:+ "git push"
                              +:+ dq)) true None) 0])%list).
  { intros pick package_list_file inventory. eexists. split.
    - rewrite (bind_run _ _ _ _ _ (Hrun _ _)).
      rewrite (bind_run _ _ _ _ _ (Hrun _ _)).
      rewrite (bind_run _ _ _ _ _ (Hrun _ _)).
      rewrite (bind_run _ _ _ _ _ (Hrun _ _)).
      reflexivity.
    - simpl. rewrite <- !app_assoc. reflexivity. }
  assert (Hupd : forall usable : bool,
    (if is_regular (files w1) "/usr/bin/dpkg" then os_access_x "/usr/bin/dpkg" else ret false) w1
    = (Ret usable, w1) ->
    exists w' package_list_file inventory,
      update_package_list (gethostname env) working_copy_dir username w1 = (Ret None, w')
      /\ ((package_list_file = "dpkg-selections"
           /\ inventory = "/usr/bin/dpkg" +:+ " --get-selections \* > " +:+ working_copy_dir
                          +:+ "/" +:+ gethostname env +:+ "/conf/" +:+ package_list_file)
          \/ (package_list_file = "package.list"
              /\ inventory = "/bin/rpm -qa --queryformat " +:+ dq
                             +:+ "%{NAME}.%{ARCH}.%{VERSION}\n" +:+ dq +:+ " > "
                             +:+ working_copy_dir +:+ "/" +:+ gethostname env +:+ "/conf/"
                             +:+ package_list_file))
      /\ stdout w'
         = (stdout w1 ++
            [Ran (Call (Line inventory) true None) 0;
             Ran (Call (Line ("sudo -u " +:+ username +:+ " sh -c " +:+ dq +:+ "git add "
                              +:+ package_list_file +:+ dq)) true None) 0;
             Ran (Call (Line ("sudo -u " +:+ username +:+ " sh -c " +:+ dq
                              +:+ "git commit -m " +:+ dq
                              +:+ "Auto-commit by confcheck running on "
                              +:+ gethostname env +:+ dq +:+ dq)) true None) 0;
             Ran (Call (Line ("sudo -u " +:+ username +:+ " sh -c " +:+ dq +:+ "git push"
                              +:+ dq)) true None) 0])%list).
  { intros usable Hu. destruct (Hgo usable) as (w' & Hrun' & Hout).
    exists w', (if usable then "dpkg-selections" else "package.list"),
      (if usable
       then "/usr/bin/dpkg" +:+ " --get-selections \* > " +:+ (working_copy_dir +:+ "/"
            +:+ gethostname env) +:+ "/conf/" +:+ "dpkg-selections"
       else "/bin/rpm -qa --queryformat " +:+ dq +:+ "%{NAME}.%{ARCH}.%{VERSION}\n" +:+ dq
            +:+ " > " +:+ (working_copy_dir +:+ "/" +:+ gethostname env) +:+ "/conf/"
            +:+ "package.list").
    split; [|split].
    - unfold update_package_list. cbv zeta.
      rewrite (bind_run _ _ w1 w1 true) by (unfold os_path_isdir; now rewrite Hdir).
      cbv beta iota delta [negb].
      rewrite (bind_run _ _ w1 w1 (is_regular (files w1) "/usr/bin/dpkg")) by reflexivity.
      cbv beta. rewrite (bind_run _ _ w1 w1 usable) by exact Hu.
      cbv beta. destruct usable; exact Hrun'.
    - destruct usable; [left | right]; (split; [reflexivity|]);
        now rewrite !string_app_assoc.
    - exact Hout. }
  assert (Hprobe : exists usable,
    (if is_regular (files w1) "/usr/bin/dpkg" then os_access_x "/usr/bin/dpkg" else ret false) w1
    = (Ret usable, w1)).
  { unfold os_access_x, ret. destruct (is_regular (files w1) "/usr/bin/dpkg"); eauto. }
  destruct Hprobe as (usable & Hprobe).
  destruct (Hupd usable Hprobe) as (w' & file & inventory & H1 & H2 & H3).
  exists w', file, inventory.
  split; [exact H1|]. split; [now apply Hscript|]. split; [exact H2|].
  split; [exact H3|]. rewrite H3. apply Hcwd.
Qed.


(** ** Reaching the checklist *)

Lemma main_reaches_checklist (env : Env) (args : Args) (w0 w : World)
    (working_copy_dir : string) (checklist : list (string * string)) :
  reaches_checklist env args w0 working_copy_dir checklist w ->
  main env args w0
  = for_entries args working_copy_dir (module_path_of (getcwd env)) "./CONFCHECKLIST"
      checklist w.
Proof.
  intros (username & w1 & Hsync & Hmode & Hhost & Hlist & Hread).
  unfold main. cbv zeta. rewrite (bind_run _ _ _ _ _ Hsync). cbv beta iota.
  rewrite Hmode. rewrite (bind_run _ _ _ _ _ Hhost). cbv beta iota.
  unfold reconcile. cbv zeta.
  rewrite (bind_run _ _ w w true) by (unfold os_path_isfile; now rewrite Hlist).
  cbv beta iota delta [negb].
  now rewrite (bind_run _ _ _ _ _ Hread).
Qed.

Lemma script_reaches_checklist (env : Env) (args : Args) (w0 w : World)
    (working_copy_dir : string) (checklist : list (string * string)) :
  reaches_checklist env args w0 working_copy_dir checklist w ->
  script env args w0
  = top_level (for_entries args working_copy_dir (module_path_of (getcwd env))
                 "./CONFCHECKLIST" checklist w).
Proof. intros H. unfold script. now rewrite (main_reaches_checklist _ _ _ _ _ _ H). Qed.

(** ** The host directory check *)

(** C3.  With a directory level of 0 the host directory check is not
    run: whatever the current directory and the host name are, nothing is
    compared, nothing is asked, and the run goes on. *)
Theorem dir_level_zero_is_skipped (env : Env) (diff pkg verb : bool) (path : string)
    (w : World) :
  check_host_dir env {| dir_level := Some 0; diff_mode := diff; package_list_mode := pkg;
                        config_path := path; verbose := verb |} w
  = (Ret NextEntry, w).
Proof. reflexivity. Qed.

(** C4 (amended).  A directory level other than 0 for which the reversed
    list of path segments has no element raises [IndexError] before
    anything is asked.  [main] does not catch it and the [__main__] block
    catches [ExternalCommandFailure] only, so the process ends with a
    traceback and exit status 1, not with status 2. *)
Theorem dir_level_out_of_range (env : Env) (args : Args) (n : Z) (w : World) :
  dir_level args = Some n -> n <> 0 ->
  (Z.of_nat (length (Py.split "/" (getcwd env))) <= n
   \/ n < - Z.of_nat (length (Py.split "/" (getcwd env)))) ->
  check_host_dir env args w = (Raise IndexError, w)
  /\ (forall w0 working_copy_dir username,
        sync_repository args w0 = (Ret (inr (working_copy_dir, username)), w) ->
        package_list_mode args = false ->
        main env args w0 = (Raise IndexError, w)
        /\ script env args w0 = (Traceback IndexError, w)
        /\ exit_status (script env args w0).1 = 1).
Proof.
  intros Hn Hnz Hrange.
  assert (H : check_host_dir env args w = (Raise IndexError, w)).
  { unfold check_host_dir. rewrite Hn. cbv zeta. unfold truthy.
    apply Z.eqb_neq in Hnz. rewrite Hnz. cbv beta iota delta [negb default from_option id].
    unfold Py.index. rewrite length_rev.
    destruct (Z.leb_spec 0 n), (Z.ltb_spec n (Z.of_nat (length (Py.split "/" (getcwd env))))),
      (Z.ltb_spec n 0), (Z.leb_spec (- Z.of_nat (length (Py.split "/" (getcwd env)))) n);
      simpl; try reflexivity; lia. }
  split; [exact H|].
  intros w0 working_copy_dir username Hsync Hmode.
  assert (Hmain : main env args w0 = (Raise IndexError, w)).
  { unfold main. cbv zeta. rewrite (bind_run _ _ _ _ _ Hsync). cbv beta iota.
    rewrite Hmode. now rewrite (bind_raise _ _ _ _ _ H). }
  split; [exact Hmain|]. unfold script. rewrite Hmain. now split.
Qed.

(** ** The checklist loop: a missing target *)

Lemma prompt_user_blank (prompt spec line : string) (rest : list string) (d : ascii)
    (w : World) :
  (scan_responses spec ∅ None).2 = Some d ->
  stdin w = line :: rest -> blank line ->
  prompt_user prompt spec w = (Ret (Py.lower_char d), asked prompt rest w).
Proof. intros Hd Hin Hline. now apply (prompt_user_default _ _ line). Qed.

Lemma prompt_user_answer (prompt spec line : string) (rest : list string) (c : ascii)
    (w : World) :
  stdin w = line :: rest -> answers line c ->
  c ∈ (scan_responses spec ∅ None).1 ->
  prompt_user prompt spec w = (Ret c, asked prompt rest w).
Proof.
  intros Hin (c0 & tail & Hline & <-) Hc.
  now apply (prompt_user_accepts _ _ line _ _ tail).
Qed.

Lemma option_of_spec (spec : string) (item : ascii) :
  item ∈ Py.chars spec -> Py.lower_char item ∈ (scan_responses spec ∅ None).1.
Proof. intros H. apply scan_responses_allowed. right. eauto. Qed.

Lemma isfile_run (path : string) (w : World) (b : bool) :
  is_regular (files w) path = b -> os_path_isfile path w = (Ret b, w).
Proof. unfold os_path_isfile. now intros ->. Qed.

(** C1 (amended).  When an entry's source is a regular file and its
    target is not, the operator is asked whether to continue, and the
    default is yes: a blank line, like a line that starts with y, skips
    the remaining checks for the entry and the run goes on with the next
    one; a line that starts with n ends the run, with exit status 2. *)
Theorem missing_target_defaults_to_yes (env : Env) (args : Args)
    (working_copy_dir source target line : string) (rest : list string)
    (more : list (string * string)) (w : World) :
  is_regular (files w) source = true ->
  is_regular (files w) target = false ->
  stdin w = line :: rest ->
  let prompt := "Target file " +:+ target +:+ " doesn't exist. Continue [Y/n]? " in
  let entry := check_entry args working_copy_dir (module_path_of (getcwd env))
                 "./CONFCHECKLIST" (source, target) in
  let run := for_entries args working_copy_dir (module_path_of (getcwd env))
               "./CONFCHECKLIST" in
  (blank line \/ answers line "y" ->
     entry w = (Ret NextEntry, asked prompt rest w)
     /\ run ((source, target) :: more) w = run more (asked prompt rest w))
  /\ (answers line "n" ->
        entry w = (Ret (ReturnCode FAILURE), asked prompt rest w)
        /\ run ((source, target) :: more) w = (Ret (Some FAILURE), asked prompt rest w)
        /\ forall w0,
             reaches_checklist env args w0 working_copy_dir ((source, target) :: more) w ->
             script env args w0 = (Exit 2, asked prompt rest w)).
Proof.
  intros Hsrc Htgt Hin prompt entry run.
  assert (Hstart : forall r,
            prompt_user prompt "Yn" w = (Ret r, asked prompt rest w) ->
            entry w = (if Ascii.eqb r "n" then ret (ReturnCode FAILURE) else ret NextEntry)
                        (asked prompt rest w)).
  { intros r Hr. unfold entry, check_entry. cbv iota beta.
    rewrite (bind_run _ _ _ _ _ (isfile_run _ _ _ Hsrc)). cbv beta iota delta [negb].
    rewrite (bind_run _ _ _ _ _ (isfile_run _ _ _ Htgt)). cbv beta iota delta [negb].
    fold prompt. now rewrite (bind_run _ _ _ _ _ Hr). }
  split.
  - intros Hyes.
    assert (Hr : prompt_user prompt "Yn" w = (Ret "y"%char, asked prompt rest w)).
    { destruct Hyes as [Hb | Hy].
      - now apply (prompt_user_blank prompt "Yn" line rest "Y").
      - apply (prompt_user_answer prompt "Yn" line); [exact Hin | exact Hy |].
        apply (option_of_spec "Yn" "Y"). left. }
    assert (He : entry w = (Ret NextEntry, asked prompt rest w))
      by now rewrite (Hstart _ Hr).
    split; [exact He|]. unfold run. simpl for_entries. fold entry.
    now rewrite (bind_run _ _ _ _ _ He).
  - intros Hno.
    assert (Hr : prompt_user prompt "Yn" w = (Ret "n"%char, asked prompt rest w)).
    { apply (prompt_user_answer prompt "Yn" line); [exact Hin | exact Hno |].
      apply (option_of_spec "Yn" "n"). right. left. }
    assert (He : entry w = (Ret (ReturnCode FAILURE), asked prompt rest w))
      by now rewrite (Hstart _ Hr).
    assert (Hrun : run ((source, target) :: more) w
                   = (Ret (Some FAILURE), asked prompt rest w)).
    { unfold run. simpl for_entries. fold entry. now rewrite (bind_run _ _ _ _ _ He). }
    split; [exact He|]. split; [exact Hrun|].
    intros w0 Hreach. rewrite (script_reaches_checklist _ _ _ _ _ _ Hreach).
    fold run. now rewrite Hrun.
Qed.

(** ** External programs in the checklist loop *)

Lemma set_files_same (w : World) : set_files (files w) w = w.
Proof. now destruct w. Qed.

Lemma diff_run (a b : string) (w : World) :
  run_command (Argv ["diff"; "-q"; a; b]) (without_abort plain) w
  = (Ret (diff_status (files w) a b =? 0),
     emit (Ran (diff_call a b) (diff_status (files w) a b)) w).
Proof.
  unfold run_command, popen, diff_call. simpl. rewrite set_files_same.
  now destruct (diff_status (files w) a b =? 0).
Qed.

Lemma diff_same (a b x : string) (w : World) :
  bytes_of (files w) a = Some x -> bytes_of (files w) b = Some x ->
  run_command (Argv ["diff"; "-q"; a; b]) (without_abort plain) w
  = (Ret true, emit (Ran (diff_call a b) 0) w).
Proof.
  intros Ha Hb. rewrite diff_run. unfold diff_status. rewrite Ha, Hb.
  now destruct (decide (x = x)).
Qed.

Lemma diff_differ (a b x y : string) (w : World) :
  bytes_of (files w) a = Some x -> bytes_of (files w) b = Some y -> x <> y ->
  run_command (Argv ["diff"; "-q"; a; b]) (without_abort plain) w
  = (Ret false, emit (Ran (diff_call a b) 1) w).
Proof.
  intros Ha Hb Hxy. rewrite diff_run. unfold diff_status. rewrite Ha, Hb.
  now destruct (decide (x = y)).
Qed.

Lemma clear_screen_ok (w : World) :
  (spawn clear_call (files w)).1 = 0 ->
  clear_screen w
  = (Ret true, emit (Dumped clear_call)
                 (emit (Ran clear_call 0) (set_files (spawn clear_call (files w)).2 w))).
Proof.
  intros H. unfold clear_screen, run_command, popen. simpl. fold clear_call.
  destruct (spawn clear_call (files w)) as [rc fs]. simpl in H. now subst rc.
Qed.

Lemma clear_screen_fails (w : World) (rc : Z) :
  (spawn clear_call (files w)).1 = rc -> rc <> 0 ->
  (clear_screen w).1 = Raise (ExternalCommandFailure rc).
Proof.
  intros H Hrc. unfold clear_screen, run_command, popen. simpl. fold clear_call.
  destruct (spawn clear_call (files w)) as [rc' fs]. simpl in H. subst rc'.
  apply Z.eqb_neq in Hrc. now rewrite Hrc.
Qed.

(** A displayed shell command whose failure is tolerated. *)
Lemma display_run (text : string) (w : World) :
  run_command (Line text) (without_abort (with_display (with_shell plain))) w
  = (Ret ((spawn (Call (Line text) true None) (files w)).1 =? 0),
     emit (Dumped (Call (Line text) true None))
       (emit (Ran (Call (Line text) true None) (spawn (Call (Line text) true None) (files w)).1)
          (set_files (spawn (Call (Line text) true None) (files w)).2 w))).
Proof.
  unfold run_command, popen. simpl.
  destruct (spawn (Call (Line text) true None) (files w)) as [rc fs]. simpl.
  now destruct (rc =? 0).
Qed.

Lemma is_regular_bytes (fs : gmap string node) (path : string) :
  is_regular fs path = true <-> exists x, bytes_of fs path = Some x.
Proof.
  unfold is_regular, bytes_of. destruct (fs !! resolve path) as [[f|]|]; split;
    try discriminate; try (intros [x H]; discriminate); eauto.
Qed.

(** ** Diff mode *)

Section DiffMode.
Variables (args : Args) (working_copy_dir module_path checklist_file_path : string).
Hypothesis Hmode : diff_mode args = true.

Let entry := check_entry args working_copy_dir module_path checklist_file_path.

Lemma diff_entry_start (source target x y : string) (w : World) :
  bytes_of (files w) source = Some x -> bytes_of (files w) target = Some y ->
  entry (source, target) w
  = (same <- run_command (Argv ["diff"; "-q"; target; source]) (without_abort plain) ;;
     (if negb same then
        response <- prompt_user (differs_prompt target source) "Yn" ;;
        if Ascii.eqb response "y" then
          clear_screen ;;;
          run_command (Line ("diff -u " +:+ dq +:+ target +:+ dq +:+ " " +:+ dq +:+ source
                             +:+ dq +:+ " | less"))
            (without_abort (with_display (with_shell plain))) ;;;
          ret tt
        else ret tt
      else ret tt) ;;;
     ret NextEntry) w.
Proof.
  intros Hs Ht. unfold entry, check_entry. cbv iota beta.
  assert (Hs' : is_regular (files w) source = true) by (apply is_regular_bytes; eauto).
  assert (Ht' : is_regular (files w) target = true) by (apply is_regular_bytes; eauto).
  rewrite (bind_run _ _ _ _ _ (isfile_run _ _ _ Hs')). cbv beta iota delta [negb].
  rewrite (bind_run _ _ _ _ _ (isfile_run _ _ _ Ht')). cbv beta iota delta [negb].
  rewrite Hmode. reflexivity.
Qed.

Lemma diff_entry_same (source target x : string) (w : World) :
  bytes_of (files w) source = Some x -> bytes_of (files w) target = Some x ->
  entry (source, target) w = (Ret NextEntry, emit (Ran (diff_call target source) 0) w).
Proof.
  intros Hs Ht. rewrite (diff_entry_start _ _ _ _ _ Hs Ht).
  now rewrite (bind_run _ _ _ _ _ (diff_same _ _ _ _ Ht Hs)).
Qed.

End DiffMode.

(** ** Check mode *)

Lemma bytes_of_write_same (fs : gmap string node) (dst bytes : string) (now : Z) :
  bytes_of (write_bytes fs dst bytes now) dst = Some bytes.
Proof. unfold bytes_of, write_bytes. now rewrite lookup_insert_eq. Qed.

Lemma bytes_of_write_other (fs : gmap string node) (dst bytes path : string) (now : Z) :
  resolve dst <> resolve path ->
  bytes_of (write_bytes fs dst bytes now) path = bytes_of fs path.
Proof. intros H. unfold bytes_of, write_bytes. now rewrite lookup_insert_ne. Qed.

Lemma lookup_write_other (fs : gmap string node) (dst bytes path : string) (now : Z) :
  resolve dst <> resolve path ->
  write_bytes fs dst bytes now !! resolve path = fs !! resolve path.
Proof. intros H. unfold write_bytes. now rewrite lookup_insert_ne. Qed.

Lemma copyfile_run (src dst bytes : string) (w : World) :
  bytes_of (files w) src = Some bytes ->
  is_regular (files w) dst = true ->
  resolve dst <> resolve src ->
  shutil_copyfile src dst w
  = (Ret tt, set_files (write_bytes (files w) dst bytes (clock w)) w).
Proof.
  unfold bytes_of, is_regular, shutil_copyfile. intros Hs Hd Hne.
  destruct (files w !! resolve src) as [[f|]|]; try discriminate.
  injection Hs as <-.
  destruct (decide (resolve src = resolve dst)) as [E|_]; [now elim Hne|].
  now destruct (files w !! resolve dst) as [[g|]|].
Qed.

Section CheckMode.
Variables (args : Args) (working_copy_dir module_path checklist_file_path : string).
Hypothesis Hmode : diff_mode args = false.

Let entry := check_entry args working_copy_dir module_path checklist_file_path.
Let path := working_copy_path working_copy_dir module_path.
Let loop (budget : nat) (source target : string) :=
  check_loop budget working_copy_dir module_path source target.

Lemma check_entry_start (source target : string) (w : World) :
  is_regular (files w) source = true -> is_regular (files w) target = true ->
  entry (source, target) w = loop (S (length (stdin w))) source target w.
Proof.
  intros Hs Ht. unfold entry, check_entry. cbv iota beta.
  rewrite (bind_run _ _ _ _ _ (isfile_run _ _ _ Hs)). cbv beta iota delta [negb].
  rewrite (bind_run _ _ _ _ _ (isfile_run _ _ _ Ht)). cbv beta iota delta [negb].
  now rewrite Hmode.
Qed.

Lemma check_loop_same (budget : nat) (source target x : string) (w : World) :
  bytes_of (files w) (path source) = Some x -> bytes_of (files w) target = Some x ->
  loop (S budget) source target w
  = (Ret NextEntry, emit (Ran (diff_call (path source) target) 0) w).
Proof.
  intros Hp Ht. unfold loop. simpl check_loop. fold (path source).
  assert (Hp' : is_regular (files w) (path source) = true) by (apply is_regular_bytes; eauto).
  rewrite (bind_run _ _ _ _ _ (isfile_run _ _ _ Hp')). cbv beta iota delta [negb].
  now rewrite (bind_run _ _ _ _ _ (diff_same _ _ _ _ Hp Ht)).
Qed.

Lemma check_loop_differ (budget : nat) (source target x y : string) (w : World) :
  bytes_of (files w) (path source) = Some x -> bytes_of (files w) target = Some y -> x <> y ->
  loop (S budget) source target w
  = escalate (path source) source target (loop budget source target)
      (emit (Ran (diff_call (path source) target) 1) w).
Proof.
  intros Hp Ht Hxy. unfold loop. simpl check_loop. fold (path source).
  assert (Hp' : is_regular (files w) (path source) = true) by (apply is_regular_bytes; eauto).
  rewrite (bind_run _ _ _ _ _ (isfile_run _ _ _ Hp')). cbv beta iota delta [negb].
  now rewrite (bind_run _ _ _ _ _ (diff_differ _ _ _ _ _ Hp Ht Hxy)).
Qed.

Lemma escalate_answer (file_path source target line : string) (rest : list string) (c : ascii)
    (again : M flow) (w : World) :
  stdin w = line :: rest -> answers line c -> c ∈ Py.chars "yncv" ->
  escalate file_path source target again w
  = (if Ascii.eqb c "n" then ret (ReturnCode FAILURE)
     else if Ascii.eqb c "y" then ret NextEntry
     else if Ascii.eqb c "v" then
       clear_screen ;;;
       print ("Executing " +:+ ("diff -u " +:+ file_path +:+ " " +:+ target +:+ " | less")
              +:+ "...") ;;;
       run_command (Line ("diff -u " +:+ file_path +:+ " " +:+ target +:+ " | less"))
         (with_display (without_abort (with_shell plain))) ;;;
       again
     else if Ascii.eqb c "c" then shutil_copyfile target source ;;; again
     else again) (asked (modified_prompt target) rest w).
Proof.
  intros Hin Hans Hc. unfold escalate.
  assert (Hr : prompt_user (modified_prompt target) "yNcv" w
               = (Ret c, asked (modified_prompt target) rest w)).
  { apply (prompt_user_answer _ "yNcv" line); [exact Hin | exact Hans |].
    simpl in Hc. rewrite !elem_of_cons, elem_of_nil in Hc.
    destruct Hc as [-> | [-> | [-> | [-> | []]]]].
    - apply (option_of_spec "yNcv" "y"). left.
    - apply (option_of_spec "yNcv" "N"). right. left.
    - apply (option_of_spec "yNcv" "c"). right. right. left.
    - apply (option_of_spec "yNcv" "v"). right. right. right. left. }
  now rewrite (bind_run _ _ _ _ _ Hr).
Qed.

(** After a copy the same question comes again. *)
Lemma check_loop_copy (budget : nat) (source target tb wb line : string) (more : list string)
    (w : World) :
  is_regular (files w) source = true ->
  bytes_of (files w) target = Some tb -> bytes_of (files w) (path source) = Some wb ->
  wb <> tb ->
  resolve source <> resolve target -> resolve source <> resolve (path source) ->
  stdin w = line :: more -> answers line "c" ->
  let w1 := asked (modified_prompt target) more (emit (Ran (diff_call (path source) target) 1) w) in
  let w2 := emit (Ran (diff_call (path source) target) 1)
              (set_files (write_bytes (files w1) source tb (clock w1)) w1) in
  loop (S (S budget)) source target w
  = escalate (path source) source target (loop budget source target) w2.
Proof.
  intros Hs Ht Hp Hne Hst Hsp Hin Hc w1 w2.
  rewrite (check_loop_differ _ _ _ _ _ _ Hp Ht Hne).
  rewrite (escalate_answer _ _ _ line more "c");
    [|exact Hin | exact Hc | simpl; right; right; left].
  change (Ascii.eqb "c" "n") with false. change (Ascii.eqb "c" "y") with false.
  change (Ascii.eqb "c" "v") with false. change (Ascii.eqb "c" "c") with true. cbv iota.
  fold w1.
  rewrite (bind_run _ _ _ _ _ (copyfile_run target source tb w1 Ht Hs Hst)).
  apply (check_loop_differ _ _ _ wb tb); simpl files.
  - now rewrite bytes_of_write_other.
  - now rewrite bytes_of_write_other.
  - exact Hne.
Qed.

End CheckMode.

Section CopyThenYes.
Variables (args : Args) (working_copy_dir module_path checklist_file_path : string).
Hypothesis Hmode : diff_mode args = false.

Let entry := check_entry args working_copy_dir module_path checklist_file_path.
Let path := working_copy_path working_copy_dir module_path.
Let run := for_entries args working_copy_dir module_path checklist_file_path.

Lemma check_entry_copy (source target tb wb line : string) (more : list string) (w : World) :
  is_regular (files w) source = true ->
  bytes_of (files w) target = Some tb -> bytes_of (files w) (path source) = Some wb ->
  wb <> tb ->
  resolve source <> resolve target -> resolve source <> resolve (path source) ->
  stdin w = line :: more -> answers line "c" ->
  let w1 := asked (modified_prompt target) more (emit (Ran (diff_call (path source) target) 1) w) in
  let w2 := emit (Ran (diff_call (path source) target) 1)
              (set_files (write_bytes (files w1) source tb (clock w1)) w1) in
  entry (source, target) w
  = escalate (path source) source target
      (check_loop (length more) working_copy_dir module_path source target) w2.
Proof.
  intros Hs Ht Hp Hne Hst Hsp Hin Hc w1 w2.
  assert (Ht' : is_regular (files w) target = true) by (apply is_regular_bytes; eauto).
  unfold entry. rewrite (check_entry_start _ _ _ _ Hmode _ _ _ Hs Ht'). rewrite Hin.
  now apply (check_loop_copy _ _ _ _ _ tb wb line more).
Qed.

Lemma check_entry_copy_yes (source target tb wb first second : string) (rest : list string)
    (w : World) :
  is_regular (files w) source = true ->
  bytes_of (files w) target = Some tb -> bytes_of (files w) (path source) = Some wb ->
  wb <> tb ->
  resolve source <> resolve target -> resolve source <> resolve (path source) ->
  stdin w = first :: second :: rest -> answers first "c" -> answers second "y" ->
  exists w',
    entry (source, target) w = (Ret NextEntry, w')
    /\ files w' = write_bytes (files w) source tb (clock w)
    /\ stdin w' = rest
    /\ clock w' = clock w
    /\ stdout w'
       = (stdout w ++
          [Ran (diff_call (path source) target) 1; Prompted (modified_prompt target);
           Ran (diff_call (path source) target) 1; Prompted (modified_prompt target)])%list.
Proof.
  intros Hs Ht Hp Hne Hst Hsp Hin Hc Hy.
  rewrite (check_entry_copy _ _ _ _ _ _ _ Hs Ht Hp Hne Hst Hsp Hin Hc).
  rewrite (escalate_answer _ _ _ second rest "y");
    [|reflexivity | exact Hy | simpl; left].
  change (Ascii.eqb "y" "n") with false. change (Ascii.eqb "y" "y") with true. cbv iota.
  eexists. split; [reflexivity|]. simpl. rewrite <- !app_assoc. now repeat split.
Qed.

Lemma copy_run_succeeds (checklist : list (string * string)) (lines rest : list string)
    (w : World) :
  drifted working_copy_dir module_path checklist (files w) (clock w) ->
  stdin w = (lines ++ rest)%list ->
  copy_then_yes (length checklist) lines ->
  exists w',
    run checklist w = (Ret (Some SUCCESS), w')
    /\ files w' = copy_all checklist (files w) (clock w)
    /\ stdin w' = rest.
Proof.
  revert lines w. induction checklist as [|[source target] more IH]; intros lines w Hd Hin Hl.
  - destruct lines; [|contradiction]. exists w. now repeat split.
  - destruct lines as [|first [|second lines]]; try contradiction.
    simpl in Hl. destruct Hl as (Hc & Hy & Hl).
    simpl in Hd. destruct Hd as (Hs & Hst & Hsp & tb & wb & Ht & Hp & Hne & Hd).
    destruct (check_entry_copy_yes source target tb wb first second (lines ++ rest)%list w
                Hs Ht Hp Hne Hst Hsp Hin Hc Hy) as (w1 & He & Hf & Hi & Hk & _).
    destruct (IH lines w1) as (w' & Hrun & Hf' & Hi').
    + now rewrite Hf, Hk.
    + exact Hi.
    + exact Hl.
    + exists w'. unfold run. simpl for_entries. fold entry.
      rewrite (bind_run _ _ _ _ _ He). split; [exact Hrun|].
      split; [|exact Hi']. rewrite Hf', Hf, Hk. simpl. now rewrite Ht.
Qed.

End CopyThenYes.

(** C5 (amended).  In check mode, take an entry whose target differs from
    its counterpart in the working copy, and whose local source is another
    file than the target and than the counterpart.  A line that starts with
    c copies the bytes of the target over the source and the same question
    is asked again, the counterpart and the target being as different as
    before.  A line that starts with y then accepts the entry, and the source
    holds the bytes of the target.  A run whose every entry goes this way
    ends with status 0, each target copied over its source. *)
Theorem copy_then_yes_accepts (env : Env) (args : Args) (working_copy_dir : string) :
  diff_mode args = false ->
  let module_path := module_path_of (getcwd env) in
  let entry := check_entry args working_copy_dir module_path "./CONFCHECKLIST" in
  let run := for_entries args working_copy_dir module_path "./CONFCHECKLIST" in
  let path := working_copy_path working_copy_dir module_path in
  (forall source target tb wb w,
     is_regular (files w) source = true ->
     bytes_of (files w) target = Some tb -> bytes_of (files w) (path source) = Some wb ->
     wb <> tb ->
     resolve source <> resolve target -> resolve source <> resolve (path source) ->
     (forall line more,
        stdin w = line :: more -> answers line "c" ->
        exists w2,
          entry (source, target) w
          = escalate (path source) source target
              (check_loop (length more) working_copy_dir module_path source target) w2
          /\ stdin w2 = more
          /\ bytes_of (files w2) source = Some tb
          /\ bytes_of (files w2) target = Some tb
          /\ bytes_of (files w2) (path source) = Some wb)
     /\ (forall first second rest,
           stdin w = first :: second :: rest -> answers first "c" -> answers second "y" ->
           exists w',
             entry (source, target) w = (Ret NextEntry, w')
             /\ bytes_of (files w') source = Some tb
             /\ (forall other, resolve source <> resolve other ->
                   files w' !! resolve other = files w !! resolve other)
             /\ stdin w' = rest
             /\ stdout w'
                = (stdout w ++
                   [Ran (diff_call (path source) target) 1; Prompted (modified_prompt target);
                    Ran (diff_call (path source) target) 1; Prompted (modified_prompt target)])%list))
  /\ (forall checklist lines rest w,
        drifted working_copy_dir module_path checklist (files w) (clock w) ->
        stdin w = (lines ++ rest)%list ->
        copy_then_yes (length checklist) lines ->
        exists w',
          run checklist w = (Ret (Some SUCCESS), w')
          /\ files w' = copy_all checklist (files w) (clock w)
          /\ stdin w' = rest
          /\ forall w0, reaches_checklist env args w0 working_copy_dir checklist w ->
                        script env args w0 = (Exit 0, w')).
Proof.
  intros Hmode module_path entry run path. split.
  - intros source target tb wb w Hs Ht Hp Hne Hst Hsp. split.
    + intros line more Hin Hc. eexists. split.
      * now apply (check_entry_copy _ _ _ _ Hmode _ _ tb wb line more).
      * simpl. split; [reflexivity|]. split; [apply bytes_of_write_same|].
        split; now rewrite bytes_of_write_other.
    + intros first second rest Hin Hc Hy.
      destruct (check_entry_copy_yes args working_copy_dir module_path "./CONFCHECKLIST" Hmode
                  source target tb wb first second rest w Hs Ht Hp Hne Hst Hsp Hin Hc Hy)
        as (w' & He & Hf & Hi & _ & Ho).
      exists w'. split; [exact He|]. rewrite Hf.
      split; [apply bytes_of_write_same|].
      split; [intros other Hother; now apply lookup_write_other|]. now split.
  - intros checklist lines rest w Hd Hin Hl.
    destruct (copy_run_succeeds args working_copy_dir module_path "./CONFCHECKLIST" Hmode
                checklist lines rest w Hd Hin Hl) as (w' & Hrun & Hf & Hi).
    exists w'. split; [exact Hrun|]. split; [exact Hf|]. split; [exact Hi|].
    intros w0 Hreach. rewrite (script_reaches_checklist _ _ _ _ _ _ Hreach).
    fold module_path. now rewrite Hrun.
Qed.

(** ** What a run can tell apart *)

Lemma respects_ret {A} (a : A) : respects (ret a).
Proof. intros w1 w2 H. now split. Qed.

Lemma respects_raise {A} (e : exn) : respects (@raise A e).
Proof. intros w1 w2 H. now split. Qed.

Lemma respects_bind {A B} (m : M A) (k : A -> M B) :
  respects m -> (forall a, respects (k a)) -> respects (bind m k).
Proof.
  intros Hm Hk w1 w2 H. unfold bind. destruct (Hm w1 w2 H) as [Hr Hw].
  destruct (m w1) as [[a1|e1] w1'], (m w2) as [[a2|e2] w2']; simpl in *;
    try discriminate.
  - injection Hr as ->. now apply Hk.
  - injection Hr as ->. now split.
Qed.

Lemma alike_emit (e : event) (w1 w2 : World) : alike w1 w2 -> alike (emit e w1) (emit e w2).
Proof. intros (Hf & Hi & Ho). repeat split; simpl; congruence. Qed.

Lemma alike_set_stdin (i : list string) (w1 w2 : World) :
  alike w1 w2 -> alike (set_stdin i w1) (set_stdin i w2).
Proof. intros (Hf & Hi & Ho). now repeat split. Qed.

Lemma alike_set_files (fs1 fs2 : gmap string node) (w1 w2 : World) :
  same_bytes fs1 fs2 -> alike w1 w2 -> alike (set_files fs1 w1) (set_files fs2 w2).
Proof. intros H (Hf & Hi & Ho). now repeat split. Qed.

Lemma respects_print (text : string) : respects (print text).
Proof. intros w1 w2 H. split; [reflexivity|]. now apply alike_emit. Qed.

Lemma same_bytes_of (fs1 fs2 : gmap string node) (path : string) :
  same_bytes fs1 fs2 -> bytes_of fs1 path = bytes_of fs2 path.
Proof.
  intros H. unfold bytes_of. specialize (H (resolve path)).
  destruct (fs1 !! resolve path) as [[f|]|], (fs2 !! resolve path) as [[g|]|];
    simpl in H; congruence.
Qed.

Lemma same_bytes_regular (fs1 fs2 : gmap string node) (path : string) :
  same_bytes fs1 fs2 -> is_regular fs1 path = is_regular fs2 path.
Proof.
  intros H. unfold is_regular. specialize (H (resolve path)).
  destruct (fs1 !! resolve path) as [[f|]|], (fs2 !! resolve path) as [[g|]|];
    simpl in H; congruence.
Qed.

Lemma respects_isfile (path : string) : respects (os_path_isfile path).
Proof.
  intros w1 w2 H. unfold os_path_isfile. simpl. split; [|exact H].
  destruct H as (Hf & _). now rewrite (same_bytes_regular _ _ _ Hf).
Qed.

Lemma respects_read_file (path : string) : respects (read_file path).
Proof.
  intros w1 w2 H. unfold read_file. destruct H as (Hf & Hi & Ho).
  rewrite (same_bytes_of _ _ path Hf). destruct (bytes_of (files w2) path); now split.
Qed.

Lemma same_bytes_write (fs1 fs2 : gmap string node) (dst bytes : string) (t1 t2 : Z) :
  same_bytes fs1 fs2 -> same_bytes (write_bytes fs1 dst bytes t1) (write_bytes fs2 dst bytes t2).
Proof.
  intros H key. unfold write_bytes.
  destruct (decide (resolve dst = key)) as [<- | Hne].
  - now rewrite !lookup_insert_eq.
  - rewrite !lookup_insert_ne by exact Hne. apply H.
Qed.

Lemma respects_copyfile (src dst : string) : respects (shutil_copyfile src dst).
Proof.
  intros w1 w2 (Hf & Hi & Ho). unfold shutil_copyfile.
  pose proof (Hf (resolve src)) as Hs. pose proof (Hf (resolve dst)) as Hd.
  destruct (files w1 !! resolve src) as [[f|]|], (files w2 !! resolve src) as [[g|]|];
    simpl in Hs; try discriminate; try (now repeat split).
  injection Hs as Hs.
  destruct (decide (resolve src = resolve dst)); [now repeat split|].
  destruct (files w1 !! resolve dst) as [[f'|]|], (files w2 !! resolve dst) as [[g'|]|];
    simpl in Hd; try discriminate; try (now repeat split);
    (split; [reflexivity|]; apply alike_set_files; [|now repeat split];
     rewrite Hs; now apply same_bytes_write).
Qed.

Lemma respects_prompt_user (prompt spec : string) : respects (prompt_user prompt spec).
Proof.
  intros w1 w2 H. unfold prompt_user.
  destruct (scan_responses spec ∅ None) as [allowed d].
  assert (G : forall input w1 w2, alike w1 w2 ->
            (prompt_loop prompt allowed d input w1).1 = (prompt_loop prompt allowed d input w2).1
            /\ alike (prompt_loop prompt allowed d input w1).2
                     (prompt_loop prompt allowed d input w2).2).
  { clear. induction input as [|line rest IH]; intros w1 w2 H; simpl.
    - split; [reflexivity|]. now apply alike_set_stdin, alike_emit.
    - assert (H1 : alike (set_stdin rest (emit (Prompted prompt) w1))
                         (set_stdin rest (emit (Prompted prompt) w2)))
        by now apply alike_set_stdin, alike_emit.
      destruct (Py.lower (Py.strip line)) as [|c tail].
      + destruct d; now split.
      + destruct (decide (c ∈ allowed)); [now split|].
        apply IH. now apply alike_emit. }
  destruct H as (Hf & Hi & Ho). rewrite Hi.
  destruct (G (stdin w2) w1 w2) as [Hr Hw]; [now repeat split|].
  destruct (prompt_loop prompt allowed d (stdin w2) w1) as [[r1|e1] w1'],
           (prompt_loop prompt allowed d (stdin w2) w2) as [[r2|e2] w2'];
    simpl in *; try discriminate; split; try congruence; exact Hw.
Qed.

Section Deterministic.
(** External programs that cannot tell such file systems apart either. *)
Hypothesis spawn_respects : forall c fs1 fs2,
  same_bytes fs1 fs2 ->
  (spawn c fs1).1 = (spawn c fs2).1 /\ same_bytes (spawn c fs1).2 (spawn c fs2).2.

Lemma popen_respects (c : call) (fs1 fs2 : gmap string node) :
  same_bytes fs1 fs2 ->
  (popen c fs1).1 = (popen c fs2).1 /\ same_bytes (popen c fs1).2 (popen c fs2).2.
Proof.
  intros H. unfold popen.
  destruct (cmd c) as [[|prog [|opt [|a [|b [|]]]]]|]; try now apply spawn_respects.
  destruct (shell c); [now apply spawn_respects|].
  destruct (cwd c); [now apply spawn_respects|].
  destruct (String.eqb prog "diff" && String.eqb opt "-q"); [|now apply spawn_respects].
  simpl. split; [|exact H]. unfold diff_status.
  now rewrite (same_bytes_of _ _ a H), (same_bytes_of _ _ b H).
Qed.

Lemma respects_run_command (c : command) (k : kwargs) : respects (run_command c k).
Proof.
  intros w1 w2 H. unfold run_command.
  destruct (popen_respects (Call c (kw_shell k) (kw_cwd k)) (files w1) (files w2)) as [Hr Hf];
    [apply H|].
  destruct (popen (Call c (kw_shell k) (kw_cwd k)) (files w1)) as [rc1 fs1],
           (popen (Call c (kw_shell k) (kw_cwd k)) (files w2)) as [rc2 fs2].
  simpl in Hr, Hf. subst rc2.
  assert (H1 : alike (emit (Ran (Call c (kw_shell k) (kw_cwd k)) rc1) (set_files fs1 w1))
                     (emit (Ran (Call c (kw_shell k) (kw_cwd k)) rc1) (set_files fs2 w2)))
    by now apply alike_emit, alike_set_files.
  assert (H2 : alike
            (if display_output k
             then emit (Dumped (Call c (kw_shell k) (kw_cwd k)))
                    (emit (Ran (Call c (kw_shell k) (kw_cwd k)) rc1) (set_files fs1 w1))
             else emit (Ran (Call c (kw_shell k) (kw_cwd k)) rc1) (set_files fs1 w1))
            (if display_output k
             then emit (Dumped (Call c (kw_shell k) (kw_cwd k)))
                    (emit (Ran (Call c (kw_shell k) (kw_cwd k)) rc1) (set_files fs2 w2))
             else emit (Ran (Call c (kw_shell k) (kw_cwd k)) rc1) (set_files fs2 w2)))
    by (destruct (display_output k); [now apply alike_emit | exact H1]).
  destruct (rc1 =? 0); simpl; [now split|].
  destruct (abort_on_failure k); simpl; [|now split].
  split; [reflexivity|]. now apply alike_emit, alike_emit.
Qed.

Lemma respects_escalate (file_path source target : string) (again : M flow) :
  respects again -> respects (escalate file_path source target again).
Proof.
  intros Ha. unfold escalate. apply respects_bind; [apply respects_prompt_user|].
  intros response.
  destruct (Ascii.eqb response "n"); [apply respects_ret|].
  destruct (Ascii.eqb response "y"); [apply respects_ret|].
  destruct (Ascii.eqb response "v").
  { apply respects_bind; [apply respects_run_command|]. intros _.
    apply respects_bind; [apply respects_print|]. intros _.
    apply respects_bind; [apply respects_run_command|]. intros _. exact Ha. }
  destruct (Ascii.eqb response "c"); [|exact Ha].
  apply respects_bind; [apply respects_copyfile|]. intros _. exact Ha.
Qed.

Lemma respects_check_loop (budget : nat) (working_copy_dir module_path source target : string) :
  respects (check_loop budget working_copy_dir module_path source target).
Proof.
  induction budget as [|budget IH]; simpl.
  - apply respects_raise.
  - apply respects_bind; [apply respects_isfile|]. intros tracked.
    destruct tracked; simpl.
    + apply respects_bind; [apply respects_run_command|]. intros same.
      destruct same; [apply respects_ret|]. now apply respects_escalate.
    + apply respects_bind; [apply respects_print|]. intros _. apply respects_ret.
Qed.

Lemma respects_check_entry (args : Args)
    (working_copy_dir module_path checklist_file_path : string) (e : string * string) :
  respects (check_entry args working_copy_dir module_path checklist_file_path e).
Proof.
  destruct e as [source target]. unfold check_entry.
  apply respects_bind; [apply respects_isfile|]. intros have_source.
  destruct have_source; simpl.
  2:{ apply respects_bind; [apply respects_print|]. intros _. apply respects_ret. }
  apply respects_bind; [apply respects_isfile|]. intros have_target.
  destruct have_target; simpl.
  2:{ apply respects_bind; [apply respects_prompt_user|]. intros response.
      destruct (Ascii.eqb response "n"); apply respects_ret. }
  destruct (diff_mode args).
  - apply respects_bind; [apply respects_run_command|]. intros same.
    apply respects_bind; [|intros _; apply respects_ret].
    destruct same; simpl; [apply respects_ret|].
    apply respects_bind; [apply respects_prompt_user|]. intros response.
    destruct (Ascii.eqb response "y"); [|apply respects_ret].
    apply respects_bind; [apply respects_run_command|]. intros _.
    apply respects_bind; [apply respects_run_command|]. intros _. apply respects_ret.
  - intros w1 w2 H. pose proof H as (Hf & Hi & Ho). rewrite Hi.
    exact (respects_check_loop (S (length (stdin w2))) _ _ _ _ w1 w2 H).
Qed.

Lemma respects_for_entries (args : Args)
    (working_copy_dir module_path checklist_file_path : string)
    (checklist : list (string * string)) :
  respects (for_entries args working_copy_dir module_path checklist_file_path checklist).
Proof.
  induction checklist as [|e more IH]; simpl.
  - apply respects_ret.
  - apply respects_bind; [apply respects_check_entry|]. intros f.
    destruct f; [exact IH | apply respects_ret].
Qed.

End Deterministic.
Lemma verdicts_app (out more : list event) :
  verdicts (out ++ more) = (verdicts out ++ verdicts more)%list.
Proof. unfold verdicts. apply omap_app. Qed.

(** C7.  In check mode, for an entry whose source, target and counterpart
    in the working copy are regular files, the comparison yields exactly one
    verdict, and the bytes of the counterpart and of the target decide it:
    [UpToDate] when they are equal, and the entry passes without a question;
    [TargetModifiedLocally] when they differ, and the operator is asked.
    Two runs over worlds that agree on the bytes on disk and on the
    operator's input, whatever the modes, the modification times and the
    clocks are, end alike and show the same verdicts, provided external
    programs cannot tell such worlds apart either.  In particular a second
    run, after a first one that left the bytes as they were, shows the
    verdicts of the first. *)
Theorem verdicts_depend_on_bytes_only (args : Args)
    (working_copy_dir module_path checklist_file_path : string) :
  diff_mode args = false ->
  (forall c fs1 fs2,
     same_bytes fs1 fs2 ->
     (spawn c fs1).1 = (spawn c fs2).1 /\ same_bytes (spawn c fs1).2 (spawn c fs2).2) ->
  let entry := check_entry args working_copy_dir module_path checklist_file_path in
  let run := for_entries args working_copy_dir module_path checklist_file_path in
  let path := working_copy_path working_copy_dir module_path in
  (forall source target x y w,
     is_regular (files w) source = true ->
     bytes_of (files w) (path source) = Some x -> bytes_of (files w) target = Some y ->
     (x = y ->
        entry (source, target) w
        = (Ret NextEntry, emit (Ran (diff_call (path source) target) 0) w)
        /\ verdicts (stdout (entry (source, target) w).2)
           = (verdicts (stdout w) ++ [UpToDate])%list)
     /\ (x <> y ->
           entry (source, target) w
           = escalate (path source) source target
               (check_loop (length (stdin w)) working_copy_dir module_path source target)
               (emit (Ran (diff_call (path source) target) 1) w)
           /\ verdicts (stdout (emit (Ran (diff_call (path source) target) 1) w))
              = (verdicts (stdout w) ++ [TargetModifiedLocally])%list))
  /\ (forall checklist w1 w2,
        same_bytes (files w1) (files w2) -> stdin w1 = stdin w2 -> stdout w1 = stdout w2 ->
        (run checklist w1).1 = (run checklist w2).1
        /\ verdicts (stdout (run checklist w1).2) = verdicts (stdout (run checklist w2).2)
        /\ same_bytes (files (run checklist w1).2) (files (run checklist w2).2))
  /\ (forall checklist w now,
        same_bytes (files w) (files (run checklist w).2) ->
        let second := run checklist (mkWorld (files (run checklist w).2) (stdin w) (stdout w) now) in
        second.1 = (run checklist w).1
        /\ verdicts (stdout second.2) = verdicts (stdout (run checklist w).2)).
Proof.
  intros Hmode Hspawn entry run path.
  assert (Htwo : forall checklist w1 w2,
            same_bytes (files w1) (files w2) -> stdin w1 = stdin w2 -> stdout w1 = stdout w2 ->
            (run checklist w1).1 = (run checklist w2).1
            /\ verdicts (stdout (run checklist w1).2) = verdicts (stdout (run checklist w2).2)
            /\ same_bytes (files (run checklist w1).2) (files (run checklist w2).2)).
  { intros checklist w1 w2 Hf Hi Ho.
    destruct (respects_for_entries Hspawn args working_copy_dir module_path
                checklist_file_path checklist w1 w2) as [Hr (Hf' & Hi' & Ho')];
      [now repeat split|].
    split; [exact Hr|]. split; [|exact Hf']. unfold run. now rewrite Ho'. }
  split; [|split; [exact Htwo|]].
  - intros source target x y w Hs Hp Ht.
    assert (Ht' : is_regular (files w) target = true) by (apply is_regular_bytes; eauto).
    unfold entry. rewrite (check_entry_start _ _ _ _ Hmode _ _ _ Hs Ht'). split.
    + intros ->. rewrite (check_loop_same _ _ _ _ _ y _ Hp Ht).
      split; [reflexivity|]. simpl. now rewrite verdicts_app.
    + intros Hxy. rewrite (check_loop_differ _ _ _ _ _ x y _ Hp Ht Hxy).
      split; [reflexivity|]. simpl. now rewrite verdicts_app.
  - intros checklist w now Hsame second.
    destruct (Htwo checklist (mkWorld (files (run checklist w).2) (stdin w) (stdout w) now) w)
      as (Hr & Hv & _); simpl; try reflexivity.
    + intros key. symmetry. apply Hsame.
    + now split.
Qed.

(** ** [read_checklist] *)

Lemma cut_count (sep : ascii) (s : string) :
  match Py.cut sep s with
  | Some (a, b) => Py.count sep s = S (Py.count sep b)
  | None => Py.count sep s = O
  end.
Proof.
  induction s as [|c s IH]; simpl; [reflexivity|].
  destruct (Ascii.eqb c sep); [reflexivity|].
  destruct (Py.cut sep s) as [[a b]|]; exact IH.
Qed.

Lemma contains_count (sep : ascii) (s : string) :
  (0 < Py.count sep s)%nat -> Py.contains sep s = true.
Proof.
  induction s as [|c s IH]; simpl; [lia|].
  destruct (Ascii.eqb c sep); [reflexivity|]. exact IH.
Qed.

(** With two separators or more, [split(separator, 2)] gives three items. *)
Lemma split_max_two (sep : ascii) (s : string) :
  (2 <= Py.count sep s)%nat -> exists a b c, Py.split_max sep 2 s = [a; b; c].
Proof.
  intros H. simpl. pose proof (cut_count sep s) as H1.
  destruct (Py.cut sep s) as [[a rest]|]; [|lia].
  pose proof (cut_count sep rest) as H2.
  destruct (Py.cut sep rest) as [[b c]|]; [|lia]. eauto.
Qed.

Lemma checklist_line_two_commas (line : string) :
  (2 <= Py.count "," (Py.strip (trim_comment line)))%nat ->
  checklist_line line = Raise ValueError.
Proof.
  intros H. unfold checklist_line. cbv zeta.
  rewrite contains_count by lia.
  destruct (split_max_two _ _ H) as (a & b & c & ->). reflexivity.
Qed.

Lemma checklist_line_raises (line : string) (e : exn) :
  checklist_line line = Raise e -> e = ValueError.
Proof.
  unfold checklist_line. cbv zeta.
  destruct (Py.contains "," (Py.strip (trim_comment line))); [|discriminate].
  destruct (Py.split_max "," 2 (Py.strip (trim_comment line))) as [|a [|b [|c l]]];
    try congruence.
  destruct (nonempty a && nonempty b); discriminate.
Qed.

Lemma checklist_lines_two_commas (lines : list string) (checklist : list (string * string)) :
  Exists (fun line => (2 <= Py.count "," (Py.strip (trim_comment line)))%nat) lines ->
  checklist_lines lines checklist = Raise ValueError.
Proof.
  revert checklist. induction lines as [|line rest IH]; intros checklist H.
  - inversion H.
  - simpl. destruct (checklist_line line) as [[entry|]|e] eqn:E.
    + apply IH. inversion H as [? ? Hh | ? ? Ht]; subst; [|exact Ht].
      rewrite (checklist_line_two_commas _ Hh) in E. discriminate.
    + apply IH. inversion H as [? ? Hh | ? ? Ht]; subst; [|exact Ht].
      rewrite (checklist_line_two_commas _ Hh) in E. discriminate.
    + now rewrite (checklist_line_raises _ _ E).
Qed.

(** C2.  A checklist with a line that holds, once its comment and the
    blanks around it are gone, two commas or more is not read:
    [split(separator, 2)] cuts such a line in three, the unpacking into
    [source, target] raises [ValueError], and [read_checklist] returns
    nothing. *)
Theorem read_checklist_two_commas (checklist_file_path text : string) (w : World) :
  bytes_of (files w) checklist_file_path = Some text ->
  Exists (fun line => (2 <= Py.count "," (Py.strip (trim_comment line)))%nat)
    (Py.readlines text) ->
  read_checklist checklist_file_path w = (Raise ValueError, w).
Proof.
  intros Hfile Hline. unfold read_checklist.
  rewrite (bind_run _ _ w w text) by (unfold read_file; now rewrite Hfile).
  now rewrite (checklist_lines_two_commas _ _ Hline).
Qed.

(** ** The budget of the escalation loop is never used up *)

Lemma tame_within_budget {A} (m : M A) : tame m -> within_budget m.
Proof. intros H w. apply H. Qed.

Lemma within_budget_bind {A B} (m : M A) (k : A -> M B) :
  within_budget m -> (forall a, within_budget (k a)) -> within_budget (bind m k).
Proof.
  intros Hm Hk w. unfold bind. specialize (Hm w).
  destruct (m w) as [[a|e] w']; simpl in *; [apply Hk|].
  intros [= ->]. now elim Hm.
Qed.

Lemma tame_ret {A} (a : A) : tame (ret a).
Proof. intros w. now split. Qed.

Lemma tame_bind {A B} (m : M A) (k : A -> M B) :
  tame m -> (forall a, tame (k a)) -> tame (bind m k).
Proof.
  intros Hm Hk w. unfold bind. destruct (Hm w) as [Hr Hi].
  destruct (m w) as [[a|e] w']; simpl in *.
  - destruct (Hk a w') as [Hr' Hi']. split; [exact Hr' | congruence].
  - split; [congruence | exact Hi].
Qed.

Lemma tame_print (text : string) : tame (print text).
Proof. intros w. now split. Qed.

Lemma tame_isfile (path : string) : tame (os_path_isfile path).
Proof. intros w. now split. Qed.

Lemma tame_run_command (c : command) (k : kwargs) : tame (run_command c k).
Proof.
  intros w. unfold run_command.
  destruct (popen (Call c (kw_shell k) (kw_cwd k)) (files w)) as [rc fs].
  destruct (rc =? 0), (abort_on_failure k), (display_output k); now split.
Qed.

Lemma tame_copyfile (src dst : string) : tame (shutil_copyfile src dst).
Proof.
  intros w. unfold shutil_copyfile.
  destruct (files w !! resolve src) as [[f|]|]; try now split.
  destruct (decide (resolve src = resolve dst)); [now split|].
  destruct (files w !! resolve dst) as [[g|]|]; now split.
Qed.

Lemma prompt_loop_reads (prompt : string) (allowed : gset ascii) (d : option ascii)
    (input : list string) (w : World) :
  (prompt_loop prompt allowed d input w).1 <> Raise LoopBudget
  /\ (forall r w', prompt_loop prompt allowed d input w = (Ret r, w') ->
        (length (stdin w') < length input)%nat).
Proof.
  revert w. induction input as [|line rest IH]; intros w; simpl.
  - split; [discriminate | intros r w' H; discriminate].
  - destruct (Py.lower (Py.strip line)) as [|c tail].
    + destruct d; (split; [discriminate|]); intros r w' [= <- <-]; simpl; lia.
    + destruct (decide (c ∈ allowed)).
      * split; [discriminate|]. intros r w' [= <- <-]. simpl. lia.
      * destruct (IH (emit (Printed not_recognized)
                        (set_stdin rest (emit (Prompted prompt) w)))) as [H1 H2].
        split; [exact H1|]. intros r w' H. specialize (H2 r w' H). lia.
Qed.

Lemma prompt_user_reads (prompt spec : string) (w : World) :
  (prompt_user prompt spec w).1 <> Raise LoopBudget
  /\ (forall r w', prompt_user prompt spec w = (Ret r, w') ->
        (length (stdin w') < length (stdin w))%nat).
Proof.
  unfold prompt_user. destruct (scan_responses spec ∅ None) as [allowed d].
  destruct (prompt_loop_reads prompt allowed d (stdin w) w) as [H1 H2].
  destruct (prompt_loop prompt allowed d (stdin w) w) as [[r0|e] w0]; simpl in *.
  - split; [discriminate|]. intros r w' [= <- <-]. now apply (H2 r0).
  - split; [exact H1 | discriminate].
Qed.

Lemma check_loop_within_budget (budget : nat)
    (working_copy_dir module_path source target : string) (w : World) :
  (length (stdin w) < budget)%nat ->
  (check_loop budget working_copy_dir module_path source target w).1 <> Raise LoopBudget.
Proof.
  revert w. induction budget as [|budget IH]; intros w Hlen; [lia|].
  simpl check_loop. unfold bind at 1. unfold os_path_isfile at 1.
  destruct (is_regular (files w) _); cbv beta iota delta [negb].
  2:{ apply tame_bind; [apply tame_print | intros _; apply tame_ret]. }
  unfold bind at 1.
  destruct (tame_run_command
              (Argv ["diff"; "-q"; working_copy_path working_copy_dir module_path source; target])
              (without_abort plain) w) as [Hr Hi].
  destruct (run_command _ _ w) as [[same|e] w1]; simpl in Hr, Hi;
    [|intros [= ->]; now elim Hr].
  destruct same; [discriminate|].
  unfold escalate, bind at 1.
  destruct (prompt_user_reads (modified_prompt target) "yNcv" w1) as [Hp Hq].
  destruct (prompt_user (modified_prompt target) "yNcv" w1) as [[response|e] w2];
    simpl in Hp; [|intros [= ->]; now elim Hp].
  specialize (Hq response w2 eq_refl). rewrite Hi in Hq.
  assert (Hagain : forall w', stdin w' = stdin w2 ->
            (check_loop budget working_copy_dir module_path source target w').1
            <> Raise LoopBudget).
  { intros w' H. apply IH. rewrite H. lia. }
  assert (Hthen : forall {A} (m : M A) (k : M flow), tame m ->
            (forall w', stdin w' = stdin w2 -> (k w').1 <> Raise LoopBudget) ->
            forall w', stdin w' = stdin w2 -> ((m ;;; k) w').1 <> Raise LoopBudget).
  { intros A m k Hm Hk w' H. unfold bind. destruct (Hm w') as [H1 H2].
    destruct (m w') as [[a|e] w3]; simpl in *; [|intros [= ->]; now elim H1].
    apply Hk. congruence. }
  destruct (Ascii.eqb response "n"); [discriminate|].
  destruct (Ascii.eqb response "y"); [discriminate|].
  destruct (Ascii.eqb response "v").
  { apply Hthen; [apply tame_run_command| |reflexivity].
    apply Hthen; [apply tame_print|]. apply Hthen; [apply tame_run_command|]. exact Hagain. }
  destruct (Ascii.eqb response "c").
  - apply Hthen; [apply tame_copyfile | exact Hagain | reflexivity].
  - now apply Hagain.
Qed.

Lemma within_budget_prompt_user (prompt spec : string) : within_budget (prompt_user prompt spec).
Proof. intros w. apply prompt_user_reads. Qed.

(** [check_entry] gives the loop a budget that it cannot use up. *)
Lemma check_entry_within_budget (args : Args)
    (working_copy_dir module_path checklist_file_path : string) (e : string * string) :
  within_budget (check_entry args working_copy_dir module_path checklist_file_path e).
Proof.
  destruct e as [source target]. unfold check_entry.
  apply within_budget_bind; [apply tame_within_budget, tame_isfile|]. intros have_source.
  destruct have_source; cbv beta iota delta [negb].
  2:{ apply tame_within_budget, tame_bind; [apply tame_print | intros _; apply tame_ret]. }
  apply within_budget_bind; [apply tame_within_budget, tame_isfile|]. intros have_target.
  destruct have_target; cbv beta iota delta [negb].
  2:{ apply within_budget_bind; [apply within_budget_prompt_user|]. intros response.
      destruct (Ascii.eqb response "n"); apply tame_within_budget, tame_ret. }
  destruct (diff_mode args).
  - apply within_budget_bind; [apply tame_within_budget, tame_run_command|]. intros same.
    apply within_budget_bind; [|intros _; apply tame_within_budget, tame_ret].
    destruct same; cbv beta iota delta [negb]; [apply tame_within_budget, tame_ret|].
    apply within_budget_bind; [apply within_budget_prompt_user|]. intros response.
    destruct (Ascii.eqb response "y"); [|apply tame_within_budget, tame_ret].
    apply tame_within_budget.
    apply tame_bind; [apply tame_run_command|]. intros _.
    apply tame_bind; [apply tame_run_command|]. intros _. apply tame_ret.
  - intros w. apply check_loop_within_budget. lia.
Qed.

End Properties.

(** * The properties at work *)

(** ** [prompt_user] *)

(** [prompt_user_contract] on the response string [yN]: a blank line gives
    [n], [Y] gives [y], and [q] is answered with the error and a second
    question. *)
Lemma prompt_user_contract_witness :
  prompt_user "Continue anyway [y/N]? " "yN" (mkWorld ∅ [""] [] 0)
  = (Ret "n"%char, asked "Continue anyway [y/N]? " [] (mkWorld ∅ [""] [] 0))
  /\ prompt_user "Continue anyway [y/N]? " "yN" (mkWorld ∅ ["Y"] [] 0)
     = (Ret "y"%char, asked "Continue anyway [y/N]? " [] (mkWorld ∅ ["Y"] [] 0))
  /\ prompt_user "Continue anyway [y/N]? " "yN" (mkWorld ∅ ["q"; "Y"] [] 0)
     = prompt_user "Continue anyway [y/N]? " "yN"
         (emit (Printed not_recognized)
            (asked "Continue anyway [y/N]? " ["Y"] (mkWorld ∅ ["q"; "Y"] [] 0)))
  /\ (forall input r w',
        prompt_user "Continue anyway [y/N]? " "yN" (mkWorld ∅ input [] 0) = (Ret r, w') ->
        r = "y"%char \/ r = "n"%char).
Proof.
  destruct (prompt_user_contract "Continue anyway [y/N]? " "y" "" "N" eq_refl eq_refl eq_refl)
    as (Hopt & Hblank & Hfirst & Hretry & _ & Hmember & _).
  split; [|split; [|split]].
  - exact (Hblank (mkWorld ∅ [""] [] 0) "" [] eq_refl eq_refl).
  - apply (Hfirst (mkWorld ∅ ["Y"] [] 0) "Y" [] "Y"%char "" eq_refl eq_refl).
    apply Hopt. exists "y"%char. split; [left | reflexivity].
  - apply (Hretry (mkWorld ∅ ["q"; "Y"] [] 0) "q" ["Y"] "q"%char "" eq_refl eq_refl).
    intros H. apply Hopt in H as (item & Hitem & Hq). simpl in Hitem.
    rewrite !elem_of_cons, elem_of_nil in Hitem.
    destruct Hitem as [-> | [-> | []]]; discriminate.
  - intros input r w' H. apply Hmember in H. apply Hopt in H as (item & Hitem & ->).
    simpl in Hitem. rewrite !elem_of_cons, elem_of_nil in Hitem.
    destruct Hitem as [-> | [-> | []]]; [left | right]; reflexivity.
Defined.

(** C8 as it is claimed fails here: it is not the first character of
    the input that counts, but the first character once the blanks around
    the line are gone.  A line that starts with a blank, which is no
    option, is not asked about again: [ y] is taken as [y]; and a line of
    blanks, which is not empty, is answered with the default. *)
Lemma prompt_user_strips_blanks_counterexample :
  prompt_user "Continue anyway [y/N]? " "yN" (mkWorld ∅ [" y"; "n"] [] 0)
  = (Ret "y"%char, asked "Continue anyway [y/N]? " ["n"] (mkWorld ∅ [" y"; "n"] [] 0))
  /\ prompt_user "Continue anyway [y/N]? " "yN" (mkWorld ∅ ["   "; "y"] [] 0)
     = (Ret "n"%char, asked "Continue anyway [y/N]? " ["y"] (mkWorld ∅ ["   "; "y"] [] 0)).
Proof.
  split.
  - apply (prompt_user_accepts _ "yN" " y" ["n"] "y" EmptyString); [reflexivity..|].
    apply (option_of_spec "yN" "y"). left.
  - now apply (prompt_user_default _ "yN" "   " ["y"] "N").
Qed.

(** ** A missing target *)

(** C1 as it is claimed fails here: the source is there, the target is
    not, and the operator just presses enter.  The run is not ended with
    status 2: the entry is skipped and the run ends with status 0. *)
Lemma missing_target_blank_line_counterexample :
  is_regular (os:=quiet_os) (files (example_world nginx_line None [""])) "nginx.conf" = true
  /\ is_regular (os:=quiet_os) (files (example_world nginx_line None [""]))
       "/etc/nginx/nginx.conf" = false
  /\ (script (os:=quiet_os) example_env check_args (example_world nginx_line None [""])).1
     = Exit 0
  /\ prompts (stdout (script (os:=quiet_os) example_env check_args
                        (example_world nginx_line None [""])).2)
     = ["Target file /etc/nginx/nginx.conf doesn't exist. Continue [Y/n]? "].
Proof. vm_compute. repeat split; reflexivity. Qed.

(** [missing_target_defaults_to_yes] on the same files: a line [n] ends
    the run with status 2, a blank line moves on. *)
Lemma missing_target_defaults_to_yes_witness :
  (script (os:=quiet_os) example_env check_args (example_world nginx_line None ["n"])).1
  = Exit 2
  /\ (check_entry (os:=quiet_os) check_args "/var/cache/confcheck" "web" "./CONFCHECKLIST"
        ("nginx.conf", "/etc/nginx/nginx.conf") (example_world nginx_line None [""])).1
     = Ret NextEntry.
Proof.
  split.
  - set (w0 := example_world nginx_line None ["n"]).
    set (w := (sync_repository (os:=quiet_os) check_args w0).2).
    destruct (missing_target_defaults_to_yes (os:=quiet_os) example_env check_args
                "/var/cache/confcheck" "nginx.conf" "/etc/nginx/nginx.conf" "n" [] [] w
                ltac:(vm_compute; reflexivity) ltac:(vm_compute; reflexivity)
                ltac:(vm_compute; reflexivity)) as [_ Hno].
    destruct Hno as (_ & _ & Hscript).
    + exists "n"%char, "". split; reflexivity.
    + rewrite (Hscript w0); [reflexivity|].
      exists "confcheck", w. repeat split; vm_compute; reflexivity.
  - destruct (missing_target_defaults_to_yes (os:=quiet_os) example_env check_args
                "/var/cache/confcheck" "nginx.conf" "/etc/nginx/nginx.conf" "" [] []
                (example_world nginx_line None [""])
                ltac:(vm_compute; reflexivity) ltac:(vm_compute; reflexivity)
                ltac:(vm_compute; reflexivity)) as [Hyes _].
    destruct Hyes as [Hentry _]; [left; reflexivity|].
    change (module_path_of (getcwd example_env)) with "web" in Hentry.
    now rewrite Hentry.
Defined.

(** ** [read_checklist] *)

(** [read_checklist_two_commas] on the checklist [a,b,c]. *)
Lemma read_checklist_two_commas_witness :
  read_checklist (os:=quiet_os) "./CONFCHECKLIST" (example_world ("a,b,c" +:+ nl) None [])
  = (Raise ValueError, example_world ("a,b,c" +:+ nl) None []).
Proof.
  apply (read_checklist_two_commas (os:=quiet_os) "./CONFCHECKLIST" ("a,b,c" +:+ nl)).
  - vm_compute. reflexivity.
  - left. vm_compute. lia.
Defined.

(** The whole run on that checklist: a traceback, where the claim promises
    the entry [(a, b,c)]. *)
Example two_commas_end_the_run :
  checklist_line "a,b,c" = Raise ValueError
  /\ (script (os:=quiet_os) example_env check_args
        (example_world ("a,b,c" +:+ nl) None [])).1 = Traceback ValueError.
Proof. vm_compute. split; reflexivity. Qed.

(** What the other lines of the specification's examples give. *)
Example checklist_lines_read :
  checklist_line "a,b # comment" = Ret (Some ("a", "b"))
  /\ checklist_line "justoneword" = Ret None
  /\ checklist_line "  ,b" = Ret None.
Proof. vm_compute. repeat split; reflexivity. Qed.

(** ** The host directory check *)

(** With a directory level of 0 and a current directory, [web], that is
    not the host name, the run asks nothing and ends with status 0. *)
Example dir_level_zero_asks_nothing :
  (script (os:=quiet_os) example_env (arguments (Some 0) false false)
     (example_world nginx_line (Some "worker_processes 2;") [])).1 = Exit 0
  /\ prompts (stdout (script (os:=quiet_os) example_env (arguments (Some 0) false false)
                        (example_world nginx_line (Some "worker_processes 2;") [])).2) = []
  /\ Py.index (rev (Py.split "/" (getcwd example_env))) 0 = Some "web".
Proof. vm_compute. repeat split; reflexivity. Qed.

(** With a level of 1 the same mismatch is asked about. *)
Example dir_level_one_asks :
  prompts (stdout (script (os:=quiet_os) example_env (arguments (Some 1) false false)
                     (example_world nginx_line (Some "worker_processes 2;") ["n"])).2)
  = ["WARNING! Your current host directory, conf, doesn't match your server's fully qualified hostname, hostA.example.com. Continue anyway [y/N]? "]
  /\ (script (os:=quiet_os) example_env (arguments (Some 1) false false)
        (example_world nginx_line (Some "worker_processes 2;") ["n"])).1 = Exit 2.
Proof. vm_compute. split; reflexivity. Qed.

(** The example of the specification: one level up from
    [/srv/conf/hostA.example.com/db] is the host name, and nothing is
    asked. *)
Example host_directory_matches :
  check_host_dir {| gethostname := "hostA.example.com";
                    getcwd := "/srv/conf/hostA.example.com/db" |}
    (arguments (Some 1) false false) (example_world nginx_line None [])
  = (Ret NextEntry, example_world nginx_line None []).
Proof. vm_compute. reflexivity. Qed.

(** C4 as it is claimed fails here: a level of 9 where the path of the
    current directory splits into six segments ends the process with a
    traceback and status 1, not with a reported failure and status 2. *)
Lemma dir_level_out_of_range_counterexample :
  length (Py.split "/" (getcwd example_env)) = 6%nat
  /\ (script (os:=quiet_os) example_env (arguments (Some 9) false false)
        (example_world nginx_line None [])).1 = Traceback IndexError
  /\ exit_status (script (os:=quiet_os) example_env (arguments (Some 9) false false)
                    (example_world nginx_line None [])).1 = 1.
Proof. vm_compute. repeat split; reflexivity. Qed.

(** [dir_level_out_of_range] on that run. *)
Lemma dir_level_out_of_range_witness :
  check_host_dir example_env (arguments (Some 9) false false) (example_world nginx_line None [])
  = (Raise IndexError, example_world nginx_line None []).
Proof.
  apply (dir_level_out_of_range (os:=quiet_os) example_env (arguments (Some 9) false false) 9
           (example_world nginx_line None []) eq_refl).
  - lia.
  - left. vm_compute. discriminate.
Defined.

(** ** Check mode *)

(** C5 as it is claimed fails here: the operator works inside the working
    copy, so the local source is its own counterpart.  One answer, [c],
    copies the target over it; the next comparison finds no difference,
    the question is not asked again, and the run ends with status 0. *)
Lemma copy_alone_ends_the_loop_counterexample :
  resolve (OS:=inplace_os) "nginx.conf"
  = resolve (OS:=inplace_os) (working_copy_path "/srv/conf" "web" "nginx.conf")
  /\ (script (os:=inplace_os) inplace_env check_args (inplace_world ["c"])).1 = Exit 0
  /\ length (prompts (stdout (script (os:=inplace_os) inplace_env check_args
                                (inplace_world ["c"])).2)) = 1%nat
  /\ verdicts (stdout (script (os:=inplace_os) inplace_env check_args
                         (inplace_world ["c"])).2)
     = [TargetModifiedLocally; UpToDate].
Proof. vm_compute. repeat split; reflexivity. Qed.

(** [copy_then_yes_accepts] where the working copy is elsewhere: after [c]
    alone the question has been asked twice and the input has ended; after
    [c] and [y] the run ends with status 0 and the local source holds the
    bytes of the target. *)
Lemma copy_then_yes_accepts_witness :
  (script (os:=quiet_os) example_env check_args
     (example_world nginx_line (Some "worker_processes 8;") ["c"])).1 = Traceback EOFError
  /\ length (prompts (stdout (script (os:=quiet_os) example_env check_args
                                (example_world nginx_line (Some "worker_processes 8;") ["c"])).2))
     = 2%nat
  /\ exists w',
       script (os:=quiet_os) example_env check_args
         (example_world nginx_line (Some "worker_processes 8;") ["c"; "y"]) = (Exit 0, w')
       /\ bytes_of (os:=quiet_os) (files w') "nginx.conf" = Some "worker_processes 8;".
Proof.
  split; [vm_compute; reflexivity|]. split; [vm_compute; reflexivity|].
  set (w0 := example_world nginx_line (Some "worker_processes 8;") ["c"; "y"]).
  set (w := (sync_repository (os:=quiet_os) check_args w0).2).
  destruct (copy_then_yes_accepts (os:=quiet_os) example_env check_args "/var/cache/confcheck"
              eq_refl) as [_ Hrun].
  destruct (Hrun [("nginx.conf", "/etc/nginx/nginx.conf")] ["c"; "y"] [] w)
    as (w' & _ & Hfiles & _ & Hscript).
  - simpl. split; [vm_compute; reflexivity|].
    split; [vm_compute; discriminate|]. split; [vm_compute; discriminate|].
    exists "worker_processes 8;", "worker_processes 2;".
    split; [vm_compute; reflexivity|]. split; [vm_compute; reflexivity|].
    split; [discriminate | exact I].
  - vm_compute. reflexivity.
  - simpl. split; [exists "c"%char, ""; split; reflexivity|].
    split; [exists "y"%char, ""; split; reflexivity | exact I].
  - exists w'. split.
    + apply Hscript. exists "confcheck", w. repeat split; vm_compute; reflexivity.
    + rewrite Hfiles. vm_compute. reflexivity.
Defined.

(** ** Diff mode *)

(** C6 as it is claimed fails here: source and target are there and
    differ, the operator asks for the diff, and [clear] exits with 1.  The
    run does not move on to the next entry: it ends with status 1. *)
Lemma diff_mode_clear_fails_counterexample :
  (script (os:=posix example_dir default_settings clear_fails) example_env diff_args
     (example_world nginx_line (Some "worker_processes 8;") ["y"])).1 = Exit 1
  /\ clear_fails clear_call = 1
  /\ clear_fails (pager_call "/etc/nginx/nginx.conf" "nginx.conf") = 0.
Proof. vm_compute. repeat split; reflexivity. Qed.

(** ** Verdicts *)

Lemma same_bytes_touched (w : World) : same_bytes (files w) (files (touched w)).
Proof.
  intros key. unfold touched. simpl. rewrite lookup_fmap.
  now destruct (files w !! key) as [[f|]|].
Qed.

(** [verdicts_depend_on_bytes_only] on a drifted target: the run over
    the files as they are and the run over the same bytes under other
    modes, modification times and clock show the same verdict. *)
Lemma verdicts_depend_on_bytes_only_witness :
  verdicts (stdout (for_entries (os:=quiet_os) check_args "/var/cache/confcheck" "web"
                      "./CONFCHECKLIST" [("nginx.conf", "/etc/nginx/nginx.conf")]
                      (example_world nginx_line (Some "worker_processes 8;") ["y"])).2)
  = verdicts (stdout (for_entries (os:=quiet_os) check_args "/var/cache/confcheck" "web"
                        "./CONFCHECKLIST" [("nginx.conf", "/etc/nginx/nginx.conf")]
                        (touched (example_world nginx_line (Some "worker_processes 8;") ["y"]))).2)
  /\ verdicts (stdout (for_entries (os:=quiet_os) check_args "/var/cache/confcheck" "web"
                         "./CONFCHECKLIST" [("nginx.conf", "/etc/nginx/nginx.conf")]
                         (example_world nginx_line (Some "worker_processes 8;") ["y"])).2)
     = [TargetModifiedLocally]
  /\ files (touched (example_world nginx_line (Some "worker_processes 8;") ["y"]))
     <> files (example_world nginx_line (Some "worker_processes 8;") ["y"]).
Proof.
  destruct (verdicts_depend_on_bytes_only (os:=quiet_os) check_args "/var/cache/confcheck" "web"
              "./CONFCHECKLIST" eq_refl) as (_ & Htwo & _).
  - intros c fs1 fs2 H. now split.
  - split; [|split].
    + apply (Htwo [("nginx.conf", "/etc/nginx/nginx.conf")]
               (example_world nginx_line (Some "worker_processes 8;") ["y"])
               (touched (example_world nginx_line (Some "worker_processes 8;") ["y"]))).
      * apply same_bytes_touched.
      * reflexivity.
      * reflexivity.
    + vm_compute. reflexivity.
    + intros H.
      assert (H' : files (touched (example_world nginx_line (Some "worker_processes 8;") ["y"]))
                   !! "/etc/nginx/nginx.conf"
                   = files (example_world nginx_line (Some "worker_processes 8;") ["y"])
                     !! "/etc/nginx/nginx.conf") by now rewrite H.
      vm_compute in H'. discriminate.
Defined.

(** ** Exit statuses *)

(** [chown] exits with 7, and so does the script: a failure that is not
    reported with status 2. *)
Example chown_status_is_exit_status :
  (script (os:=posix example_dir default_settings chown_fails) example_env check_args
     (example_world nginx_line None [])).1 = Exit 7.
Proof. vm_compute. reflexivity. Qed.

(** C9 as it is claimed fails here: [chown] is killed by signal 9,
    [Popen] gives the return code -9, [ExternalCommandFailure] carries it
    and [sys.exit(-9)] ends the process with status 247, not with the
    return code itself. *)
Lemma signal_status_is_not_verbatim_counterexample :
  chown_killed (Call (Argv ["chown"; "-R"; "confcheck"; "/var/cache/confcheck"]) false None)
  = -9
  /\ (main (os:=posix example_dir default_settings chown_killed) example_env check_args
        (example_world nginx_line None [])).1 = Raise (ExternalCommandFailure (-9))
  /\ (script (os:=posix example_dir default_settings chown_killed) example_env check_args
        (example_world nginx_line None [])).1 = Exit 247.
Proof. vm_compute. repeat split; reflexivity. Qed.

(** The second end-to-end scenario: the target has the bytes of its
    counterpart, nothing is asked, status 0. *)
Example up_to_date_target_passes :
  (script (os:=quiet_os) example_env check_args
     (example_world nginx_line (Some "worker_processes 2;") [])).1 = Exit 0
  /\ prompts (stdout (script (os:=quiet_os) example_env check_args
                        (example_world nginx_line (Some "worker_processes 2;") [])).2) = [].
Proof. vm_compute. split; reflexivity. Qed.

(** ** Package-list mode *)

(** [package_list_runs_in_cwd] on host [hostA.example.com]: status 0, and
    the four commands start in the operator's directory, which is not in
    the working copy. *)
Lemma package_list_runs_in_cwd_witness :
  exists w',
    script (os:=quiet_os) example_env package_args (example_world nginx_line None [])
    = (Exit 0, w')
    /\ (length (stdout w') = 7)%nat
    /\ forall c rc, Ran c rc ∈ drop 3 (stdout w') ->
                    start_dir example_env c = "/home/op/repo/conf/web".
Proof.
  set (w0 := example_world nginx_line None []).
  set (w1 := (sync_repository (os:=quiet_os) package_args w0).2).
  destruct (package_list_runs_in_cwd (os:=quiet_os) example_env package_args w0 w1
              "/var/cache/confcheck" "confcheck")
    as (w' & file & inventory & _ & Hscript & _ & Hout & Hdir).
  - vm_compute. reflexivity.
  - reflexivity.
  - vm_compute. reflexivity.
  - reflexivity.
  - exists w'. split; [exact Hscript|]. split.
    + rewrite Hout. rewrite length_app. reflexivity.
    + intros c rc H. now apply (Hdir c rc).
Defined.

(** C10 as it is claimed fails here: the operator works in
    [/srv/conf/web], inside the working copy [/srv/conf].  The run ends
    with status 0, and the inventory, [git add], [git commit] and
    [git push] all start in [/srv/conf/web]: inside the working copy. *)
Lemma package_list_inside_working_copy_counterexample :
  (sync_repository (os:=inplace_os) package_args (inplace_host_world [])).1
  = Ret (inr ("/srv/conf", "confcheck"))
  /\ (script (os:=inplace_os) inplace_env package_args (inplace_host_world [])).1 = Exit 0
  /\ started_in inplace_env
       (drop 3 (stdout (script (os:=inplace_os) inplace_env package_args
                          (inplace_host_world [])).2))
     = ["/srv/conf/web"; "/srv/conf/web"; "/srv/conf/web"; "/srv/conf/web"]
  /\ String.prefix "/srv/conf/" "/srv/conf/web" = true.
Proof. vm_compute. repeat split; reflexivity. Qed.

(** * Further properties *)

(** ** Strings *)

Lemma string_app_cons (c : ascii) (a b : string) : String c a +:+ b = String c (a +:+ b).
Proof. reflexivity. Qed.

Lemma string_app_nil_l (b : string) : EmptyString +:+ b = b.
Proof. reflexivity. Qed.

Lemma string_app_nil_r (a : string) : a +:+ EmptyString = a.
Proof. induction a as [|c a IH]; [reflexivity|]. now rewrite string_app_cons, IH. Qed.

Lemma clean_no_char (s : string) :
  clean s = true ->
  no_char "," s = true /\ no_char "#" s = true /\ no_char "010" s = true.
Proof.
  unfold clean. induction s as [|c s IH]; simpl; [easy|].
  intros H. apply andb_true_iff in H as [Hc Hs]. destruct (IH Hs) as (H1 & H2 & H3).
  rewrite H1, H2, H3.
  destruct (Ascii.eqb c ","), (Ascii.eqb c "#"), (Ascii.eqb c "010"); simpl in *;
    try discriminate; easy.
Qed.

Lemma no_char_app (c : ascii) (a b : string) :
  no_char c (a +:+ b) = no_char c a && no_char c b.
Proof.
  induction a as [|x a IH]; [reflexivity|]. rewrite string_app_cons. simpl. rewrite IH.
  now rewrite andb_assoc.
Qed.

Lemma no_char_count (c : ascii) (s : string) : no_char c s = true <-> Py.count c s = O.
Proof.
  induction s as [|x s IH]; simpl; [easy|].
  destruct (Ascii.eqb x c); simpl; [split; [discriminate | lia]|]. exact IH.
Qed.

Lemma no_char_contains (c : ascii) (s : string) : no_char c s = true -> Py.contains c s = false.
Proof.
  induction s as [|x s IH]; simpl; [easy|].
  destruct (Ascii.eqb x c); simpl; [discriminate | exact IH].
Qed.

Lemma cut_none (c : ascii) (s : string) : no_char c s = true -> Py.cut c s = None.
Proof.
  induction s as [|x s IH]; simpl; [easy|].
  destruct (Ascii.eqb x c); simpl; [discriminate|]. intros H. now rewrite IH.
Qed.

Lemma cut_app (c : ascii) (a b : string) :
  no_char c a = true -> Py.cut c (a +:+ String c b) = Some (a, b).
Proof.
  induction a as [|x a IH]; intros H.
  - rewrite string_app_nil_l. simpl. now rewrite Ascii.eqb_refl.
  - rewrite string_app_cons. simpl in *. destruct (Ascii.eqb x c); simpl in H; [discriminate|].
    now rewrite IH.
Qed.

(** What [cut] returns puts the string together again, and the part before
    the cut holds no separator. *)
Lemma cut_some (c : ascii) (s a b : string) :
  Py.cut c s = Some (a, b) -> s = a +:+ String c b /\ no_char c a = true.
Proof.
  revert a. induction s as [|x s IH]; intros a; simpl; [discriminate|].
  destruct (Ascii.eqb x c) eqn:E.
  - intros [= <- <-]. apply Ascii.eqb_eq in E as ->. now split.
  - destruct (Py.cut c s) as [[a' b']|]; [|discriminate]. intros [= <- <-].
    destruct (IH a' eq_refl) as [-> H]. rewrite string_app_cons. simpl. now rewrite E, H.
Qed.

Lemma contains_app (c : ascii) (a b : string) : Py.contains c (a +:+ String c b) = true.
Proof.
  induction a as [|x a IH]; [simpl; now rewrite Ascii.eqb_refl|].
  rewrite string_app_cons. simpl. now destruct (Ascii.eqb x c).
Qed.

(** *** [strip] *)

Lemma lstrip_nonblank (s : string) : starts_nonblank s = true -> Py.lstrip s = s.
Proof. destruct s as [|c s]; simpl; [easy|]. now destruct (Py.isspace c). Qed.

Lemma ends_nonblank_nonempty (s : string) : ends_nonblank s = true -> s <> EmptyString.
Proof. now destruct s. Qed.

Lemma rstrip_nonblank (s : string) : ends_nonblank s = true -> Py.rstrip s = s.
Proof.
  induction s as [|c s IH]; [easy|]. intros H. simpl.
  destruct s as [|c' s'].
  - simpl in *. now destruct (Py.isspace c).
  - rewrite IH by exact H. reflexivity.
Qed.

Lemma rstrip_newline (s : string) : Py.rstrip (s +:+ nl) = Py.rstrip s.
Proof.
  induction s as [|c s IH]; [reflexivity|]. rewrite string_app_cons. simpl. now rewrite IH.
Qed.

Lemma strip_newline (s : string) : Py.strip (s +:+ nl) = Py.strip s.
Proof.
  unfold Py.strip. induction s as [|c s IH]; [reflexivity|].
  rewrite string_app_cons. simpl. destruct (Py.isspace c); [exact IH|].
  rewrite <- string_app_cons. apply rstrip_newline.
Qed.

Lemma ends_nonblank_app (a b : string) : ends_nonblank b = true -> ends_nonblank (a +:+ b) = true.
Proof.
  intros H. induction a as [|c a IH]; [exact H|]. rewrite string_app_cons. simpl.
  destruct (a +:+ b); [discriminate IH | exact IH].
Qed.

Lemma starts_nonblank_app (a b : string) :
  starts_nonblank a = true -> starts_nonblank (a +:+ b) = true.
Proof. now destruct a. Qed.

Lemma strip_nonblank (s : string) :
  starts_nonblank s = true -> ends_nonblank s = true -> Py.strip s = s.
Proof. intros H1 H2. unfold Py.strip. now rewrite lstrip_nonblank, rstrip_nonblank. Qed.

(** *** Comments and lines *)

Lemma trim_comment_none (s : string) : no_char "#" s = true -> trim_comment s = s.
Proof.
  induction s as [|c s IH]; simpl; [easy|].
  destruct (Ascii.eqb c "#"); simpl; [discriminate|]. intros H. now rewrite IH.
Qed.

Lemma ends_with_newline_none (s : string) : no_char "010" s = true -> ends_with_newline s = false.
Proof.
  induction s as [|c s IH]; [easy|]. simpl. intros H. apply andb_true_iff in H as [Hc Hs].
  destruct s; [now destruct (Ascii.eqb c "010") | now apply IH].
Qed.

Lemma ends_with_newline_app (s : string) : ends_with_newline (s +:+ nl) = true.
Proof.
  induction s as [|c s IH]; [reflexivity|]. rewrite string_app_cons. simpl.
  destruct (s +:+ nl); [discriminate IH | exact IH].
Qed.

Lemma trim_comment_app (x y : string) :
  no_char "#" x = true ->
  trim_comment (x +:+ String "#" y) = x +:+ (if ends_with_newline y then nl else EmptyString).
Proof.
  induction x as [|c x IH]; [reflexivity|]. rewrite !string_app_cons. simpl.
  destruct (Ascii.eqb c "#"); simpl; [discriminate|]. intros H. now rewrite IH.
Qed.

Lemma readlines_line (x rest : string) :
  no_char "010" x = true -> Py.readlines (x +:+ nl +:+ rest) = (x +:+ nl) :: Py.readlines rest.
Proof.
  induction x as [|c x IH]; [reflexivity|]. rewrite !string_app_cons. simpl.
  destruct (Ascii.eqb c "010"); simpl; [discriminate|]. intros H. now rewrite IH.
Qed.

(** *** What [strip] and [trim_comment] keep *)

Lemma no_char_lstrip (c : ascii) (s : string) : no_char c s = true -> no_char c (Py.lstrip s) = true.
Proof.
  induction s as [|x s IH]; [easy|]. simpl. intros H.
  destruct (Py.isspace x); [|exact H]. apply IH. now apply andb_true_iff in H as [_ H].
Qed.

Lemma no_char_rstrip (c : ascii) (s : string) : no_char c s = true -> no_char c (Py.rstrip s) = true.
Proof.
  induction s as [|x s IH]; [easy|]. simpl. intros H. apply andb_true_iff in H as [Hx Hs].
  specialize (IH Hs). destruct (Py.rstrip s) as [|y t].
  - destruct (Py.isspace x); [reflexivity|]. simpl. now rewrite Hx.
  - simpl in *. now rewrite Hx, IH.
Qed.

Lemma no_char_strip (c : ascii) (s : string) : no_char c s = true -> no_char c (Py.strip s) = true.
Proof. intros H. unfold Py.strip. now apply no_char_rstrip, no_char_lstrip. Qed.

Lemma no_hash_trim_comment (s : string) : no_char "#" (trim_comment s) = true.
Proof.
  induction s as [|c s IH]; [reflexivity|]. simpl.
  destruct (Ascii.eqb c "#") eqn:E; [now destruct (ends_with_newline s)|].
  simpl. now rewrite E, IH.
Qed.

Lemma newline_last_only_tail (c : ascii) (s : string) :
  newline_last_only (String c s) = true -> newline_last_only s = true.
Proof. destruct s; [easy|]. simpl. intros H. now apply andb_true_iff in H as [_ H]. Qed.

Lemma newline_last_only_lstrip (s : string) :
  newline_last_only s = true -> newline_last_only (Py.lstrip s) = true.
Proof.
  induction s as [|c s IH]; [easy|]. intros H. simpl.
  destruct (Py.isspace c); [|exact H]. apply IH. now apply newline_last_only_tail in H.
Qed.

Lemma no_newline_rstrip (s : string) :
  newline_last_only s = true -> no_char "010" (Py.rstrip s) = true.
Proof.
  induction s as [|c s IH]; [easy|]. intros H. pose proof (newline_last_only_tail _ _ H) as Hs.
  specialize (IH Hs). simpl Py.rstrip. destruct (Py.rstrip s) as [|y t] eqn:E.
  - destruct (Py.isspace c) eqn:Hc; [reflexivity|]. simpl.
    destruct (Ascii.eqb c "010") eqn:Hn; [|reflexivity].
    apply Ascii.eqb_eq in Hn. subst c. discriminate.
  - destruct s as [|c' s']; [discriminate|]. simpl in H.
    apply andb_true_iff in H as [Hc _]. simpl. simpl in IH. now rewrite Hc, IH.
Qed.

Lemma newline_last_only_trim_comment (s : string) :
  newline_last_only s = true -> newline_last_only (trim_comment s) = true.
Proof.
  induction s as [|c s IH]; [easy|]. intros H. pose proof (newline_last_only_tail _ _ H) as Hs.
  simpl. destruct (Ascii.eqb c "#") eqn:E; [now destruct (ends_with_newline s)|].
  specialize (IH Hs). destruct s as [|c' s']; [reflexivity|].
  simpl in H. apply andb_true_iff in H as [Hc _].
  destruct (trim_comment (String c' s')) eqn:T; [reflexivity|].
  change (negb (Ascii.eqb c "010") && newline_last_only (String a s) = true).
  now rewrite Hc, IH.
Qed.

Lemma newline_last_only_readlines (s : string) :
  Forall (fun line => newline_last_only line = true) (Py.readlines s).
Proof.
  induction s as [|c s IH]; [constructor|]. simpl.
  destruct (Ascii.eqb c "010") eqn:E; [now constructor|].
  destruct (Py.readlines s) as [|x xs]; [now repeat constructor|].
  apply Forall_cons in IH as [Hx Hxs]. constructor; [|exact Hxs].
  destruct x; [reflexivity|].
  change (negb (Ascii.eqb c "010") && newline_last_only (String a x) = true).
  now rewrite E, Hx.
Qed.

Lemma rstrip_ends (s : string) : Py.rstrip s = EmptyString \/ ends_nonblank (Py.rstrip s) = true.
Proof.
  induction s as [|c s IH]; [now left|]. simpl. destruct (Py.rstrip s) as [|y t].
  - destruct (Py.isspace c) eqn:E; [now left | right]. simpl. now rewrite E.
  - right. destruct IH as [|IH]; [discriminate|]. exact IH.
Qed.

Lemma rstrip_first (c : ascii) (s : string) :
  Py.isspace c = false -> exists t, Py.rstrip (String c s) = String c t.
Proof. intros H. simpl. destruct (Py.rstrip s); [rewrite H|]; eauto. Qed.

Lemma lstrip_starts (s : string) : Py.lstrip s = EmptyString \/ starts_nonblank (Py.lstrip s) = true.
Proof.
  induction s as [|c s IH]; [now left|]. simpl.
  destruct (Py.isspace c) eqn:E; [exact IH|]. right. simpl. now rewrite E.
Qed.

Lemma strip_starts (s : string) : Py.strip s = EmptyString \/ starts_nonblank (Py.strip s) = true.
Proof.
  unfold Py.strip. destruct (lstrip_starts s) as [-> | H]; [now left|].
  destruct (Py.lstrip s) as [|c t]; [now left|]. simpl in H.
  apply negb_true_iff in H. destruct (rstrip_first c t H) as [t' ->]. right. simpl.
  now rewrite H.
Qed.

Lemma strip_ends (s : string) : Py.strip s = EmptyString \/ ends_nonblank (Py.strip s) = true.
Proof. apply rstrip_ends. Qed.

Lemma ends_nonblank_suffix (a b : string) :
  b <> EmptyString -> ends_nonblank (a +:+ b) = ends_nonblank b.
Proof.
  intros Hb. induction a as [|c a IH]; [reflexivity|]. rewrite string_app_cons. simpl.
  destruct (a +:+ b) eqn:E; [|exact IH].
  destruct a; [now rewrite string_app_nil_l in E | discriminate].
Qed.

Lemma cut_none_no_char (c : ascii) (s : string) : Py.cut c s = None -> no_char c s = true.
Proof. intros H. apply no_char_count. pose proof (cut_count c s) as G. now rewrite H in G. Qed.

(** ** [read_checklist]: what it returns, and what it reads back *)

Lemma checklist_line_writable (line source target : string) :
  newline_last_only line = true ->
  checklist_line line = Ret (Some (source, target)) ->
  Py.strip (trim_comment line) = source +:+ "," +:+ target
  /\ writable (source, target) = true.
Proof.
  intros Hshape. unfold checklist_line. cbv zeta.
  set (x := Py.strip (trim_comment line)).
  assert (Hhash : no_char "#" x = true) by apply no_char_strip, no_hash_trim_comment.
  assert (Hnl : no_char "010" x = true).
  { apply no_newline_rstrip, newline_last_only_lstrip.
    now apply newline_last_only_trim_comment. }
  destruct (Py.contains "," x); [|discriminate]. simpl Py.split_max.
  destruct (Py.cut "," x) as [[a r]|] eqn:C1; [|discriminate].
  destruct (Py.cut "," r) as [[b r']|] eqn:C2; [discriminate|].
  destruct (nonempty a && nonempty r) eqn:N; [|discriminate].
  intros [= <- <-]. apply andb_true_iff in N as [Na Nr].
  apply cut_some in C1 as [Hx Ha]. apply cut_none_no_char in C2.
  split; [exact Hx|]. rewrite Hx in Hhash, Hnl.
  rewrite no_char_app in Hhash, Hnl. simpl in Hhash, Hnl.
  apply andb_true_iff in Hhash as [Hh1 Hh2]. apply andb_true_iff in Hnl as [Hn1 Hn2].
  assert (Hclean : forall s, no_char "," s = true -> no_char "#" s = true ->
                             no_char "010" s = true -> clean s = true).
  { clear. unfold clean. induction s as [|c s IH]; [easy|]. simpl. intros H1 H2 H3.
    apply andb_true_iff in H1 as [A1 B1]. apply andb_true_iff in H2 as [A2 B2].
    apply andb_true_iff in H3 as [A3 B3]. rewrite IH by assumption.
    apply negb_true_iff in A1, A2, A3. now rewrite A1, A2, A3. }
  unfold writable. simpl fst. simpl snd.
  rewrite (Hclean a), (Hclean r) by assumption. simpl.
  assert (Hstart : starts_nonblank a = true).
  { destruct (strip_starts (trim_comment line)) as [E | E]; fold x in E.
    - rewrite Hx in E. destruct a; discriminate.
    - rewrite Hx in E. destruct a; [discriminate | exact E]. }
  assert (Hend : ends_nonblank r = true).
  { destruct (strip_ends (trim_comment line)) as [E | E]; fold x in E.
    - rewrite Hx in E. destruct a; discriminate.
    - rewrite Hx in E. change (String "," r) with ("," +:+ r) in E.
      rewrite <- string_app_assoc in E. rewrite ends_nonblank_suffix in E; [exact E|].
      now destruct r. }
  now rewrite Hstart, Hend.
Qed.

Lemma checklist_lines_writable (lines : list string) (acc checklist : list (string * string)) :
  Forall (fun line => newline_last_only line = true) lines ->
  forallb writable acc = true ->
  checklist_lines lines acc = Ret checklist ->
  forallb writable checklist = true.
Proof.
  revert acc. induction lines as [|line rest IH]; intros acc Hshape Hacc; simpl.
  - now intros [= <-].
  - apply Forall_cons in Hshape as [Hl Hrest].
    destruct (checklist_line line) as [[[s t]|]|e] eqn:E; [| |discriminate].
    + apply IH; [exact Hrest|]. rewrite forallb_app, Hacc. simpl.
      destruct (checklist_line_writable _ _ _ Hl E) as [_ ->]. reflexivity.
    + now apply IH.
Qed.

Lemma checklist_line_entry (e : string * string) :
  writable e = true -> checklist_line (entry_line e) = Ret (Some e).
Proof.
  destruct e as [s t]. unfold writable, entry_line. simpl fst. simpl snd. intros H.
  apply andb_true_iff in H as [H Het]. apply andb_true_iff in H as [H Hct].
  apply andb_true_iff in H as [Hcs Hss].
  destruct (clean_no_char _ Hcs) as (Hs1 & Hs2 & Hs3).
  destruct (clean_no_char _ Hct) as (Ht1 & Ht2 & Ht3).
  unfold checklist_line. cbv zeta.
  replace (s +:+ "," +:+ t +:+ nl) with ((s +:+ "," +:+ t) +:+ nl)
    by now rewrite !string_app_assoc.
  rewrite trim_comment_none
    by (rewrite !no_char_app; simpl; now rewrite Hs2, Ht2).
  rewrite strip_newline. rewrite strip_nonblank.
  - change ("," +:+ t) with (String "," t). rewrite contains_app. simpl Py.split_max.
    rewrite (cut_app _ _ _ Hs1), (cut_none _ _ Ht1).
    destruct s; [discriminate|]. destruct t; [discriminate|]. reflexivity.
  - now apply starts_nonblank_app.
  - rewrite <- string_app_assoc. now apply ends_nonblank_app.
Qed.

Lemma checklist_lines_entries (checklist acc : list (string * string)) :
  forallb writable checklist = true ->
  checklist_lines (map entry_line checklist) acc = Ret (acc ++ checklist)%list.
Proof.
  revert acc. induction checklist as [|e more IH]; intros acc H; simpl.
  - now rewrite List.app_nil_r.
  - apply andb_true_iff in H as [He Hmore]. rewrite (checklist_line_entry _ He).
    rewrite IH by exact Hmore. now rewrite <- app_assoc.
Qed.

Lemma readlines_render (checklist : list (string * string)) :
  forallb writable checklist = true ->
  Py.readlines (render_checklist checklist) = map entry_line checklist.
Proof.
  induction checklist as [|[s t] more IH]; [reflexivity|]. simpl. intros H.
  apply andb_true_iff in H as [He Hmore]. unfold entry_line at 1. simpl fst. simpl snd.
  replace ((s +:+ "," +:+ t +:+ nl) +:+ render_checklist more)
    with ((s +:+ "," +:+ t) +:+ nl +:+ render_checklist more)
    by now rewrite !string_app_assoc.
  rewrite readlines_line.
  - rewrite IH by exact Hmore. unfold entry_line. simpl. now rewrite !string_app_assoc.
  - unfold writable in He. simpl in He.
    apply andb_true_iff in He as [He _]. apply andb_true_iff in He as [He Hct].
    apply andb_true_iff in He as [Hcs _].
    destruct (clean_no_char _ Hcs) as (_ & _ & Hs3).
    destruct (clean_no_char _ Hct) as (_ & _ & Ht3).
    rewrite !no_char_app. simpl. now rewrite Hs3, Ht3.
Qed.

Section Checklist.
Context `{os : OS}.

(** X1.  A checklist written one [source,target] pair per line, each
    line ended by a newline, is read back as the same list of pairs, in
    order, provided every field is non-empty and holds no comma, no [#]
    and no newline, no source starts with a blank and no target ends with
    one.  Reading changes nothing. *)
Theorem read_checklist_reads_back (path : string) (checklist : list (string * string))
    (w : World) :
  forallb writable checklist = true ->
  bytes_of (files w) path = Some (render_checklist checklist) ->
  read_checklist path w = (Ret checklist, w).
Proof.
  intros Hw Hb. unfold read_checklist, bind, read_file. rewrite Hb.
  rewrite (readlines_render _ Hw). now rewrite (checklist_lines_entries _ [] Hw).
Qed.

(** X2.  Whatever the file holds, when [read_checklist] returns, the
    world is as before and every pair it returns is such a pair: both
    fields are non-empty and free of commas, [#] and newlines, the source
    does not start with a blank and the target does not end with one.  So
    what was read can be written out and read back unchanged. *)
Theorem read_checklist_entries_writable (path : string) (w w' : World)
    (checklist : list (string * string)) :
  read_checklist path w = (Ret checklist, w') ->
  w' = w
  /\ forallb writable checklist = true
  /\ forall v, bytes_of (files v) path = Some (render_checklist checklist) ->
               read_checklist path v = (Ret checklist, v).
Proof.
  unfold read_checklist at 1, bind, read_file.
  destruct (bytes_of (files w) path) as [text|]; [|discriminate].
  intros [= H <-]. split; [reflexivity|].
  assert (Hw : forallb writable checklist = true).
  { apply (checklist_lines_writable (Py.readlines text) []);
      [apply newline_last_only_readlines | reflexivity | exact H]. }
  split; [exact Hw|]. intros v Hv. unfold read_checklist, bind, read_file. rewrite Hv.
  rewrite (readlines_render _ Hw). now rewrite (checklist_lines_entries _ [] Hw).
Qed.

(** X3.  What follows the first [#] of a line of the file is a comment:
    the line reads as if it ended before the [#].  A line that starts
    with [#] adds nothing to the checklist. *)
Theorem checklist_line_ignores_comment (text comment : string) :
  newline_last_only (text +:+ String "#" comment) = true ->
  no_char "#" text = true ->
  checklist_line (text +:+ String "#" comment) = checklist_line text
  /\ checklist_line (String "#" comment) = Ret None.
Proof.
  intros _ H.
  assert (G : forall x, no_char "#" x = true ->
                        checklist_line (x +:+ String "#" comment) = checklist_line x).
  { intros x Hx. unfold checklist_line. cbv zeta.
    rewrite (trim_comment_app _ _ Hx), (trim_comment_none _ Hx).
    destruct (ends_with_newline comment);
      [now rewrite strip_newline | now rewrite string_app_nil_r]. }
  split; [now apply G|]. apply (G EmptyString). reflexivity.
Qed.

End Checklist.

(** ** The loop of [prompt_user] *)

Lemma prompt_loop_rejected (prompt : string) (allowed : gset ascii) (d : option ascii)
    (bad : list string) (input : list string) (w : World) :
  Forall (rejected allowed) bad ->
  prompt_loop prompt allowed d (bad ++ input) w
  = prompt_loop prompt allowed d input
      (mkWorld (files w) (match bad with [] => stdin w | _ => input end)
               (stdout w ++ retries prompt (length bad)) (clock w)).
Proof.
  revert w. induction bad as [|line bad IH]; intros w H.
  - simpl. rewrite List.app_nil_r. now destruct w.
  - apply Forall_cons in H as [Hline Hbad]. unfold rejected in Hline.
    change ((line :: bad) ++ input)%list with (line :: (bad ++ input))%list.
    cbn [prompt_loop]. destruct (Py.strip line) as [|c tail]; [contradiction|].
    cbn [Py.lower]. destruct (decide (Py.lower_char c ∈ allowed)); [contradiction|].
    rewrite (IH _ Hbad). f_equal. unfold emit, set_stdin. cbn -[retries].
    f_equal.
    + destruct bad; [|reflexivity]. destruct input; reflexivity.
    + cbn [length retries]. now rewrite <- !app_assoc.
Qed.

(** X4.  [prompt_user] asks until a line is not rejected: each rejected
    line costs one prompt and one error message, the first line that is
    not rejected is answered by its first character in lower case, or by
    the default when it is blank ([IndexError] when the response string
    marks no default); the lines after it stay unread, and no file is
    touched. *)
Theorem prompt_user_asks_until_answered (prompt spec : string) (bad : list string)
    (good : string) (rest : list string) (w : World) :
  stdin w = (bad ++ good :: rest)%list ->
  Forall (rejected (scan_responses spec ∅ None).1) bad ->
  ~ rejected (scan_responses spec ∅ None).1 good ->
  prompt_user prompt spec w
  = (reply (scan_responses spec ∅ None).2 good,
     mkWorld (files w) rest
       (stdout w ++ retries prompt (length bad) ++ [Prompted prompt]) (clock w)).
Proof.
  intros Hin Hbad Hgood. unfold prompt_user.
  destruct (scan_responses spec ∅ None) as [allowed d]. cbn [fst snd] in *.
  rewrite Hin, (prompt_loop_rejected _ _ _ _ _ _ Hbad).
  unfold rejected, reply in *. cbn [prompt_loop].
  destruct (Py.strip good) as [|c tail]; cbn [Py.lower].
  - destruct d; unfold set_stdin, emit; cbn; now rewrite <- app_assoc.
  - destruct (decide (Py.lower_char c ∈ allowed)); [|contradiction].
    rewrite lower_char_idem. unfold set_stdin, emit; cbn; now rewrite <- app_assoc.
Qed.

(** X5.  When every line that is left is rejected, [prompt_user] asks once
    per line and once more, and the end of the input raises [EOFError]
    out of [raw_input]: nothing is returned. *)
Theorem prompt_user_end_of_input (prompt spec : string) (w : World) :
  Forall (rejected (scan_responses spec ∅ None).1) (stdin w) ->
  prompt_user prompt spec w
  = (Raise EOFError,
     mkWorld (files w) []
       (stdout w ++ retries prompt (length (stdin w)) ++ [Prompted prompt]) (clock w)).
Proof.
  intros Hbad. unfold prompt_user.
  destruct (scan_responses spec ∅ None) as [allowed d]. cbn [fst snd] in *.
  rewrite <- (List.app_nil_r (stdin w)) at 1.
  rewrite (prompt_loop_rejected _ _ _ _ _ _ Hbad). cbn [prompt_loop].
  unfold set_stdin, emit; cbn. now rewrite <- app_assoc.
Qed.

Section Synchronise.
Context `{os : OS}.

(** ** Before the checklist: configuration and repository *)

(** X6.  Without its configuration file, or without the working copy
    directory that the file names, the script gives up with status 2
    after one message: no program is run, nothing is asked and no file is
    touched, whatever the mode. *)
Theorem nothing_runs_without_configuration (env : Env) (args : Args) (w : World) :
  (is_regular (files w) (config_path args) = false ->
   script env args w
   = (Exit 2, emit (Printed ("Config path " +:+ config_path args +:+ " doesn't exist")) w))
  /\ (forall config,
        is_regular (files w) (config_path args) = true ->
        (read_config (config_path args) w).1 = Ret config ->
        is_directory (files w) (abspath (cfg_working_copy_dir config)) = false ->
        script env args w
        = (Exit 2, emit (Printed ("Working copy path " +:+ abspath (cfg_working_copy_dir config)
                                  +:+ " doesn't exist or isn't a directory")) w)).
Proof.
  split.
  - intros H. unfold script, main, sync_repository.
    unfold bind at 1 2. unfold os_path_isfile at 1. now rewrite H.
  - intros config Hfile Hread Hdir. unfold script, main, sync_repository.
    unfold read_config in *. cbn [fst] in Hread.
    unfold bind at 1 2. unfold os_path_isfile at 1. rewrite Hfile.
    cbv beta iota delta [negb]. unfold bind at 1. unfold read_config. rewrite Hread.
    unfold bind at 1. unfold os_path_isdir at 1. rewrite Hdir. reflexivity.
Qed.

(** X7.  With the configuration in place the script first hands the
    working copy to the configured user with [chown -R]; when that returns
    something other than 0 the failure is reported and the run is aborted
    with that code, and nothing else is run.  Otherwise it asks
    [git rev-parse], started in the working copy directory, whether that
    is a repository, which is not reported and aborts nothing, and then
    runs one of two shell commands as that user: [git pull] inside the
    working copy when [git rev-parse] returned 0, [git clone] into it
    otherwise.  When that command returns something other than 0 its
    failure is reported and the run is aborted with that code; otherwise
    nothing has been printed and the run goes on.  These programs are all
    that is run. *)
Theorem repository_is_pulled_or_cloned (args : Args) (config : settings) (w : World)
    (chown_code probe_code update_code : Z) (fs1 fs2 fs3 : gmap string node) :
  let working_copy_dir := abspath (cfg_working_copy_dir config) in
  let username := cfg_username config in
  let chown := Call (Argv ["chown"; "-R"; username; working_copy_dir]) false None in
  let probe := Call (Argv ["git"; "rev-parse"]) false (Some working_copy_dir) in
  let update :=
    Call (Line (if probe_code =? 0
                then "sudo -u " +:+ username +:+ " sh -c " +:+ dq +:+ "cd "
                     +:+ working_copy_dir +:+ " && git pull" +:+ dq
                else "sudo -u " +:+ username +:+ " sh -c " +:+ dq +:+ "git clone "
                     +:+ cfg_repo_url config +:+ " " +:+ working_copy_dir +:+ dq))
         true None in
  is_regular (files w) (config_path args) = true ->
  (read_config (config_path args) w).1 = Ret config ->
  is_directory (files w) working_copy_dir = true ->
  spawn chown (files w) = (chown_code, fs1) ->
  spawn probe fs1 = (probe_code, fs2) ->
  spawn update fs2 = (update_code, fs3) ->
  sync_repository args w
  = if negb (chown_code =? 0) then
      (Raise (ExternalCommandFailure chown_code),
       mkWorld fs1 (stdin w)
         (stdout w ++ [Ran chown chown_code; Printed (failure_message chown chown_code);
                       Dumped chown])
         (clock w))
    else if negb (update_code =? 0) then
      (Raise (ExternalCommandFailure update_code),
       mkWorld fs3 (stdin w)
         (stdout w ++ [Ran chown 0; Ran probe probe_code; Ran update update_code;
                       Printed (failure_message update update_code); Dumped update])
         (clock w))
    else
      (Ret (inr (working_copy_dir, username)),
       mkWorld fs3 (stdin w)
         (stdout w ++ [Ran chown 0; Ran probe probe_code; Ran update 0]) (clock w)).
Proof.
  intros working_copy_dir username chown probe update Hfile Hread Hdir Hchown Hprobe Hupdate.
  unfold sync_repository. unfold read_config in *. cbn [fst] in Hread.
  unfold bind at 1. unfold os_path_isfile at 1. rewrite Hfile.
  cbv beta iota delta [negb]. unfold bind at 1. unfold read_config. rewrite Hread.
  unfold bind at 1. unfold os_path_isdir at 1. fold working_copy_dir. rewrite Hdir.
  cbv beta iota. fold username.
  assert (Hrun : forall (c : command) (sh : bool) (v : World) code fs,
             popen (Call c sh None) (files v) = (code, fs) ->
             run_command c (Kwargs sh None false true) v
             = if negb (code =? 0) then
                 (Raise (ExternalCommandFailure code),
                  mkWorld fs (stdin v)
                    (stdout v ++ [Ran (Call c sh None) code;
                                  Printed (failure_message (Call c sh None) code);
                                  Dumped (Call c sh None)])
                    (clock v))
               else
                 (Ret true,
                  mkWorld fs (stdin v) (stdout v ++ [Ran (Call c sh None) code]) (clock v))).
  { intros c sh v code fs H. unfold run_command. cbn [kw_shell kw_cwd display_output
      abort_on_failure]. rewrite H. destruct (code =? 0); cbn [negb]; [reflexivity|].
    unfold failure_message, dump_output, emit, set_files. cbn.
    now rewrite <- !app_assoc. }
  unfold bind at 1.
  change (run_command (Argv ["chown"; "-R"; username; working_copy_dir]) plain w)
    with (run_command (Argv ["chown"; "-R"; username; working_copy_dir])
            (Kwargs false None false true) w).
  rewrite (Hrun (Argv ["chown"; "-R"; username; working_copy_dir]) false w chown_code fs1
             Hchown).
  fold chown.
  destruct (Z.eqb_spec chown_code 0) as [-> | Hcode]; cbn [negb]; [|reflexivity].
  set (w1 := mkWorld fs1 (stdin w) (stdout w ++ [Ran chown 0]) (clock w)).
  set (w2 := emit (Ran probe probe_code) (set_files fs2 w1)).
  assert (Hrepo : is_git_repo working_copy_dir w1 = (Ret (probe_code =? 0), w2)).
  { unfold is_git_repo. destruct (Z.eqb_spec probe_code 0) as [-> | Hrc].
    - apply (run_command_ok _ (without_abort (with_cwd working_copy_dir plain)) w1 fs2).
      exact Hprobe.
    - apply (run_command_tolerated _ (without_abort (with_cwd working_copy_dir plain))
               w1 fs2 probe_code); [exact Hprobe | exact Hrc | reflexivity]. }
  rewrite (bind_run _ _ w1 w2 _ Hrepo). subst update. unfold bind at 1.
  destruct (probe_code =? 0).
  - change (with_shell plain) with (Kwargs true None false true).
    rewrite (Hrun (Line _) true w2 update_code fs3 Hupdate).
    destruct (update_code =? 0) eqn:Hz; cbn [negb].
    + apply Z.eqb_eq in Hz as ->. unfold ret, w2, w1, emit, set_files. cbn.
      now rewrite <- !app_assoc.
    + unfold w2, w1, emit, set_files. cbn. now rewrite <- !app_assoc.
  - change (with_shell plain) with (Kwargs true None false true).
    rewrite (Hrun (Line _) true w2 update_code fs3 Hupdate).
    destruct (update_code =? 0) eqn:Hz; cbn [negb].
    + apply Z.eqb_eq in Hz as ->. unfold ret, w2, w1, emit, set_files. cbn.
      now rewrite <- !app_assoc.
    + unfold w2, w1, emit, set_files. cbn. now rewrite <- !app_assoc.
Qed.

End Synchronise.

Lemma string_app_cancel_l (p a b : string) : p +:+ a = p +:+ b -> a = b.
Proof.
  induction p as [|c p IH]; [easy|]. intros E. apply IH. now injection E.
Qed.

Section PackageList.
Context `{os : OS}.

(** ** Package-list mode *)

Lemma dpkg_probe (w : World) :
  exists usable,
    (is_file <- os_path_isfile "/usr/bin/dpkg" ;;
     (if is_file then os_access_x "/usr/bin/dpkg" else ret false)) w = (Ret usable, w).
Proof.
  unfold bind, os_path_isfile, os_access_x, ret.
  destruct (is_regular (files w) "/usr/bin/dpkg"); eauto.
Qed.


(** X9.  The commands of package-list mode stop at the first failure:
    when the inventory and [git add] succeed and [git commit] exits with a
    status other than 0 (as it does when the package list has not
    changed), the failure is printed, the process exits with that status
    (as [sys.exit] passes it on, modulo 256), and [git push] is not
    run. *)
Theorem package_list_stops_at_failed_commit (env : Env) (args : Args) (w0 w1 : World)
    (working_copy_dir username : string) (return_code : Z) :
  sync_repository args w0 = (Ret (inr (working_copy_dir, username)), w1) ->
  package_list_mode args = true ->
  is_directory (files w1) (working_copy_dir +:+ "/" +:+ gethostname env) = true ->
  (forall c fs, shell c = true -> c <> commit_call username (gethostname env) ->
                (spawn c fs).1 = 0) ->
  (forall fs, (spawn (commit_call username (gethostname env)) fs).1 = return_code) ->
  return_code <> 0 ->
  exists w' inventory package_list_file,
    script env args w0 = (Exit (return_code mod 256), w')
    /\ (0 < return_code < 256 -> script env args w0 = (Exit return_code, w'))
    /\ stdout w'
       = (stdout w1 ++
          [Ran (Call (Line inventory) true None) 0;
           Ran (git_as username ("git add " +:+ package_list_file)) 0;
           Ran (commit_call username (gethostname env)) return_code;
           Printed (failure_message (commit_call username (gethostname env)) return_code);
           Dumped (commit_call username (gethostname env))])%list.
Proof.
  intros Hsync Hmode Hdir Hok Hcommit Hrc.
  assert (Hrun : forall text w,
             Call (Line text) true None <> commit_call username (gethostname env) ->
             run_command (Line text) (with_shell plain) w
             = (Ret true, emit (Ran (Call (Line text) true None) 0)
                            (set_files (spawn (Call (Line text) true None) (files w)).2 w))).
  { intros text w Hne. apply run_shell_ok. now apply Hok. }
  assert (Hfail : forall w,
             run_command (cmd (commit_call username (gethostname env))) (with_shell plain) w
             = (Raise (ExternalCommandFailure return_code),
                emit (Dumped (commit_call username (gethostname env)))
                  (emit (Printed (failure_message (commit_call username (gethostname env))
                                    return_code))
                     (emit (Ran (commit_call username (gethostname env)) return_code)
                        (set_files (spawn (commit_call username (gethostname env))
                                      (files w)).2 w))))).
  { intros w. unfold run_command, popen. cbn [cmd commit_call git_as kw_shell kw_cwd
      with_shell plain display_output abort_on_failure].
    pose proof (Hcommit (files w)) as Hc. unfold commit_call, git_as in Hc.
    destruct (spawn _ (files w)) as [rc fs]. cbn [fst] in Hc. subst rc.
    apply Z.eqb_neq in Hrc. rewrite Hrc. reflexivity. }
  assert (Hadd : forall file,
             Call (Line ("sudo -u " +:+ username +:+ " sh -c " +:+ dq +:+ "git add "
                         +:+ file +:+ dq)) true None
             <> commit_call username (gethostname env)).
  { intros file H. unfold commit_call, git_as in H. injection H as H.
    do 4 apply string_app_cancel_l in H. cbv in H. discriminate H. }
  assert (Hinv : forall tail,
             Call (Line (String "/" tail)) true None
             <> commit_call username (gethostname env)).
  { intros tail H. unfold commit_call, git_as in H. discriminate H. }
  assert (Hsteps : forall inventory file,
    Call (Line inventory) true None <> commit_call username (gethostname env) ->
    exists w',
      (run_command (Line inventory) (with_shell plain) ;;;
       run_command (Line ("sudo -u " +:+ username +:+ " sh -c " +:+ dq +:+ "git add "
                          +:+ file +:+ dq)) (with_shell plain) ;;;
       run_command (Line ("sudo -u " +:+ username +:+ " sh -c " +:+ dq +:+ "git commit -m "
                          +:+ dq +:+ "Auto-commit by confcheck running on "
                          +:+ gethostname env +:+ dq +:+ dq)) (with_shell plain) ;;;
       run_command (Line ("sudo -u " +:+ username +:+ " sh -c " +:+ dq +:+ "git push" +:+ dq))
                   (with_shell plain) ;;;
       ret (@None Z)) w1
      = (Raise (ExternalCommandFailure return_code), w')
      /\ stdout w'
         = (stdout w1 ++
            [Ran (Call (Line inventory) true None) 0;
             Ran (git_as username ("git add " +:+ file)) 0;
             Ran (commit_call username (gethostname env)) return_code;
             Printed (failure_message (commit_call username (gethostname env)) return_code);
             Dumped (commit_call username (gethostname env))])%list).
  { intros inventory file Hne. eexists. split.
    - rewrite (bind_run _ _ _ _ _ (Hrun inventory w1 Hne)).
      rewrite (bind_run _ _ _ _ _ (Hrun _ _ (Hadd file))).
      apply bind_raise.
      replace ("sudo -u " +:+ username +:+ " sh -c " +:+ dq +:+ "git commit -m " +:+ dq
               +:+ "Auto-commit by confcheck running on " +:+ gethostname env +:+ dq +:+ dq)
        with (command_str (cmd (commit_call username (gethostname env)))).
      + apply Hfail.
      + unfold commit_call, git_as. cbn [cmd command_str]. now rewrite !string_app_assoc.
    - cbn [stdout emit set_files]. rewrite <- !app_assoc. cbn [app].
      unfold git_as. now rewrite !string_app_assoc. }
  destruct (dpkg_probe w1) as [usable Hprobe].
  set (current_host_dir := working_copy_dir +:+ "/" +:+ gethostname env).
  destruct (Hsteps
              (if usable
               then "/usr/bin/dpkg" +:+ " --get-selections \* > " +:+ current_host_dir
                    +:+ "/conf/" +:+ "dpkg-selections"
               else "/bin/rpm -qa --queryformat " +:+ dq +:+ "%{NAME}.%{ARCH}.%{VERSION}\n"
                    +:+ dq +:+ " > " +:+ current_host_dir +:+ "/conf/" +:+ "package.list")
              (if usable then "dpkg-selections" else "package.list"))
    as (w' & Hrun' & Hout); [destruct usable; apply Hinv|].
  exists w'. eexists _, _.
  enough (Hexit : script env args w0 = (Exit (return_code mod 256), w')).
  { split; [exact Hexit|]. split; [|exact Hout].
    intros Hrange. now rewrite Z.mod_small in Hexit by lia. }
  apply script_aborts. unfold main. rewrite (bind_run _ _ _ _ _ Hsync). rewrite Hmode.
  unfold update_package_list. cbv zeta.
  rewrite (bind_run _ _ w1 w1 true) by (unfold os_path_isdir; now rewrite Hdir).
  cbv beta iota delta [negb].
  unfold bind at 1 2. unfold bind, os_path_isfile in Hprobe. unfold os_path_isfile at 1.
  rewrite Hprobe. fold current_host_dir. destruct usable; exact Hrun'.
Qed.

End PackageList.

(** ** Invariants of a run *)

Section Invariants.
Context `{os : OS}.
Context (R : World -> World -> Prop) (E : exn -> World -> Prop).
Context (R_refl : forall w, R w w) (R_trans : forall a b c, R a b -> R b c -> R a c).

Lemma sat_ret {A} (V : A -> Prop) (a : A) : V a -> sat R E V (ret a).
Proof. intros H w. split; [apply R_refl | exact H]. Qed.

Lemma sat_bind {A B} (V1 : A -> Prop) (V2 : B -> Prop) (m : M A) (k : A -> M B) :
  sat R E V1 m -> (forall a, V1 a -> sat R E V2 (k a)) -> sat R E V2 (bind m k).
Proof.
  intros Hm Hk w. unfold bind. destruct (Hm w) as [HR HV].
  destruct (m w) as [[a|e] w1]; cbn [fst snd] in *.
  - destruct (Hk a HV w1) as [HR' HV']. split; [now apply (R_trans _ w1) | exact HV'].
  - split; assumption.
Qed.

Lemma sat_weaken {A} (V1 V2 : A -> Prop) (m : M A) :
  (forall a, V1 a -> V2 a) -> sat R E V1 m -> sat R E V2 m.
Proof.
  intros H Hm w. destruct (Hm w) as [HR HV]. split; [exact HR|].
  destruct (m w).1; [now apply H | exact HV].
Qed.

Lemma sat_isfile (path : string) : sat R E any (os_path_isfile path).
Proof. intros w. split; [apply R_refl | exact I]. Qed.

Lemma sat_isdir (path : string) : sat R E any (os_path_isdir path).
Proof. intros w. split; [apply R_refl | exact I]. Qed.

Lemma sat_access (path : string) : sat R E any (os_access_x path).
Proof. intros w. split; [apply R_refl | exact I]. Qed.

(** What is asked of the calls that print, run programs, ask the
    operator, read and copy files; [copied] are the files that may be
    copied onto. *)
Context (copied : string -> Prop).
Context (sat_print : forall text, sat R E any (print text)).
Context (sat_run_command : forall c k, sat R E any (run_command c k)).
Context (sat_prompt_user : forall prompt spec, sat R E any (prompt_user prompt spec)).
Context (sat_read_config : forall path, sat R E any (read_config path)).
Context (sat_read_checklist :
           forall path, sat R E (Forall (fun entry => copied entry.1)) (read_checklist path)).
Context (sat_copyfile : forall src dst, copied dst -> sat R E any (shutil_copyfile src dst)).
Context (E_index : forall w, E IndexError w) (E_budget : forall w, E LoopBudget w).

Ltac library :=
  first [ apply sat_isfile | apply sat_isdir | apply sat_access | apply sat_print
        | apply sat_run_command | apply sat_prompt_user | apply sat_read_config
        | apply sat_read_checklist | apply sat_copyfile; assumption | assumption ].

Ltac returns :=
  first [ apply sat_ret; solve [ exact I | unfold exit_value, flow_value; auto | eauto ]
        | apply (sat_ret any); exact I ].

Ltac walk :=
  cbv zeta;
  first
    [ returns
    | library
    | eapply sat_bind; [ walk | intros ? ?; walk ]
    | match goal with
      | |- sat _ _ _ (if negb ?b then _ else _) =>
          destruct b; cbv beta iota delta [negb]; walk
      | |- sat _ _ _ (if ?b then _ else _) => destruct b; walk
      | |- sat _ _ _ (let '(_, _) := if ?b then _ else _ in _) => destruct b; walk
      end
    | idtac ].

Lemma sat_sync_repository (args : Args) :
  sat R E (fun r => r = inl FAILURE \/ exists p, r = inr p) (sync_repository args).
Proof. unfold sync_repository, is_git_repo. walk. Qed.

Lemma sat_update_package_list (hostname working_copy_dir username : string) :
  sat R E exit_value (update_package_list hostname working_copy_dir username).
Proof. unfold update_package_list. walk. Qed.

Lemma sat_raise {A} (V : A -> Prop) (e : exn) : (forall w, E e w) -> sat R E V (raise e).
Proof. intros H w. split; [apply R_refl | apply H]. Qed.

Lemma sat_check_host_dir (env : Env) (args : Args) :
  sat R E flow_value (check_host_dir env args).
Proof.
  unfold check_host_dir. walk.
  destruct (Py.index _ _); [walk | now apply sat_raise].
Qed.

Lemma sat_check_loop (budget : nat) (working_copy_dir module_path source target : string) :
  copied source ->
  sat R E flow_value (check_loop budget working_copy_dir module_path source target).
Proof.
  intros Hsource. induction budget as [|budget IH]; [now apply sat_raise|].
  cbn [check_loop]. unfold escalate, clear_screen. walk.
Qed.

Lemma sat_check_entry (args : Args)
    (working_copy_dir module_path checklist_file_path : string) (entry : string * string) :
  (diff_mode args = false -> copied entry.1) ->
  sat R E flow_value
    (check_entry args working_copy_dir module_path checklist_file_path entry).
Proof.
  destruct entry as [source target]. intros Hsource.
  unfold check_entry, clear_screen. destruct (diff_mode args); walk.
  intros w. now apply sat_check_loop, Hsource.
Qed.

(** The loop over the checklist and what comes before it ask of
    [check_entry] only that it keeps the invariant. *)
Context (sat_entry :
           forall args working_copy_dir module_path checklist_file_path entry,
             (diff_mode args = false -> copied entry.1) ->
             sat R E flow_value
               (check_entry args working_copy_dir module_path checklist_file_path entry)).

Lemma sat_for_entries (args : Args)
    (working_copy_dir module_path checklist_file_path : string)
    (checklist : list (string * string)) :
  (diff_mode args = false -> Forall (fun entry => copied entry.1) checklist) ->
  sat R E exit_value
    (for_entries args working_copy_dir module_path checklist_file_path checklist).
Proof.
  induction checklist as [|entry rest IH]; intros Hsources; cbn [for_entries]; [walk|].
  eapply sat_bind.
  - apply sat_entry. intros Hd. specialize (Hsources Hd).
    now apply Forall_cons in Hsources as [H _].
  - intros f [-> | ->]; [|walk]. apply IH. intros Hd. specialize (Hsources Hd).
    now apply Forall_cons in Hsources as [_ H].
Qed.

Lemma sat_reconcile (env : Env) (args : Args) (working_copy_dir : string) :
  sat R E exit_value (reconcile env args working_copy_dir).
Proof.
  unfold reconcile. walk. now apply sat_for_entries.
Qed.

Lemma sat_main (env : Env) (args : Args) : sat R E exit_value (main env args).
Proof.
  unfold main. cbv zeta. eapply sat_bind; [apply sat_sync_repository|].
  intros synced [-> | [[working_copy_dir username] ->]]; [walk|].
  destruct (package_list_mode args); [apply sat_update_package_list|].
  eapply sat_bind; [apply sat_check_host_dir|].
  intros f [-> | ->]; [apply sat_reconcile | walk].
Qed.

End Invariants.

(** ** Which exceptions the library calls raise *)

Lemma prompt_loop_raises (prompt : string) (allowed : gset ascii) (d : option ascii)
    (input : list string) (w w' : World) (e : exn) :
  prompt_loop prompt allowed d input w = (Raise e, w') -> e = EOFError \/ e = IndexError.
Proof.
  revert w. induction input as [|line rest IH]; intros w; cbn [prompt_loop].
  - intros [= <- _]. now left.
  - destruct (Py.lower (Py.strip line)) as [|c tail].
    + destruct d; [discriminate|]. intros [= <- _]. now right.
    + destruct (decide (c ∈ allowed)); [discriminate | apply IH].
Qed.

Lemma prompt_user_raises (prompt spec : string) (w w' : World) (e : exn) :
  prompt_user prompt spec w = (Raise e, w') -> e = EOFError \/ e = IndexError.
Proof.
  unfold prompt_user. destruct (scan_responses spec ∅ None) as [allowed d].
  destruct (prompt_loop prompt allowed d (stdin w) w) as [[r|e0] w0] eqn:L; [discriminate|].
  intros [= <- _]. now apply prompt_loop_raises in L.
Qed.

Lemma checklist_lines_raises (lines : list string) (acc : list (string * string)) (e : exn) :
  checklist_lines lines acc = Raise e -> e = ValueError.
Proof.
  revert acc. induction lines as [|line rest IH]; intros acc; cbn [checklist_lines];
    [discriminate|].
  destruct (checklist_line line) as [[entry|]|e0] eqn:L; [apply IH | apply IH |].
  intros [= <-]. now apply checklist_line_raises in L.
Qed.

Section ExitStatus.
Context `{os : OS}.

(** ** The exit status *)

Lemma report_print (text : string) : sat anywhere raised_with_report any (print text).
Proof. intros w. now split. Qed.

Lemma report_run_command (c : command) (k : kwargs) :
  sat anywhere raised_with_report any (run_command c k).
Proof.
  intros w. split; [exact I|]. unfold run_command.
  destruct (popen (Call c (kw_shell k) (kw_cwd k)) (files w)) as [rc fs].
  destruct (Z.eqb_spec rc 0) as [-> | Hrc]; cbn [negb]; [exact I|].
  destruct (abort_on_failure k); [|exact I]. cbn [fst snd raised_with_report].
  split; [exact Hrc|]. exists (Call c (kw_shell k) (kw_cwd k)).
  destruct (display_output k); cbn [dump_output emit stdout set_files].
  - exists (stdout w ++ [Ran (Call c (kw_shell k) (kw_cwd k)) rc;
                         Dumped (Call c (kw_shell k) (kw_cwd k))])%list.
    split; [now rewrite <- !app_assoc|]. rewrite elem_of_app. right. left.
  - exists (stdout w ++ [Ran (Call c (kw_shell k) (kw_cwd k)) rc])%list.
    split; [now rewrite <- !app_assoc|]. rewrite elem_of_app. right. left.
Qed.

Lemma report_prompt_user (prompt spec : string) :
  sat anywhere raised_with_report any (prompt_user prompt spec).
Proof.
  intros w. split; [exact I|].
  destruct (prompt_user prompt spec w) as [[r|e] w'] eqn:P; [exact I|].
  now apply prompt_user_raises in P as [-> | ->].
Qed.

Lemma report_read_checklist (path : string) :
  sat anywhere raised_with_report (Forall (fun entry : string * string => True))
    (read_checklist path).
Proof.
  intros w. split; [exact I|]. unfold read_checklist, bind, read_file.
  destruct (bytes_of (files w) path) as [text|]; [|exact I]. cbn [fst snd].
  destruct (checklist_lines (Py.readlines text) []) as [l|e] eqn:L.
  - now apply Forall_forall.
  - now apply checklist_lines_raises in L as ->.
Qed.

Lemma report_copyfile (src dst : string) :
  sat anywhere raised_with_report any (shutil_copyfile src dst).
Proof.
  intros w. split; [exact I|]. unfold shutil_copyfile.
  destruct (files w !! resolve src) as [[f|]|]; try exact I.
  destruct (decide (resolve src = resolve dst)); [exact I|].
  destruct (files w !! resolve dst) as [[g|]|]; exact I.
Qed.

(** The budget of the loop of check mode is not used up in any run:
    every further pass has read a line of the operator's input. *)
Lemma main_within_budget (env : Env) (args : Args) (w : World) :
  (forall text e, config_get text = Raise e -> e = ConfigParserError) ->
  (main env args w).1 <> Raise LoopBudget.
Proof.
  intros Hconfig.
  set (E := fun (e : exn) (_ : World) => e <> LoopBudget).
  assert (Hany : forall A (m : M A), sat anywhere (fun _ _ => True) any m).
  { intros A m v. split; [exact I|]. now destruct (m v).1. }
  assert (Hprint : forall text, sat anywhere E any (print text)).
  { intros text v. now split. }
  assert (Hrun : forall c k, sat anywhere E any (run_command c k)).
  { intros c k v. split; [exact I|]. unfold run_command.
    destruct (popen _ (files v)) as [rc fs].
    destruct (rc =? 0), (abort_on_failure k); cbn; try exact I. discriminate. }
  assert (Hprompt : forall prompt spec, sat anywhere E any (prompt_user prompt spec)).
  { intros prompt spec v. split; [exact I|].
    destruct (prompt_user prompt spec v) as [[r|e] v'] eqn:P; [exact I|].
    apply prompt_user_raises in P as [-> | ->]; discriminate. }
  assert (Hread : forall path, sat anywhere E any (read_config path)).
  { intros path v. split; [exact I|]. unfold read_config. cbn [fst snd].
    destruct (config_get _) as [c|e] eqn:C; [exact I|].
    apply Hconfig in C as ->. discriminate. }
  assert (Hlist : forall path,
             sat anywhere E (Forall (fun entry : string * string => True))
               (read_checklist path)).
  { intros path v. split; [exact I|]. unfold read_checklist, bind, read_file.
    destruct (bytes_of (files v) path) as [text|]; [|discriminate]. cbn [fst snd].
    destruct (checklist_lines (Py.readlines text) []) as [l|e] eqn:L.
    - now apply Forall_forall.
    - apply checklist_lines_raises in L as ->. discriminate. }
  assert (Hentry : forall args working_copy_dir module_path checklist_file_path entry,
             (diff_mode args = false -> True) ->
             sat anywhere E flow_value
               (check_entry args working_copy_dir module_path checklist_file_path entry)).
  { intros a d p c entry _ v. split; [exact I|].
    pose proof (check_entry_within_budget a d p c entry v) as Hbudget.
    destruct (sat_check_entry anywhere (fun _ _ => True) (fun _ => I) (fun _ _ _ _ _ => I)
                (fun _ => True) (fun text => Hany _ _) (fun c0 k => Hany _ _)
                (fun p0 s => Hany _ _)
                (fun s0 d0 _ => Hany _ _) (fun _ => I) a d p c entry (fun _ => I) v)
      as [_ Hflow].
    destruct (check_entry a d p c entry v).1 as [f|e]; [exact Hflow|].
    intros ->. now elim Hbudget. }
  destruct (sat_main anywhere E (fun _ => I) (fun _ _ _ _ _ => I)
              (fun _ => True) Hprint Hrun Hprompt Hread Hlist
              (fun _ => ltac:(discriminate)) Hentry env args w) as [_ H].
  destruct (main env args w).1 as [v|e]; [discriminate|]. intros [= ->]. now elim H.
Qed.


(** X10.  How a run can end, whatever the mode, the files and the
    operator's input.  The process exits with status 0, or with status 2,
    or with the return code, modulo 256, of a program that the script ran
    and that returned something other than 0, and then the failure of that
    program is the last thing the script reported; or it ends with the
    traceback of an exception of the interpreter or its libraries
    (status 1), with nothing of the kind reported.  ([ConfigParser] is
    taken to raise errors of its own only.) *)
Theorem exit_status_is_accounted_for (env : Env) (args : Args) (w : World) :
  (forall text e, config_get text = Raise e -> e = ConfigParserError) ->
  match (script env args w).1 with
  | Exit status =>
      status = 0 \/ status = 2
      \/ exists return_code,
           status = return_code mod 256
           /\ reported return_code (stdout (script env args w).2)
  | Traceback e => uncaught e = true /\ exit_status (script env args w).1 = 1
  end.
Proof.
  intros Hconfig. pose proof (main_within_budget env args w Hconfig) as Hbudget.
  assert (Hread : forall path, sat anywhere raised_with_report any (read_config path)).
  { intros path v. split; [exact I|]. unfold read_config. cbn [fst snd].
    destruct (config_get _) as [c|e] eqn:C; [exact I|]. now apply Hconfig in C as ->. }
  assert (Hentry : forall args working_copy_dir module_path checklist_file_path entry,
             (diff_mode args = false -> True) ->
             sat anywhere raised_with_report flow_value
               (check_entry args working_copy_dir module_path checklist_file_path entry)).
  { intros. apply (sat_check_entry anywhere raised_with_report) with (copied := fun _ => True);
      auto using report_print, report_run_command, report_prompt_user, report_copyfile.
    all: now unfold anywhere. }
  destruct (sat_main anywhere raised_with_report (fun _ => I) (fun _ _ _ _ _ => I)
              (fun _ => True) report_print report_run_command report_prompt_user Hread
              report_read_checklist (fun _ => I) Hentry env args w) as [_ H].
  unfold script, top_level.
  destruct (main env args w) as [[v|e] w1]; cbn [fst snd] in *.
  - destruct H as [-> | [-> | ->]]; cbn; auto.
  - destruct e; cbn [fst snd uncaught exit_status]; try (split; reflexivity).
    + right. right. exists return_code. now split.
    + now elim Hbudget.
Qed.

End ExitStatus.

Section Termination.
Context `{os : OS}.

(** ** The loop of check mode ends *)

(** X11.  The [while True] loop of check mode goes round again only
    after the operator has been asked and a line of input has been read:
    with the operator's input at an end the script ends too, by returning
    or by an exception of the interpreter ([EOFError] from [raw_input] at
    the latest), and the budget that the loop is given here is never used
    up: the process exits with a status, or with the traceback of such an
    exception.  ([ConfigParser] is taken to raise errors of its own only.) *)
Theorem script_ends_with_the_input (env : Env) (args : Args) (w : World) :
  (forall text e, config_get text = Raise e -> e = ConfigParserError) ->
  match (script env args w).1 with
  | Exit _ => True
  | Traceback e => uncaught e = true
  end.
Proof.
  intros Hconfig. pose proof (main_within_budget env args w Hconfig) as H.
  unfold script, top_level. destruct (main env args w) as [[v|e] w1]; cbn [fst snd] in *.
  - exact I.
  - destruct e; first [exact I | reflexivity | now elim H].
Qed.

End Termination.

Section PackageMode.
Context `{os : OS}.

(** ** Package-list mode asks nothing *)

Lemma prompts_emit (e : event) (w : World) :
  (forall text, e <> Prompted text) -> prompts (stdout (emit e w)) = prompts (stdout w).
Proof.
  intros H. unfold prompts, emit. cbn [stdout]. rewrite omap_app. cbn.
  destruct e; try apply List.app_nil_r. now elim (H text).
Qed.

Lemma unasked_emit (e : event) (w w0 : World) :
  (forall text, e <> Prompted text) -> unasked w0 w -> unasked w0 (emit e w).
Proof.
  intros H [Hi Ho]. split; [exact Hi|]. now rewrite prompts_emit.
Qed.

Lemma unasked_run_command (c : command) (k : kwargs) :
  sat unasked (fun _ _ => True) any (run_command c k).
Proof.
  intros w. split; [|now destruct (run_command c k w).1]. unfold run_command, dump_output.
  destruct (popen (Call c (kw_shell k) (kw_cwd k)) (files w)) as [rc fs].
  assert (H0 : unasked w (set_files fs w)) by now split.
  destruct (rc =? 0), (abort_on_failure k), (display_output k); cbn [negb snd];
    repeat (apply unasked_emit; [discriminate|]); exact H0.
Qed.

(** X12.  In package-list mode the script asks the operator nothing and
    reads none of the input, however it ends; the directory level and the
    diff flag make no difference to what it does. *)
Theorem package_list_mode_asks_nothing (env : Env) (args : Args) (w : World) :
  package_list_mode args = true ->
  unasked w (script env args w).2
  /\ script env args w
     = script env {| dir_level := None; diff_mode := false; package_list_mode := true;
                     config_path := config_path args; verbose := verbose args |} w.
Proof.
  intros Hmode. split.
  - assert (Hrefl : forall v, unasked v v) by now split.
    assert (Htrans : forall a b c, unasked a b -> unasked b c -> unasked a c).
    { intros a b c [H1 H2] [H3 H4]. split; congruence. }
    assert (Hprint : forall text, sat unasked (fun _ _ => True) any (print text)).
    { intros text v. split; [|exact I]. apply unasked_emit; [discriminate | apply Hrefl]. }
    assert (Hread : forall path, sat unasked (fun _ _ => True) any (read_config path)).
    { intros path v. split; [apply Hrefl|]. now destruct (read_config path v).1. }
    assert (Hmain : unasked w (main env args w).2).
    { unfold main. cbv zeta. rewrite Hmode.
      refine (proj1 (sat_bind unasked (fun _ _ => True) Htrans
                       (fun r => r = inl FAILURE \/ exists p, r = inr p) any _ _ _ _ w)).
      - apply sat_sync_repository;
          auto using unasked_run_command.
      - intros synced [-> | [[working_copy_dir username] ->]].
        + now apply sat_ret.
        + apply (sat_weaken _ _ exit_value); [easy|].
          apply sat_update_package_list; auto using unasked_run_command. }
    unfold script, top_level. destruct (main env args w) as [[v|e] w1]; [exact Hmain|].
    destruct e; exact Hmain.
  - unfold script, main. cbv zeta. cbn [package_list_mode config_path]. rewrite Hmode.
    reflexivity.
Qed.

End PackageMode.

Section Frame.
Context `{os : OS}.

(** ** Which files the script writes *)

Lemma prompt_loop_files (prompt : string) (allowed : gset ascii) (d : option ascii)
    (input : list string) (w : World) :
  files (prompt_loop prompt allowed d input w).2 = files w.
Proof.
  revert w. induction input as [|line rest IH]; intros w; cbn [prompt_loop]; [reflexivity|].
  destruct (Py.lower (Py.strip line)) as [|c tail]; [now destruct d|].
  destruct (decide (c ∈ allowed)); [reflexivity|]. now rewrite IH.
Qed.

Lemma prompt_user_files (prompt spec : string) (w : World) :
  files (prompt_user prompt spec w).2 = files w.
Proof.
  unfold prompt_user. destruct (scan_responses spec ∅ None) as [allowed d].
  pose proof (prompt_loop_files prompt allowed d (stdin w) w) as H.
  now destruct (prompt_loop prompt allowed d (stdin w) w) as [[r|e] w'].
Qed.

(** External programs that leave the files alone. *)
Context (spawn_quiet : forall c fs, (spawn c fs).2 = fs).
Context (K : string -> Prop).

Lemma popen_quiet (c : call) (fs : gmap string node) : (popen c fs).2 = fs.
Proof.
  unfold popen. destruct (cmd c) as [[|prog [|opt [|a [|b [|x parts]]]]]|text];
    try apply spawn_quiet.
  destruct (shell c); [apply spawn_quiet|]. destruct (cwd c); [apply spawn_quiet|].
  destruct (String.eqb prog "diff" && String.eqb opt "-q"); [reflexivity | apply spawn_quiet].
Qed.

Lemma unchanged_refl (w : World) : unchanged_on K w w.
Proof. now intros key _. Qed.

Lemma unchanged_trans (a b c : World) :
  unchanged_on K a b -> unchanged_on K b c -> unchanged_on K a c.
Proof. intros H1 H2 key Hk. now rewrite (H2 key Hk), (H1 key Hk). Qed.

Lemma unchanged_files {A} (m : M A) :
  (forall w, files (m w).2 = files w) -> sat (unchanged_on K) (fun _ _ => True) any m.
Proof.
  intros H w. split; [|now destruct (m w).1]. intros key _. now rewrite H.
Qed.

Lemma unchanged_run_command (c : command) (k : kwargs) :
  sat (unchanged_on K) (fun _ _ => True) any (run_command c k).
Proof.
  apply unchanged_files. intros w. unfold run_command, dump_output.
  pose proof (popen_quiet (Call c (kw_shell k) (kw_cwd k)) (files w)) as H.
  destruct (popen (Call c (kw_shell k) (kw_cwd k)) (files w)) as [rc fs]. cbn [snd] in H.
  now destruct (rc =? 0), (abort_on_failure k), (display_output k).
Qed.

Lemma unchanged_copyfile (src dst : string) :
  ~ K (resolve dst) -> sat (unchanged_on K) (fun _ _ => True) any (shutil_copyfile src dst).
Proof.
  intros Hdst w. split; [|now destruct (shutil_copyfile src dst w).1].
  unfold shutil_copyfile.
  destruct (files w !! resolve src) as [[f|]|]; try apply unchanged_refl.
  destruct (decide (resolve src = resolve dst)); [apply unchanged_refl|].
  destruct (files w !! resolve dst) as [[g|]|] eqn:G; try apply unchanged_refl.
  all: intros key Hk; cbn [snd files set_files]; unfold write_bytes;
    apply lookup_insert_ne; intros <-; contradiction.
Qed.

Lemma unchanged_check_entry (args : Args)
    (working_copy_dir module_path checklist_file_path : string) (entry : string * string) :
  (diff_mode args = false -> ~ K (resolve entry.1)) ->
  sat (unchanged_on K) (fun _ _ => True) flow_value
    (check_entry args working_copy_dir module_path checklist_file_path entry).
Proof.
  intros H.
  apply (sat_check_entry (unchanged_on K) (fun _ _ => True) unchanged_refl unchanged_trans
           (fun dst => ~ K (resolve dst))); auto using unchanged_run_command, unchanged_copyfile.
  - intros text. now apply unchanged_files.
  - intros prompt spec. apply unchanged_files, prompt_user_files.
Qed.

End Frame.

Section Writes.
Context `{os : OS}.

(** X13.  External programs aside, the script writes no file but the
    local sources of the checklist, over which the operator's [c] copies
    their targets in check mode: when the programs it runs leave the files
    alone, a file that is not the source of an entry is after the run what
    it was before, however the run ends; so is every file in diff mode and
    in package-list mode.  A target is never written. *)
Theorem only_local_sources_are_written (env : Env) (args : Args) (w : World) (key : string) :
  (forall c fs, (spawn c fs).2 = fs) ->
  diff_mode args = true \/ package_list_mode args = true
  \/ (forall checklist, (read_checklist "./CONFCHECKLIST" w).1 = Ret checklist ->
        Forall (fun entry => resolve entry.1 <> key) checklist) ->
  files (script env args w).2 !! key = files w !! key.
Proof.
  intros Hquiet Hkey.
  set (all := fun _ : string => True).
  set (E := fun (_ : exn) (_ : World) => True).
  assert (Hprint : forall K text, sat (unchanged_on K) E any (print text)).
  { intros K text. now apply unchanged_files. }
  assert (Hprompt : forall K prompt spec, sat (unchanged_on K) E any (prompt_user prompt spec)).
  { intros K prompt spec. apply unchanged_files, prompt_user_files. }
  assert (Hconfig : forall K path, sat (unchanged_on K) E any (read_config path)).
  { intros K path. now apply unchanged_files. }
  assert (Hmain : files (main env args w).2 !! key = files w !! key).
  { unfold main. cbv zeta. unfold bind at 1.
    destruct (sat_sync_repository (unchanged_on all) E (unchanged_refl all)
                (unchanged_trans all) (Hprint all) (unchanged_run_command Hquiet all)
                (Hconfig all) args w) as [H1 V1].
    destruct (sync_repository args w) as [[synced|e] w1]; cbn [fst snd] in *;
      [|now apply H1].
    destruct V1 as [-> | [[working_copy_dir username] ->]]; [now apply H1|].
    destruct (package_list_mode args) eqn:Hp.
    { rewrite <- (H1 key I).
      now apply (sat_update_package_list (unchanged_on all) E (unchanged_refl all)
                   (unchanged_trans all) (Hprint all) (unchanged_run_command Hquiet all)). }
    unfold bind at 1.
    destruct (sat_check_host_dir (unchanged_on all) E (unchanged_refl all)
                (unchanged_trans all) (Hprompt all) (fun _ => I) env args w1) as [H2 V2].
    destruct (check_host_dir env args w1) as [[f|e] w2]; cbn [fst snd] in *;
      [|rewrite <- (H1 key I); now apply H2].
    assert (H12 : forall k, files w2 !! k = files w !! k).
    { intros k. now rewrite (H2 k I), (H1 k I). }
    destruct V2 as [-> | ->]; [|now apply H12].
    unfold reconcile. cbv zeta. unfold bind at 1, os_path_isfile at 1.
    destruct (is_regular (files w2) "./CONFCHECKLIST"); cbv beta iota delta [negb];
      [|now apply H12].
    assert (Hsame : read_checklist "./CONFCHECKLIST" w2
                    = ((read_checklist "./CONFCHECKLIST" w).1, w2)).
    { unfold read_checklist, bind, read_file, bytes_of. rewrite H12.
      now destruct (files w !! resolve "./CONFCHECKLIST") as [[g|]|]. }
    unfold bind at 1. rewrite Hsame.
    destruct (read_checklist "./CONFCHECKLIST" w).1 as [checklist|e] eqn:Hread;
      [|now apply H12].
    rewrite <- H12.
    apply (sat_for_entries (unchanged_on (fun k => k = key)) E (unchanged_refl _)
             (unchanged_trans _) (fun source => resolve source <> key)); [| |reflexivity].
    - intros a d p c entry Hentry. now apply unchanged_check_entry.
    - intros Hdiff. destruct Hkey as [Hd | [Hd | Hd]]; [congruence | congruence|].
      now apply Hd. }
  unfold script, top_level. destruct (main env args w) as [[v|e] w1]; [exact Hmain|].
  now destruct e.
Qed.

End Writes.

Section Entries.
Context `{os : OS}.
Context (args : Args) (working_copy_dir module_path checklist_file_path : string).

(** ** Entries that end the run, and entries that are asked about *)

(** X14.  Two mistakes in the checklist or the repository end the run
    at once with status 2, in either mode for the first and in check mode
    for the second: a source that is not a regular file, and a source with
    no counterpart under version control.  One message is printed, nothing
    is asked, and the entries after it are not looked at. *)
Theorem authoring_errors_end_the_run (source target : string)
    (more : list (string * string)) (w : World) :
  (is_regular (files w) source = false ->
   for_entries args working_copy_dir module_path checklist_file_path
     ((source, target) :: more) w
   = (Ret (Some 2),
      emit (Printed ("Config source file " +:+ source +:+ " referenced in "
                     +:+ checklist_file_path
                     +:+ " doesn't exist; please correct this and try again.")) w))
  /\ (diff_mode args = false ->
      is_regular (files w) source = true -> is_regular (files w) target = true ->
      is_regular (files w) (working_copy_path working_copy_dir module_path source) = false ->
      for_entries args working_copy_dir module_path checklist_file_path
        ((source, target) :: more) w
      = (Ret (Some 2),
         emit (Printed (source +:+ " doesn't appear to exist in version control, aborting"))
           w)).
Proof.
  split.
  - intros Hs. cbn [for_entries]. unfold check_entry.
    unfold bind at 1 2. unfold os_path_isfile at 1. rewrite Hs.
    reflexivity.
  - intros Hmode Hs Ht Hp. cbn [for_entries].
    rewrite (bind_run _ _ w
               (emit (Printed (source +:+ " doesn't appear to exist in version control, aborting"))
                  w) (ReturnCode FAILURE)); [reflexivity|].
    rewrite (check_entry_start _ _ _ _ Hmode _ _ _ Hs Ht). cbn [check_loop].
    now rewrite (bind_run _ _ _ _ _ (isfile_run _ _ _ Hp)).
Qed.

(** X15.  In check mode a target whose bytes differ from its counterpart
    under version control is asked about, and the default is no: a blank
    line, like a line that starts with n, ends the run with status 2 and
    leaves the entries after it unlooked at; a line that starts with y
    lets the run go on with the next entry.  In both cases the files stay
    as they are. *)
Theorem modified_target_defaults_to_no (source target x y line : string)
    (rest : list string) (more : list (string * string)) (w : World) :
  diff_mode args = false ->
  is_regular (files w) source = true ->
  bytes_of (files w) (working_copy_path working_copy_dir module_path source) = Some x ->
  bytes_of (files w) target = Some y ->
  x <> y ->
  stdin w = line :: rest ->
  let w' := asked (modified_prompt target) rest
              (emit (Ran (diff_call (working_copy_path working_copy_dir module_path source)
                            target) 1) w) in
  (blank line \/ answers line "n" ->
   for_entries args working_copy_dir module_path checklist_file_path
     ((source, target) :: more) w
   = (Ret (Some 2), w'))
  /\ (answers line "y" ->
      for_entries args working_copy_dir module_path checklist_file_path
        ((source, target) :: more) w
      = for_entries args working_copy_dir module_path checklist_file_path more w')
  /\ files w' = files w.
Proof.
  intros Hmode Hs Hp Ht Hxy Hin w'.
  assert (Htarget : is_regular (files w) target = true) by (apply is_regular_bytes; eauto).
  assert (Hentry : forall r,
             prompt_user (modified_prompt target) "yNcv"
               (emit (Ran (diff_call (working_copy_path working_copy_dir module_path source)
                             target) 1) w) = (Ret r, w') ->
             r = "n"%char \/ r = "y"%char ->
             check_entry args working_copy_dir module_path checklist_file_path
               (source, target) w
             = (Ret (if Ascii.eqb r "n" then ReturnCode FAILURE else NextEntry), w')).
  { intros r Hr Hcase. rewrite (check_entry_start _ _ _ _ Hmode _ _ _ Hs Htarget).
    rewrite (check_loop_differ _ _ _ _ _ _ _ _ Hp Ht Hxy). unfold escalate.
    rewrite (bind_run _ _ _ _ _ Hr). now destruct Hcase as [-> | ->]. }
  split; [|split; [|reflexivity]].
  - intros Hno. cbn [for_entries].
    rewrite (bind_run _ _ w w' (ReturnCode FAILURE)); [reflexivity|].
    apply (Hentry "n"%char); [|now left]. destruct Hno as [Hb | Hn].
    + now apply (prompt_user_blank _ "yNcv" line rest "N").
    + apply (prompt_user_answer _ "yNcv" line); [exact Hin | exact Hn |].
      apply (option_of_spec "yNcv" "N"). right. left.
  - intros Hy. cbn [for_entries].
    rewrite (bind_run _ _ w w' NextEntry); [reflexivity|].
    apply (Hentry "y"%char); [|now right].
    apply (prompt_user_answer _ "yNcv" line); [exact Hin | exact Hy |].
    apply (option_of_spec "yNcv" "y"). left.
Qed.

(** X16.  Answering [v] in check mode: [clear] is run and its output
    displayed.  When [clear] returns something other than 0 the failure is
    reported and the run is aborted with that code: the pager is not run
    and the rest of the input stays unread.  Otherwise the pager command
    is announced and run with its output displayed, and whatever it
    returns the loop starts over with the rest of the operator's input:
    the counterpart is looked for and compared with the target anew.  When
    source and target are still regular files then, that is the entry
    processed as from its start. *)
Theorem view_asks_again (source target x y line : string) (rest : list string)
    (w : World) (clear_code pager_code : Z) (fs1 fs2 : gmap string node) :
  let path := working_copy_path working_copy_dir module_path source in
  let pager := Call (Line (view_command path target)) true None in
  let asked_about := [Ran (diff_call path target) 1; Prompted (modified_prompt target)] in
  let again :=
    mkWorld fs2 rest
      (stdout w ++ asked_about
       ++ [Ran clear_call 0; Dumped clear_call;
           Printed ("Executing " +:+ view_command path target +:+ "...");
           Ran pager pager_code; Dumped pager])
      (clock w) in
  diff_mode args = false ->
  is_regular (files w) source = true ->
  bytes_of (files w) path = Some x ->
  bytes_of (files w) target = Some y ->
  x <> y ->
  stdin w = line :: rest ->
  answers line "v" ->
  spawn clear_call (files w) = (clear_code, fs1) ->
  spawn pager fs1 = (pager_code, fs2) ->
  check_entry args working_copy_dir module_path checklist_file_path (source, target) w
  = (if negb (clear_code =? 0) then
       (Raise (ExternalCommandFailure clear_code),
        mkWorld fs1 rest
          (stdout w ++ asked_about
           ++ [Ran clear_call clear_code; Dumped clear_call;
               Printed (failure_message clear_call clear_code); Dumped clear_call])
          (clock w))
     else check_loop (S (length rest)) working_copy_dir module_path source target again)
  /\ (is_regular fs2 source = true -> is_regular fs2 target = true ->
      check_loop (S (length rest)) working_copy_dir module_path source target again
      = check_entry args working_copy_dir module_path checklist_file_path (source, target)
          again).
Proof.
  intros path pager asked_about again Hmode Hs Hp Ht Hxy Hin Hv Hclear Hpager.
  assert (Htarget : is_regular (files w) target = true) by (apply is_regular_bytes; eauto).
  split.
  2:{ intros Hs2 Ht2.
      now rewrite (check_entry_start _ _ _ _ Hmode _ _ again Hs2 Ht2). }
  rewrite (check_entry_start _ _ _ _ Hmode _ _ w Hs Htarget).
  rewrite Hin. cbn [length].
  rewrite (check_loop_differ _ _ _ _ _ _ _ _ Hp Ht Hxy).
  rewrite (escalate_answer _ _ _ line rest "v");
    [|exact Hin | exact Hv | cbn; rewrite !elem_of_cons; tauto].
  change (Ascii.eqb "v" "n") with false. change (Ascii.eqb "v" "y") with false.
  change (Ascii.eqb "v" "v") with true. cbv iota. fold path.
  set (w1 := asked (modified_prompt target) rest (emit (Ran (diff_call path target) 1) w)).
  unfold bind at 1. unfold clear_screen, run_command at 1, popen.
  cbn [cmd shell cwd kw_shell kw_cwd with_display with_shell plain display_output
       abort_on_failure files asked set_stdin emit w1].
  fold clear_call. rewrite Hclear.
  destruct (Z.eqb_spec clear_code 0) as [-> | Hcode]; cbn [negb].
  - unfold bind at 1. unfold print at 1.
    rewrite (bind_run _ _ _ _ _ (display_run (view_command path target) _)).
    unfold pager, view_command in *. cbn [files emit set_files dump_output].
    rewrite Hpager. cbn [fst snd].
    f_equal. unfold again, asked_about, view_command, emit, set_files, dump_output. cbn.
    f_equal. now repeat (progress (rewrite <- ?app_assoc; cbn [app])).
  - unfold asked_about, failure_message, emit, set_files, dump_output. cbn.
    unfold emit. cbn. now repeat (progress (rewrite <- ?app_assoc; cbn [app])).
Qed.

End Entries.

(** ** Prefixes of paths *)

Lemma string_prefix_app (q x y : string) :
  (String.length q <= String.length x)%nat -> String.prefix q (x +:+ y) = String.prefix q x.
Proof.
  revert x. induction q as [|c q IH]; intros x H.
  { assert (G : forall s, String.prefix EmptyString s = true) by now intros [|d s].
    now rewrite !G. }
  destruct x as [|d x]; cbn [String.length] in H; [lia|].
  rewrite string_app_cons. cbn [String.prefix].
  destruct (ascii_dec c d); [|reflexivity]. apply IH. lia.
Qed.

Lemma length_string_app (a b : string) :
  String.length (a +:+ b) = (String.length a + String.length b)%nat.
Proof. induction a as [|c a IH]; [reflexivity|]. rewrite string_app_cons. cbn. now rewrite IH. Qed.

(** ** The host directory and the module path *)

(** X17.  A directory level other than 0 that lies within the current
    directory names one of its segments, the items that splitting it at
    [/] gives, by Python's indexing of the reversed list.  A positive
    level [n] names the directory [n] levels above the current one.  A
    negative level counts from the start of the path: [-1] names the
    first segment, which for an absolute path is the empty text before
    the leading slash, and minus the number of segments names the current
    directory itself.  When the name so found is the host name the run
    goes on and nothing is asked; otherwise the operator is warned and
    asked, and the default is no: only a line that starts with y lets the
    run go on, a blank line or a line that starts with n ends it with
    status 2. *)
Theorem host_directory_is_levels_up (env : Env) (args : Args) (above below : list string)
    (host_dir : string) (n : Z) (w : World) :
  Py.split "/" (getcwd env) = (above ++ host_dir :: below)%list ->
  dir_level args = Some n ->
  (n = Z.of_nat (length below) /\ below <> []) \/ n = - Z.of_nat (length above) - 1 ->
  (host_dir = gethostname env -> check_host_dir env args w = (Ret NextEntry, w))
  /\ (forall line rest,
        host_dir <> gethostname env -> stdin w = line :: rest ->
        (answers line "y" ->
         check_host_dir env args w
         = (Ret NextEntry, asked (host_warning host_dir (gethostname env)) rest w))
        /\ (blank line \/ answers line "n" ->
            check_host_dir env args w
            = (Ret (ReturnCode 2), asked (host_warning host_dir (gethostname env)) rest w))).
Proof.
  intros Hcwd Hlevel Hn.
  assert (Hzero : (n =? 0) = false).
  { apply Z.eqb_neq. destruct Hn as [[-> Hdeep] | ->]; [|lia].
    destruct below; [congruence | cbn; lia]. }
  assert (Hparts : Py.index (rev (Py.split "/" (getcwd env))) n = Some host_dir).
  { rewrite Hcwd, rev_app_distr. cbn [rev]. rewrite <- app_assoc. cbn [app].
    unfold Py.index. rewrite !length_app. cbn [length]. rewrite !length_rev.
    destruct Hn as [[-> Hdeep] | ->].
    - replace ((0 <=? Z.of_nat (length below))
               && (Z.of_nat (length below)
                   <? Z.of_nat (length below + S (length above)))) with true
        by (symmetry; apply andb_true_iff; split; [apply Z.leb_le | apply Z.ltb_lt]; lia).
      rewrite Nat2Z.id. rewrite lookup_app_r by (rewrite length_rev; lia).
      now rewrite length_rev, Nat.sub_diag.
    - replace ((0 <=? - Z.of_nat (length above) - 1)
               && (- Z.of_nat (length above) - 1
                   <? Z.of_nat (length below + S (length above)))) with false
        by (symmetry; apply andb_false_iff; left; apply Z.leb_gt; lia).
      replace ((- Z.of_nat (length above) - 1 <? 0)
               && (- Z.of_nat (length below + S (length above))
                   <=? - Z.of_nat (length above) - 1)) with true
        by (symmetry; apply andb_true_iff; split; [apply Z.ltb_lt | apply Z.leb_le]; lia).
      replace (Z.to_nat (Z.of_nat (length below + S (length above))
                         + (- Z.of_nat (length above) - 1))) with (length below) by lia.
      rewrite lookup_app_r by (rewrite length_rev; lia).
      now rewrite length_rev, Nat.sub_diag. }
  assert (Hstart : check_host_dir env args
                   = if negb (String.eqb host_dir (gethostname env))
                     then response <- prompt_user (host_warning host_dir (gethostname env)) "yN" ;;
                          if negb (Ascii.eqb response "y") then ret (ReturnCode 2)
                          else ret NextEntry
                     else ret NextEntry).
  { unfold check_host_dir. cbv zeta. rewrite Hlevel. cbn [truthy default from_option id].
    rewrite Hzero. cbn [negb]. rewrite Hparts. reflexivity. }
  rewrite Hstart. split.
  - intros ->. now rewrite String.eqb_refl.
  - intros line rest Hne Hin. apply String.eqb_neq in Hne. rewrite Hne. cbn [negb]. split.
    + intros Hy.
      rewrite (bind_run _ _ _ _ "y"%char
                 (prompt_user_answer _ "yN" line rest "y" w Hin Hy
                    (option_of_spec "yN" "y" ltac:(left)))).
      reflexivity.
    + intros Hno.
      assert (Hr : prompt_user (host_warning host_dir (gethostname env)) "yN" w
                   = (Ret "n"%char, asked (host_warning host_dir (gethostname env)) rest w)).
      { destruct Hno as [Hb | Hn'].
        - now apply (prompt_user_blank _ "yN" line rest "N").
        - apply (prompt_user_answer _ "yN" line); [exact Hin | exact Hn' |].
          apply (option_of_spec "yN" "N"). right. left. }
      now rewrite (bind_run _ _ _ _ _ Hr).
Qed.

Lemma after_conf_none (s : string) : occurs_conf s = false -> after_conf s = None.
Proof.
  induction s as [|c s IH]; [reflexivity|]. cbn [occurs_conf after_conf]. intros H.
  apply orb_false_iff in H as [Hp Hs]. rewrite Hp. rewrite (IH Hs).
  now destruct (Ascii.eqb c "010").
Qed.

(** X18.  The module path, under which an entry's counterpart is looked
    up in the working copy, is what follows the first [/conf/] of the
    current directory, also when a later directory is called [conf] again;
    a current directory with no [/conf/] in it is taken whole. *)
Theorem module_path_follows_first_conf (cwd : string) :
  (forall before module_path,
     cwd = before +:+ "/conf/" +:+ module_path ->
     no_char "010" before = true ->
     occurs_conf (before +:+ "/conf") = false ->
     module_path_of cwd = module_path)
  /\ (occurs_conf cwd = false -> module_path_of cwd = cwd).
Proof.
  split.
  - intros before module_path -> Hline Hfirst. unfold module_path_of.
    enough (after_conf (before +:+ "/conf/" +:+ module_path) = Some module_path) as ->
      by reflexivity.
    induction before as [|c before IH].
    + rewrite string_app_nil_l.
      change ("/conf/" +:+ module_path)
        with (String "/" (String "c" (String "o" (String "n" (String "f"
                (String "/" module_path)))))).
      cbn [after_conf].
      replace (String.prefix "/conf/"
                 (String "/" (String "c" (String "o" (String "n" (String "f"
                    (String "/" module_path))))))) with true
        by now destruct module_path.
      reflexivity.
    + rewrite string_app_cons in *. cbn [no_char] in Hline.
      apply andb_true_iff in Hline as [Hc Hline]. apply negb_true_iff in Hc.
      cbn [occurs_conf] in Hfirst. apply orb_false_iff in Hfirst as [Hp Hfirst].
      cbn [after_conf].
      assert (Hpre : String.prefix "/conf/" (String c (before +:+ "/conf/" +:+ module_path))
                     = false).
      { change (String c (before +:+ "/conf")) with (String c before +:+ "/conf") in Hp.
        rewrite <- (string_prefix_app "/conf/" (String c before +:+ "/conf")
                      (String "/" module_path))
          in Hp by (rewrite length_string_app; cbn; lia).
        rewrite string_app_assoc in Hp. exact Hp. }
      rewrite Hpre, Hc. now apply IH.
  - intros H. unfold module_path_of. now rewrite (after_conf_none _ H).
Qed.

(** ** When a checklist is read, and a run that finds nothing to ask *)

Lemma contains_positive (sep : ascii) (s : string) :
  Py.contains sep s = true -> (0 < Py.count sep s)%nat.
Proof.
  induction s as [|c s IH]; cbn [Py.contains Py.count]; [discriminate|].
  destruct (Ascii.eqb c sep); [lia|]. intros H. specialize (IH H). lia.
Qed.

Lemma checklist_line_one_comma (line : string) :
  (Py.count "," (Py.strip (trim_comment line)) <= 1)%nat ->
  exists r, checklist_line line = Ret r.
Proof.
  intros H. unfold checklist_line. cbv zeta.
  destruct (Py.contains "," (Py.strip (trim_comment line))) eqn:C; [|eauto].
  apply contains_positive in C. cbn [Py.split_max].
  pose proof (cut_count "," (Py.strip (trim_comment line))) as H1.
  destruct (Py.cut "," (Py.strip (trim_comment line))) as [[a rest]|]; [|lia].
  pose proof (cut_count "," rest) as H2.
  destruct (Py.cut "," rest) as [[b c]|]; [lia|].
  destruct (nonempty a && nonempty rest); eauto.
Qed.

Lemma checklist_lines_one_comma (lines : list string) (acc : list (string * string)) :
  (exists checklist, checklist_lines lines acc = Ret checklist)
  <-> Forall (fun line => (Py.count "," (Py.strip (trim_comment line)) <= 1)%nat) lines.
Proof.
  revert acc. induction lines as [|line rest IH]; intros acc; cbn [checklist_lines].
  - split; [constructor | eauto].
  - split.
    + intros [checklist H]. constructor.
      * destruct (le_lt_dec (Py.count "," (Py.strip (trim_comment line))) 1) as [Hle | Hgt];
          [exact Hle|].
        rewrite (checklist_line_two_commas line) in H by lia. discriminate H.
      * destruct (checklist_line line) as [[entry|]|e]; [| |discriminate].
        -- apply (IH (acc ++ [entry])%list). eauto.
        -- apply (IH acc). eauto.
    + intros H. apply Forall_cons in H as [Hline Hrest].
      destruct (checklist_line_one_comma _ Hline) as [[entry|] ->]; now apply IH.
Qed.

Section Quiet.
Context `{os : OS}.

(** X19.  A checklist file is read exactly when none of its lines holds,
    once its comment and the blanks around it are gone, more than one
    comma: lines without a comma, blank lines and comments are passed
    over, and nothing else makes [read_checklist] fail on a file that is
    there. *)
Theorem read_checklist_returns_iff (checklist_file_path text : string) (w : World) :
  bytes_of (files w) checklist_file_path = Some text ->
  (exists checklist, read_checklist checklist_file_path w = (Ret checklist, w))
  <-> Forall (fun line => (Py.count "," (Py.strip (trim_comment line)) <= 1)%nat)
        (Py.readlines text).
Proof.
  intros Hfile. rewrite <- (checklist_lines_one_comma _ []).
  unfold read_checklist, bind, read_file. rewrite Hfile.
  split; intros [checklist H]; exists checklist; congruence.
Qed.

(** X20.  A run of check mode over entries that are all in order asks
    nothing: when every source is a regular file and every target has the
    bytes of its counterpart in the working copy, the loop runs one
    [diff -q] per entry, in the order of the checklist, prints nothing,
    reads no input, leaves the files as they are and returns 0. *)
Theorem up_to_date_run_asks_nothing (args : Args)
    (working_copy_dir module_path checklist_file_path : string)
    (checklist : list (string * string)) (w : World) :
  diff_mode args = false ->
  Forall (fun entry =>
            is_regular (files w) entry.1 = true
            /\ exists x,
                 bytes_of (files w) (working_copy_path working_copy_dir module_path entry.1)
                 = Some x
                 /\ bytes_of (files w) entry.2 = Some x) checklist ->
  for_entries args working_copy_dir module_path checklist_file_path checklist w
  = (Ret (Some 0),
     mkWorld (files w) (stdin w)
       (stdout w
        ++ map (fun entry =>
                  Ran (diff_call (working_copy_path working_copy_dir module_path entry.1)
                         entry.2) 0) checklist)
       (clock w)).
Proof.
  intros Hmode. revert w. induction checklist as [|[source target] more IH]; intros w Hall.
  - cbn [for_entries map]. rewrite List.app_nil_r. now destruct w.
  - apply Forall_cons in Hall as [(Hs & x & Hp & Ht) Hmore]. cbn [fst snd] in *.
    assert (Htarget : is_regular (files w) target = true) by (apply is_regular_bytes; eauto).
    cbn [for_entries].
    rewrite (bind_run _ _ w (emit (Ran (diff_call
               (working_copy_path working_copy_dir module_path source) target) 0) w)
               NextEntry).
    + rewrite (IH (emit (Ran (diff_call
                 (working_copy_path working_copy_dir module_path source) target) 0) w) Hmore).
      cbn [map emit files stdin stdout clock fst snd].
      now rewrite <- app_assoc.
    + rewrite (check_entry_start _ _ _ _ Hmode _ _ _ Hs Htarget).
      exact (check_loop_same working_copy_dir module_path _ source target x w Hp Ht).
Qed.

End Quiet.

(** ** Diff mode, whatever the operator types *)

(** Lines that [prompt_user] rejects are asked about and passed over. *)
Lemma prompt_user_rejected (prompt spec : string) (bad input : list string) (w : World) :
  stdin w = (bad ++ input)%list ->
  Forall (rejected (scan_responses spec ∅ None).1) bad ->
  prompt_user prompt spec w
  = prompt_user prompt spec
      (mkWorld (files w) input (stdout w ++ retries prompt (length bad)) (clock w)).
Proof.
  intros Hin Hbad. unfold prompt_user.
  destruct (scan_responses spec ∅ None) as [allowed d]. cbn [fst snd stdin] in *.
  rewrite Hin, (prompt_loop_rejected _ _ _ _ _ _ Hbad).
  destruct bad; [|reflexivity].
  cbn [app length retries] in *. rewrite List.app_nil_r, <- Hin. now destruct w.
Qed.

(** With a default, only the end of the input makes [prompt_user] fail. *)
Lemma prompt_loop_eof (prompt : string) (allowed : gset ascii) (d : ascii)
    (input : list string) (w w' : World) (e : exn) :
  prompt_loop prompt allowed (Some d) input w = (Raise e, w') ->
  e = EOFError /\ stdin w' = [].
Proof.
  revert w. induction input as [|line rest IH]; intros w; cbn [prompt_loop].
  - intros [= <- <-]. now split.
  - destruct (Py.lower (Py.strip line)) as [|c tail]; [discriminate|].
    destruct (decide (c ∈ allowed)); [discriminate | apply IH].
Qed.

Lemma prompt_user_eof (prompt spec : string) (d : ascii) (w w' : World) (e : exn) :
  (scan_responses spec ∅ None).2 = Some d ->
  prompt_user prompt spec w = (Raise e, w') ->
  e = EOFError /\ stdin w' = [].
Proof.
  unfold prompt_user. destruct (scan_responses spec ∅ None) as [allowed d']. cbn [snd].
  intros ->.
  destruct (prompt_loop prompt allowed (Some d) (stdin w) w) as [[r|e0] w0] eqn:L;
    [discriminate|].
  intros [= <- <-]. now apply prompt_loop_eof in L.
Qed.

Section DiffModeAnyInput.
Context `{os : OS}.
Context (args : Args) (working_copy_dir module_path checklist_file_path : string).
Context (Hmode : diff_mode args = true).

Let entry := check_entry args working_copy_dir module_path checklist_file_path.

(** A line that is not rejected after the question of diff mode is blank
    or starts with y or n. *)
Lemma differs_prompt_answers (line : string) :
  ~ rejected (scan_responses "Yn" ∅ None).1 line ->
  blank line \/ answers line "y" \/ answers line "n".
Proof.
  unfold rejected, blank, answers. destruct (Py.strip line) as [|c tail]; [now left|].
  intros H. right.
  destruct (decide (Py.lower_char c ∈ (scan_responses "Yn" ∅ None).1)) as [Hin|Hout];
    [|now elim H].
  apply scan_responses_allowed in Hin as [Hin | (item & Hitem & Hc)];
    [now apply not_elem_of_empty in Hin|].
  cbn in Hitem. rewrite !elem_of_cons, elem_of_nil in Hitem.
  destruct Hitem as [-> | [-> | []]]; [left | right]; eauto.
Qed.

(** The question of diff mode after the lines that it rejects. *)
Lemma diff_entry_differ (source target x y : string) (bad input : list string) (w : World) :
  bytes_of (files w) source = Some x -> bytes_of (files w) target = Some y -> x <> y ->
  stdin w = (bad ++ input)%list ->
  Forall (rejected (scan_responses "Yn" ∅ None).1) bad ->
  entry (source, target) w
  = ((response <- prompt_user (differs_prompt target source) "Yn" ;;
      if Ascii.eqb response "y" then
        clear_screen ;;;
        run_command (Line ("diff -u " +:+ dq +:+ target +:+ dq +:+ " " +:+ dq +:+ source
                           +:+ dq +:+ " | less"))
          (without_abort (with_display (with_shell plain))) ;;;
        ret tt
      else ret tt) ;;;
     ret NextEntry)
      (mkWorld (files w) input
         (stdout w ++ Ran (diff_call target source) 1
                      :: retries (differs_prompt target source) (length bad))
         (clock w)).
Proof.
  intros Hs Ht Hxy Hin Hbad. unfold entry.
  rewrite (diff_entry_start _ _ _ _ Hmode _ _ _ _ _ Hs Ht).
  rewrite (bind_run _ _ _ _ _ (diff_differ _ _ _ _ _ Ht Hs (not_eq_sym Hxy))).
  cbv beta iota delta [negb]. unfold bind at 1 2.
  rewrite (prompt_user_rejected _ "Yn" bad input
             (emit (Ran (diff_call target source) 1) w) Hin Hbad).
  unfold bind at 3 4. cbn [files stdout clock emit].
  now rewrite <- app_assoc.
Qed.

Lemma diff_entry_eof (source target x y : string) (w : World) :
  bytes_of (files w) source = Some x -> bytes_of (files w) target = Some y -> x <> y ->
  Forall (rejected (scan_responses "Yn" ∅ None).1) (stdin w) ->
  entry (source, target) w
  = (Raise EOFError,
     mkWorld (files w) [] (asked_trace source target (length (stdin w)) w) (clock w)).
Proof.
  intros Hs Ht Hxy Hbad.
  rewrite (diff_entry_differ _ _ _ _ (stdin w) [] _ Hs Ht Hxy)
    by (now rewrite ?List.app_nil_r).
  unfold bind, prompt_user.
  destruct (scan_responses "Yn" ∅ None) as [allowed d]. cbn [stdin prompt_loop].
  unfold asked_trace, set_stdin, emit. cbn. now rewrite <- app_assoc.
Qed.

Lemma diff_entry_no (source target x y good : string) (bad rest : list string) (w : World) :
  bytes_of (files w) source = Some x -> bytes_of (files w) target = Some y -> x <> y ->
  stdin w = (bad ++ good :: rest)%list ->
  Forall (rejected (scan_responses "Yn" ∅ None).1) bad ->
  answers good "n" ->
  entry (source, target) w
  = (Ret NextEntry,
     mkWorld (files w) rest (asked_trace source target (length bad) w) (clock w)).
Proof.
  intros Hs Ht Hxy Hin Hbad Hno.
  rewrite (diff_entry_differ _ _ _ _ bad (good :: rest) _ Hs Ht Hxy Hin Hbad).
  unfold bind at 1 2.
  rewrite (prompt_user_answer (differs_prompt target source) "Yn" good rest "n"
             (mkWorld (files w) (good :: rest)
                (stdout w ++ Ran (diff_call target source) 1
                             :: retries (differs_prompt target source) (length bad))
                (clock w)) eq_refl Hno
             (option_of_spec "Yn" "n" ltac:(right; left))).
  unfold asked_trace, asked, set_stdin, emit, ret. cbn. now rewrite <- app_assoc.
Qed.

Lemma diff_entry_yes (source target x y good : string) (bad rest : list string) (w : World)
    (clear_code pager_code : Z) (fs1 fs2 : gmap string node) :
  bytes_of (files w) source = Some x -> bytes_of (files w) target = Some y -> x <> y ->
  stdin w = (bad ++ good :: rest)%list ->
  Forall (rejected (scan_responses "Yn" ∅ None).1) bad ->
  blank good \/ answers good "y" ->
  spawn clear_call (files w) = (clear_code, fs1) ->
  spawn (pager_call target source) fs1 = (pager_code, fs2) ->
  entry (source, target) w
  = if clear_code =? 0 then
      (Ret NextEntry,
       mkWorld fs2 rest
         (asked_trace source target (length bad) w
          ++ [Ran clear_call 0; Dumped clear_call;
              Ran (pager_call target source) pager_code; Dumped (pager_call target source)])
         (clock w))
    else
      (Raise (ExternalCommandFailure clear_code),
       mkWorld fs1 rest
         (asked_trace source target (length bad) w
          ++ [Ran clear_call clear_code; Dumped clear_call;
              Printed (failure_message clear_call clear_code); Dumped clear_call])
         (clock w)).
Proof.
  intros Hs Ht Hxy Hin Hbad Hyes Hclear Hpager.
  rewrite (diff_entry_differ _ _ _ _ bad (good :: rest) _ Hs Ht Hxy Hin Hbad).
  set (v := mkWorld (files w) (good :: rest)
              (stdout w ++ Ran (diff_call target source) 1
                           :: retries (differs_prompt target source) (length bad))
              (clock w)).
  assert (Hr : prompt_user (differs_prompt target source) "Yn" v
               = (Ret "y"%char, asked (differs_prompt target source) rest v)).
  { destruct Hyes as [Hb | Hy].
    - now apply (prompt_user_blank _ "Yn" good rest "Y").
    - apply (prompt_user_answer _ "Yn" good); [reflexivity | exact Hy |].
      apply (option_of_spec "Yn" "Y"). left. }
  unfold bind at 1 2. rewrite Hr. change (Ascii.eqb "y" "y") with true. cbv iota.
  unfold bind at 1. unfold clear_screen, run_command at 1, popen.
  cbn [cmd shell cwd kw_shell kw_cwd with_display with_shell plain display_output
       abort_on_failure files asked set_stdin emit v].
  fold clear_call. rewrite Hclear.
  destruct (Z.eqb_spec clear_code 0) as [-> | Hcode]; cbn [negb].
  - rewrite (bind_run _ _ _ _ _ (display_run _ _)). fold (pager_call target source).
    cbn [files emit set_files dump_output]. rewrite Hpager.
    unfold asked_trace, ret, emit, set_files, dump_output. cbn.
    now repeat (progress (rewrite <- ?app_assoc; cbn [app])).
  - unfold asked_trace, failure_message, emit, set_files, dump_output. cbn.
    unfold emit. cbn. now repeat (progress (rewrite <- ?app_assoc; cbn [app])).
Qed.

Lemma rejected_prefix (options : gset ascii) (lines : list string) :
  exists bad input,
    lines = (bad ++ input)%list /\ Forall (rejected options) bad
    /\ (input = [] \/ exists good rest, input = good :: rest /\ ~ rejected options good).
Proof.
  induction lines as [|line lines (bad & input & -> & Hbad & Hinput)].
  - exists [], []. split; [reflexivity|]. split; [constructor | now left].
  - assert (Hdec : rejected options line \/ ~ rejected options line).
    { unfold rejected. destruct (Py.strip line) as [|c tail]; [now right|].
      destruct (decide (Py.lower_char c ∈ options)); [right | left]; tauto. }
    destruct Hdec as [Hyes | Hno].
    + exists (line :: bad), input. split; [reflexivity|]. split; [now constructor | exact Hinput].
    + exists [], (line :: bad ++ input)%list. split; [reflexivity|].
      split; [constructor | right; eauto].
Qed.

(** How an entry of diff mode can end when its files are there. *)
Lemma diff_entry_outcome (source target : string) (w : World) :
  is_regular (files w) source = true -> is_regular (files w) target = true ->
  ((entry (source, target) w).1 = Ret NextEntry
   \/ ((entry (source, target) w).1 = Raise EOFError
       /\ stdin (entry (source, target) w).2 = [])
   \/ exists code,
        code <> 0 /\ (spawn clear_call (files w)).1 = code
        /\ (entry (source, target) w).1 = Raise (ExternalCommandFailure code))
  /\ ((forall c fs, (spawn c fs).2 = fs) -> files (entry (source, target) w).2 = files w).
Proof.
  intros Hs Ht.
  apply is_regular_bytes in Hs as [x Hs]. apply is_regular_bytes in Ht as [y Ht].
  destruct (decide (x = y)) as [-> | Hxy].
  { unfold entry. rewrite (diff_entry_same _ _ _ _ Hmode _ _ y _ Hs Ht).
    split; [now left | reflexivity]. }
  destruct (rejected_prefix (scan_responses "Yn" ∅ None).1 (stdin w))
    as (bad & input & Hin & Hbad & [-> | (good & rest & -> & Hgood)]).
  - rewrite List.app_nil_r in Hin. subst bad.
    rewrite (diff_entry_eof _ _ _ _ _ Hs Ht Hxy Hbad). split; [|reflexivity]. right. left.
    now split.
  - destruct (spawn clear_call (files w)) as [code fs1] eqn:Hclear.
    destruct (spawn (pager_call target source) fs1) as [pcode fs2] eqn:Hpager.
    assert (Hyes : blank good \/ answers good "y" ->
              ((entry (source, target) w).1 = Ret NextEntry
               \/ ((entry (source, target) w).1 = Raise EOFError
                   /\ stdin (entry (source, target) w).2 = [])
               \/ exists code0,
                    code0 <> 0 /\ (code, fs1).1 = code0
                    /\ (entry (source, target) w).1 = Raise (ExternalCommandFailure code0))
              /\ ((forall c fs, (spawn c fs).2 = fs) ->
                  files (entry (source, target) w).2 = files w)).
    { intros Hyes.
      rewrite (diff_entry_yes _ _ _ _ _ _ _ _ _ _ _ _ Hs Ht Hxy Hin Hbad Hyes Hclear Hpager).
      split.
      - destruct (Z.eqb_spec code 0) as [-> | Hcode]; [now left | right; right; eauto].
      - intros Hquiet.
        pose proof (Hquiet clear_call (files w)) as H1. rewrite Hclear in H1.
        pose proof (Hquiet (pager_call target source) fs1) as H2. rewrite Hpager in H2.
        cbn in H1, H2. subst fs1 fs2. now destruct (code =? 0). }
    apply differs_prompt_answers in Hgood as [Hb | [Hy | Hn]]; [auto | auto |].
    rewrite (diff_entry_no _ _ _ _ _ _ _ _ Hs Ht Hxy Hin Hbad Hn).
    split; [now left | reflexivity].
Qed.

(** A run of diff mode over entries whose files are there. *)
Lemma diff_run_outcome (checklist : list (string * string)) (w : World) :
  (forall c fs, (spawn c fs).2 = fs) ->
  Forall (fun e => is_regular (files w) e.1 = true /\ is_regular (files w) e.2 = true)
    checklist ->
  let run := for_entries args working_copy_dir module_path checklist_file_path in
  files (run checklist w).2 = files w
  /\ ((run checklist w).1 = Ret (Some SUCCESS)
      \/ ((run checklist w).1 = Raise EOFError /\ stdin (run checklist w).2 = [])
      \/ exists code,
           code <> 0 /\ (spawn clear_call (files w)).1 = code
           /\ (run checklist w).1 = Raise (ExternalCommandFailure code)).
Proof.
  intros Hquiet. revert w. induction checklist as [|[source target] more IH];
    intros w Hfiles run.
  - split; [reflexivity | now left].
  - apply Forall_cons in Hfiles as [[Hs Ht] Hmore]. cbn [fst snd] in Hs, Ht.
    destruct (diff_entry_outcome source target w Hs Ht) as [Hcases Hf].
    specialize (Hf Hquiet).
    unfold run. cbn [for_entries]. fold entry. unfold bind.
    destruct (entry (source, target) w) as [[f|e] w1] eqn:He; cbn [fst snd] in *.
    + destruct Hcases as [[= ->] | [[? _] | (? & _ & _ & ?)]]; try discriminate.
      destruct (IH w1) as [Hf' Hcases']; [now rewrite Hf|].
      rewrite Hf in *. split; [exact Hf'|]. exact Hcases'.
    + split; [exact Hf|].
      destruct Hcases as [? | [[[= ->] ?] | (code & ? & ? & [= ->])]];
        [discriminate | right; left; now split | right; right; eauto].
Qed.

End DiffModeAnyInput.

Section DiffModeClaim.
Context `{os : OS}.

(** C6 (amended).  In diff mode an entry whose source and target are
    both regular files never ends the run because the files differ,
    because of what the operator answers, or because of the status of the
    pager.  Equal bytes: nothing is asked, next entry.  Different bytes:
    the operator is asked, and again after every line that is neither
    blank nor starts with y or n.  A line that starts with n: next entry,
    and no program is run after the question.  A blank line or a line that
    starts with y: [clear] is run and then the pager, and the next entry
    follows whatever the pager returns.  The entry is not followed by the
    next one in two cases only: the operator's input ends before the
    question is answered, and [raw_input] raises [EOFError]; or [clear]
    returns something other than 0 after the operator has accepted, and
    the run is aborted with that code before the pager is run.  So a run
    that gets as far as the loop over such entries, with programs that
    leave the files alone, ends with status 0 unless one of these two
    things happens: then it ends with a traceback, or with the code of
    [clear] modulo 256. *)
Theorem diff_mode_reports_only (env : Env) (args : Args) (working_copy_dir : string) :
  diff_mode args = true ->
  let entry := check_entry args working_copy_dir (module_path_of (getcwd env))
                 "./CONFCHECKLIST" in
  let run := for_entries args working_copy_dir (module_path_of (getcwd env))
               "./CONFCHECKLIST" in
  let options := (scan_responses "Yn" ∅ None).1 in
  (forall source target x y w,
     bytes_of (files w) source = Some x -> bytes_of (files w) target = Some y ->
     (x = y -> entry (source, target) w = (Ret NextEntry, emit (Ran (diff_call target source) 0) w))
     /\ (x <> y -> Forall (rejected options) (stdin w) ->
         entry (source, target) w
         = (Raise EOFError,
            mkWorld (files w) [] (asked_trace source target (length (stdin w)) w) (clock w)))
     /\ (x <> y -> forall bad good rest,
           stdin w = (bad ++ good :: rest)%list -> Forall (rejected options) bad ->
           (~ rejected options good -> blank good \/ answers good "y" \/ answers good "n")
           /\ (answers good "n" ->
               entry (source, target) w
               = (Ret NextEntry,
                  mkWorld (files w) rest (asked_trace source target (length bad) w) (clock w)))
           /\ (blank good \/ answers good "y" ->
               forall clear_code pager_code fs1 fs2,
                 spawn clear_call (files w) = (clear_code, fs1) ->
                 spawn (pager_call target source) fs1 = (pager_code, fs2) ->
                 (clear_code = 0 ->
                  entry (source, target) w
                  = (Ret NextEntry,
                     mkWorld fs2 rest
                       (asked_trace source target (length bad) w
                        ++ [Ran clear_call 0; Dumped clear_call;
                            Ran (pager_call target source) pager_code;
                            Dumped (pager_call target source)])
                       (clock w)))
                 /\ (clear_code <> 0 ->
                     entry (source, target) w
                     = (Raise (ExternalCommandFailure clear_code),
                        mkWorld fs1 rest
                          (asked_trace source target (length bad) w
                           ++ [Ran clear_call clear_code; Dumped clear_call;
                               Printed (failure_message clear_call clear_code);
                               Dumped clear_call])
                          (clock w))))))
  /\ (forall source target w,
        is_regular (files w) source = true -> is_regular (files w) target = true ->
        (entry (source, target) w).1 = Ret NextEntry
        \/ ((entry (source, target) w).1 = Raise EOFError
            /\ stdin (entry (source, target) w).2 = [])
        \/ exists code,
             code <> 0 /\ (spawn clear_call (files w)).1 = code
             /\ (entry (source, target) w).1 = Raise (ExternalCommandFailure code))
  /\ (forall checklist w,
        Forall (fun e => is_regular (files w) e.1 = true /\ is_regular (files w) e.2 = true)
          checklist ->
        (forall c fs, (spawn c fs).2 = fs) ->
        files (run checklist w).2 = files w
        /\ ((run checklist w).1 = Ret (Some SUCCESS)
            \/ ((run checklist w).1 = Raise EOFError /\ stdin (run checklist w).2 = [])
            \/ exists code,
                 code <> 0 /\ (spawn clear_call (files w)).1 = code
                 /\ (run checklist w).1 = Raise (ExternalCommandFailure code))
        /\ forall w0, reaches_checklist env args w0 working_copy_dir checklist w ->
              ((run checklist w).1 = Ret (Some SUCCESS) ->
               script env args w0 = (Exit 0, (run checklist w).2))
              /\ ((run checklist w).1 = Raise EOFError ->
                  script env args w0 = (Traceback EOFError, (run checklist w).2))
              /\ (forall code,
                    (run checklist w).1 = Raise (ExternalCommandFailure code) ->
                    script env args w0 = (Exit (code mod 256), (run checklist w).2))).
Proof.
  intros Hmode entry run options. split; [|split].
  - intros source target x y w Hs Ht. split; [|split].
    + intros ->. now apply (diff_entry_same _ _ _ _ Hmode _ _ y).
    + intros Hxy Hbad. now apply (diff_entry_eof _ _ _ _ Hmode _ _ x y).
    + intros Hxy bad good rest Hin Hbad. split; [|split].
      * apply differs_prompt_answers.
      * intros Hno. now apply (diff_entry_no _ _ _ _ Hmode _ _ x y good bad rest).
      * intros Hyes clear_code pager_code fs1 fs2 Hclear Hpager.
        pose proof (diff_entry_yes args working_copy_dir (module_path_of (getcwd env))
                      "./CONFCHECKLIST" Hmode source target x y good bad rest w clear_code
                      pager_code fs1 fs2 Hs Ht Hxy Hin Hbad Hyes Hclear Hpager) as H.
        fold entry in H. split.
        -- intros ->. exact H.
        -- intros Hcode. apply Z.eqb_neq in Hcode. now rewrite Hcode in H.
  - intros source target w Hs Ht.
    apply (diff_entry_outcome args working_copy_dir (module_path_of (getcwd env))
             "./CONFCHECKLIST" Hmode source target w Hs Ht).
  - intros checklist w Hfiles Hquiet.
    destruct (diff_run_outcome args working_copy_dir (module_path_of (getcwd env))
                "./CONFCHECKLIST" Hmode checklist w Hquiet Hfiles) as [Hf Hcases].
    fold run in Hf, Hcases. split; [exact Hf|]. split; [exact Hcases|].
    intros w0 Hreach. rewrite (script_reaches_checklist _ _ _ _ _ _ Hreach). fold run.
    unfold top_level. destruct (run checklist w) as [[v|e] w']; cbn [fst snd].
    repeat split; try discriminate.
    + now intros [= ->].
    + repeat split; try discriminate.
      * now intros [= ->].
      * now intros code [= ->].
Qed.

End DiffModeClaim.

(** * The further properties at work *)

(** ** Reading checklists *)

(** [read_checklist_reads_back] on a checklist of two entries, one with a
    blank inside its source. *)
Lemma read_checklist_reads_back_witness :
  read_checklist (os:=quiet_os) "./CONFCHECKLIST"
    (example_world (render_checklist [("nginx.conf", "/etc/nginx/nginx.conf");
                                      ("message of the day", "/etc/motd")]) None [])
  = (Ret [("nginx.conf", "/etc/nginx/nginx.conf"); ("message of the day", "/etc/motd")],
     example_world (render_checklist [("nginx.conf", "/etc/nginx/nginx.conf");
                                      ("message of the day", "/etc/motd")]) None []).
Proof.
  apply (read_checklist_reads_back (os:=quiet_os)); vm_compute; reflexivity.
Defined.

(** [read_checklist_entries_writable] on a file with a comment, blank
    lines, a line without a comma and padded entries. *)
Lemma read_checklist_entries_writable_witness :
  forallb writable [("nginx.conf", "/etc/nginx/nginx.conf"); ("motd ", " /etc/motd")] = true.
Proof.
  apply (read_checklist_entries_writable (os:=quiet_os) "./CONFCHECKLIST"
           (example_world ("# live files" +:+ nl +:+ nl
                           +:+ "  nginx.conf,/etc/nginx/nginx.conf  # web" +:+ nl
                           +:+ "no comma here" +:+ nl
                           +:+ "motd , /etc/motd") None [])
           (example_world ("# live files" +:+ nl +:+ nl
                           +:+ "  nginx.conf,/etc/nginx/nginx.conf  # web" +:+ nl
                           +:+ "no comma here" +:+ nl
                           +:+ "motd , /etc/motd") None [])).
  vm_compute. reflexivity.
Defined.

(** [checklist_line_ignores_comment] on a line with a comment that holds
    commas. *)
Lemma checklist_line_ignores_comment_witness :
  checklist_line ("nginx.conf,/etc/nginx/nginx.conf " +:+ String "#" " a, b, c" +:+ nl)
  = checklist_line "nginx.conf,/etc/nginx/nginx.conf ".
Proof.
  apply (checklist_line_ignores_comment "nginx.conf,/etc/nginx/nginx.conf "
           (" a, b, c" +:+ nl)); vm_compute; reflexivity.
Defined.

(** ** The loop of [prompt_user] *)

(** Membership in the option set of a response string, by looking at its
    items. *)
Ltac option_items H :=
  apply scan_responses_allowed in H as [H | (?item & H & ?)];
  [ now apply not_elem_of_empty in H
  | simpl in H; rewrite ?elem_of_cons, elem_of_nil in H;
    repeat (destruct H as [-> | H]; [discriminate|]); exact H ].

(** [prompt_user_asks_until_answered] on the question of check mode: two
    lines are rejected, [Copy] is taken as [c], and the [y] after it stays
    unread. *)
Lemma prompt_user_asks_until_answered_witness :
  prompt_user "Continue? " "yNcv" (mkWorld ∅ ["q"; "  maybe"; "Copy"; "y"] [] 0)
  = (Ret "c"%char,
     mkWorld ∅ ["y"]
       [Prompted "Continue? "; Printed not_recognized;
        Prompted "Continue? "; Printed not_recognized; Prompted "Continue? "] 0).
Proof.
  apply (prompt_user_asks_until_answered "Continue? " "yNcv" ["q"; "  maybe"] "Copy" ["y"]
           (mkWorld ∅ ["q"; "  maybe"; "Copy"; "y"] [] 0) eq_refl).
  - repeat constructor; intros H; option_items H.
  - intros H. apply H. apply scan_responses_allowed. right.
    exists "c"%char. split; [|reflexivity]. simpl. rewrite !elem_of_cons. tauto.
Defined.

(** [prompt_user_end_of_input] when the operator's two lines are both
    rejected. *)
Lemma prompt_user_end_of_input_witness :
  prompt_user "Continue? " "yN" (mkWorld ∅ ["q"; "what"] [] 0)
  = (Raise EOFError,
     mkWorld ∅ []
       [Prompted "Continue? "; Printed not_recognized;
        Prompted "Continue? "; Printed not_recognized; Prompted "Continue? "] 0).
Proof.
  apply (prompt_user_end_of_input "Continue? " "yN" (mkWorld ∅ ["q"; "what"] [] 0)).
  repeat constructor; intros H; option_items H.
Defined.

(** ** Configuration and repository *)

(** [nothing_runs_without_configuration] with no file at all, and with
    the configuration file alone. *)
Lemma nothing_runs_without_configuration_witness :
  script (os:=quiet_os) example_env check_args (mkWorld ∅ ["y"] [] 0)
  = (Exit 2, mkWorld ∅ ["y"] [Printed "Config path /etc/confcheck.conf doesn't exist"] 0)
  /\ script (os:=quiet_os) example_env diff_args
       (mkWorld {[ "/etc/confcheck.conf" := text_file "[git]" ]} ["y"] [] 0)
     = (Exit 2,
        mkWorld {[ "/etc/confcheck.conf" := text_file "[git]" ]} ["y"]
          [Printed "Working copy path /var/cache/confcheck doesn't exist or isn't a directory"]
          0).
Proof.
  split.
  - apply (proj1 (nothing_runs_without_configuration (os:=quiet_os) example_env check_args
                    (mkWorld ∅ ["y"] [] 0))).
    reflexivity.
  - etransitivity;
      [apply (proj2 (nothing_runs_without_configuration (os:=quiet_os) example_env diff_args
                       (mkWorld {[ "/etc/confcheck.conf" := text_file "[git]" ]} ["y"] [] 0))
                default_settings); reflexivity
      |reflexivity].
Defined.

(** [repository_is_pulled_or_cloned] where the working copy directory is
    no repository yet: [git rev-parse] exits with 128, and the repository
    is cloned. *)
Lemma repository_is_pulled_or_cloned_witness :
  sync_repository (os:=posix example_dir default_settings no_repository) check_args
    (example_world nginx_line None [])
  = (Ret (inr ("/var/cache/confcheck", "confcheck")),
     mkWorld (example_files nginx_line None) []
       [Ran (Call (Argv ["chown"; "-R"; "confcheck"; "/var/cache/confcheck"]) false None) 0;
        Ran (Call (Argv ["git"; "rev-parse"]) false (Some "/var/cache/confcheck")) 128;
        Ran (git_as "confcheck" "git clone /opt/git/confcheck /var/cache/confcheck") 0] 0).
Proof.
  etransitivity;
    [apply (repository_is_pulled_or_cloned
              (os:=posix example_dir default_settings no_repository)
              check_args default_settings (example_world nginx_line None []) 0 128 0
              (example_files nginx_line None) (example_files nginx_line None)
              (example_files nginx_line None)); reflexivity
    |reflexivity].
Defined.

(** ** Package-list mode *)


(** [package_list_stops_at_failed_commit] when the package list has not
    changed: the process exits with the status of [git commit], 1. *)
Lemma package_list_stops_at_failed_commit_witness :
  exists w',
    script (os:=posix example_dir default_settings nothing_to_commit) example_env package_args
      (example_world nginx_line None []) = (Exit 1, w')
    /\ (length (stdout w') = 8)%nat.
Proof.
  destruct (package_list_stops_at_failed_commit
              (os:=posix example_dir default_settings nothing_to_commit)
              example_env package_args (example_world nginx_line None [])
              (sync_repository (os:=posix example_dir default_settings nothing_to_commit)
                 package_args (example_world nginx_line None [])).2
              "/var/cache/confcheck" "confcheck" 1)
    as (w' & inventory & file & Hscript & _ & Hout).
  - vm_compute. reflexivity.
  - reflexivity.
  - vm_compute. reflexivity.
  - intros [[parts|text] [|] [d|]] fs Hshell Hne; try reflexivity.
    cbn [spawn posix fst nothing_to_commit].
    destruct (String.eqb_spec text
                (command_str (cmd (commit_call "confcheck" "hostA.example.com"))))
      as [-> | _]; [now elim Hne | reflexivity].
  - reflexivity.
  - discriminate.
  - exists w'. split; [exact Hscript|]. rewrite Hout, length_app. reflexivity.
Defined.

(** [package_list_mode_asks_nothing] with operator input waiting and the
    other flags set. *)
Lemma package_list_mode_asks_nothing_witness :
  unasked (example_world nginx_line None ["y"; "n"])
    (script (os:=quiet_os) example_env (arguments (Some 1) true true)
       (example_world nginx_line None ["y"; "n"])).2
  /\ script (os:=quiet_os) example_env (arguments (Some 1) true true)
       (example_world nginx_line None ["y"; "n"])
     = script (os:=quiet_os) example_env package_args
         (example_world nginx_line None ["y"; "n"]).
Proof.
  apply (package_list_mode_asks_nothing (os:=quiet_os) example_env (arguments (Some 1) true true)
           (example_world nginx_line None ["y"; "n"])).
  reflexivity.
Defined.

(** ** How a run ends *)

(** [exit_status_is_accounted_for] where [chown] exits with 7: the status
    of the script is that of [chown], whose failure it has reported. *)
Lemma exit_status_is_accounted_for_witness :
  match (script (os:=posix example_dir default_settings chown_fails) example_env check_args
           (example_world nginx_line None [])).1 with
  | Exit status =>
      status = 0 \/ status = 2
      \/ exists return_code,
           status = return_code mod 256
           /\ reported return_code
                (stdout (script (os:=posix example_dir default_settings chown_fails)
                           example_env check_args (example_world nginx_line None [])).2)
  | Traceback e =>
      uncaught e = true
      /\ exit_status (script (os:=posix example_dir default_settings chown_fails)
                        example_env check_args (example_world nginx_line None [])).1 = 1
  end.
Proof.
  apply (exit_status_is_accounted_for (os:=posix example_dir default_settings chown_fails)
           example_env check_args (example_world nginx_line None [])).
  intros text e H. discriminate H.
Defined.

(** [script_ends_with_the_input] where the operator looks at the
    difference, copies the target and then types nothing more: the third
    question meets the end of the input. *)
Lemma script_ends_with_the_input_witness :
  match (script (os:=quiet_os) example_env check_args
           (example_world nginx_line (Some "worker_processes 8;") ["v"; "c"])).1 with
  | Exit _ => True
  | Traceback e => uncaught e = true
  end.
Proof.
  apply (script_ends_with_the_input (os:=quiet_os) example_env check_args
           (example_world nginx_line (Some "worker_processes 8;") ["v"; "c"])).
  intros text e H. discriminate H.
Defined.

(** [only_local_sources_are_written] for the live target, in a run where
    the operator has the target copied over the source. *)
Lemma only_local_sources_are_written_witness :
  files (script (os:=quiet_os) example_env check_args
           (example_world nginx_line (Some "worker_processes 8;") ["c"; "y"])).2
    !! "/etc/nginx/nginx.conf"
  = files (example_world nginx_line (Some "worker_processes 8;") ["c"; "y"])
      !! "/etc/nginx/nginx.conf".
Proof.
  apply (only_local_sources_are_written (os:=quiet_os) example_env check_args
           (example_world nginx_line (Some "worker_processes 8;") ["c"; "y"])
           "/etc/nginx/nginx.conf").
  - reflexivity.
  - right. right. intros checklist H. vm_compute in H. injection H as <-.
    repeat constructor. discriminate.
Defined.

(** ** Entries *)

(** [authoring_errors_end_the_run] on a checklist whose first source does
    not exist. *)
Lemma authoring_errors_end_the_run_witness :
  for_entries (os:=quiet_os) check_args "/var/cache/confcheck" "web" "./CONFCHECKLIST"
    [("sshd_config", "/etc/ssh/sshd_config"); ("nginx.conf", "/etc/nginx/nginx.conf")]
    (example_world nginx_line None ["y"])
  = (Ret (Some 2),
     emit (Printed ("Config source file sshd_config referenced in ./CONFCHECKLIST "
                    +:+ "doesn't exist; please correct this and try again."))
       (example_world nginx_line None ["y"])).
Proof.
  apply (proj1 (authoring_errors_end_the_run (os:=quiet_os) check_args "/var/cache/confcheck"
                  "web" "./CONFCHECKLIST" "sshd_config" "/etc/ssh/sshd_config"
                  [("nginx.conf", "/etc/nginx/nginx.conf")]
                  (example_world nginx_line None ["y"]))).
  reflexivity.
Defined.

(** [modified_target_defaults_to_no] when the operator just presses
    enter. *)
Lemma modified_target_defaults_to_no_witness :
  for_entries (os:=quiet_os) check_args "/var/cache/confcheck" "web" "./CONFCHECKLIST"
    [("nginx.conf", "/etc/nginx/nginx.conf"); ("sshd_config", "/etc/ssh/sshd_config")]
    (example_world nginx_line (Some "worker_processes 8;") [""; "y"])
  = (Ret (Some 2),
     asked (modified_prompt "/etc/nginx/nginx.conf") ["y"]
       (emit (Ran (diff_call "/var/cache/confcheck/web/nginx.conf" "/etc/nginx/nginx.conf") 1)
          (example_world nginx_line (Some "worker_processes 8;") [""; "y"]))).
Proof.
  apply (modified_target_defaults_to_no (os:=quiet_os) check_args "/var/cache/confcheck" "web"
           "./CONFCHECKLIST" "nginx.conf" "/etc/nginx/nginx.conf"
           "worker_processes 2;" "worker_processes 8;" "" ["y"]
           [("sshd_config", "/etc/ssh/sshd_config")]
           (example_world nginx_line (Some "worker_processes 8;") [""; "y"]));
    try reflexivity.
  - discriminate.
  - left. reflexivity.
Defined.

(** [view_asks_again] when the operator answers [v] and then [n]. *)
Lemma view_asks_again_witness :
  check_entry (os:=quiet_os) check_args "/var/cache/confcheck" "web" "./CONFCHECKLIST"
    ("nginx.conf", "/etc/nginx/nginx.conf")
    (example_world nginx_line (Some "worker_processes 8;") ["v"; "n"])
  = check_entry (os:=quiet_os) check_args "/var/cache/confcheck" "web" "./CONFCHECKLIST"
      ("nginx.conf", "/etc/nginx/nginx.conf")
      (mkWorld (example_files nginx_line (Some "worker_processes 8;")) ["n"]
         [Ran (diff_call "/var/cache/confcheck/web/nginx.conf" "/etc/nginx/nginx.conf") 1;
          Prompted (modified_prompt "/etc/nginx/nginx.conf");
          Ran clear_call 0; Dumped clear_call;
          Printed ("Executing "
                   +:+ view_command "/var/cache/confcheck/web/nginx.conf" "/etc/nginx/nginx.conf"
                   +:+ "...");
          Ran (Call (Line (view_command "/var/cache/confcheck/web/nginx.conf"
                             "/etc/nginx/nginx.conf")) true None) 0;
          Dumped (Call (Line (view_command "/var/cache/confcheck/web/nginx.conf"
                                "/etc/nginx/nginx.conf")) true None)] 0).
Proof.
  destruct (view_asks_again (os:=quiet_os) check_args "/var/cache/confcheck" "web"
              "./CONFCHECKLIST" "nginx.conf" "/etc/nginx/nginx.conf"
              "worker_processes 2;" "worker_processes 8;" "v" ["n"]
              (example_world nginx_line (Some "worker_processes 8;") ["v"; "n"]) 0 0
              (example_files nginx_line (Some "worker_processes 8;"))
              (example_files nginx_line (Some "worker_processes 8;"))
              eq_refl eq_refl eq_refl eq_refl ltac:(discriminate) eq_refl
              (ex_intro _ "v"%char (ex_intro _ EmptyString (conj eq_refl eq_refl)))
              eq_refl eq_refl) as [Hview Hagain].
  etransitivity; [exact Hview|]. apply Hagain; reflexivity.
Defined.

(** ** The host directory and the module path *)

(** [host_directory_is_levels_up] two levels below the directory named
    after the host, which is also the fourth segment from the start:
    nothing is asked at level 2 and at level -4. *)
Lemma host_directory_is_levels_up_witness :
  check_host_dir host_env (arguments (Some 2) false false) (mkWorld ∅ ["n"] [] 0)
  = (Ret NextEntry, mkWorld ∅ ["n"] [] 0)
  /\ check_host_dir host_env (arguments (Some (-4)) false false) (mkWorld ∅ ["n"] [] 0)
     = (Ret NextEntry, mkWorld ∅ ["n"] [] 0).
Proof.
  split.
  - apply (host_directory_is_levels_up host_env (arguments (Some 2) false false)
             [""; "srv"; "repo"] ["conf"; "web"] "hostA.example.com" 2
             (mkWorld ∅ ["n"] [] 0)).
    + vm_compute. reflexivity.
    + reflexivity.
    + left. split; [reflexivity | discriminate].
    + reflexivity.
  - apply (host_directory_is_levels_up host_env (arguments (Some (-4)) false false)
             [""; "srv"; "repo"] ["conf"; "web"] "hostA.example.com" (-4)
             (mkWorld ∅ ["n"] [] 0)).
    + vm_compute. reflexivity.
    + reflexivity.
    + right. reflexivity.
    + reflexivity.
Defined.

(** [module_path_follows_first_conf] below two directories called
    [conf]. *)
Lemma module_path_follows_first_conf_witness :
  module_path_of "/home/conf/repo/conf/web" = "repo/conf/web".
Proof.
  apply (proj1 (module_path_follows_first_conf "/home/conf/repo/conf/web")
           "/home" "repo/conf/web"); reflexivity.
Defined.

(** ** Checklists that are read, and runs that ask nothing *)

(** [read_checklist_returns_iff] on the checklist of the examples. *)
Lemma read_checklist_returns_iff_witness :
  exists checklist,
    read_checklist (os:=quiet_os) "./CONFCHECKLIST" (example_world nginx_line None [])
    = (Ret checklist, example_world nginx_line None []).
Proof.
  apply (read_checklist_returns_iff (os:=quiet_os) "./CONFCHECKLIST" nginx_line
           (example_world nginx_line None [])).
  - reflexivity.
  - repeat constructor.
Defined.

(** [up_to_date_run_asks_nothing] with the live file as it is under
    version control. *)
Lemma up_to_date_run_asks_nothing_witness :
  for_entries (os:=quiet_os) check_args "/var/cache/confcheck" "web" "./CONFCHECKLIST"
    [("nginx.conf", "/etc/nginx/nginx.conf")]
    (example_world nginx_line (Some "worker_processes 2;") ["n"])
  = (Ret (Some 0),
     mkWorld (example_files nginx_line (Some "worker_processes 2;")) ["n"]
       [Ran (diff_call "/var/cache/confcheck/web/nginx.conf" "/etc/nginx/nginx.conf") 0] 0).
Proof.
  apply (up_to_date_run_asks_nothing (os:=quiet_os) check_args "/var/cache/confcheck" "web"
           "./CONFCHECKLIST" [("nginx.conf", "/etc/nginx/nginx.conf")]
           (example_world nginx_line (Some "worker_processes 2;") ["n"]) eq_refl).
  repeat constructor. exists "worker_processes 2;". split; reflexivity.
Defined.

(** ** Diff mode *)

(** [diff_mode_reports_only] where source and target differ and the
    operator types [q] and then [n]: the question is asked twice, the
    entry is passed, nothing is run after the question and the [y] after
    it stays unread. *)
Lemma diff_mode_reports_only_witness :
  check_entry (os:=quiet_os) diff_args "/var/cache/confcheck"
    (module_path_of (getcwd example_env)) "./CONFCHECKLIST"
    ("nginx.conf", "/etc/nginx/nginx.conf")
    (example_world nginx_line (Some "worker_processes 8;") ["q"; "n"; "y"])
  = (Ret NextEntry,
     mkWorld (example_files nginx_line (Some "worker_processes 8;")) ["y"]
       [Ran (diff_call "/etc/nginx/nginx.conf" "nginx.conf") 1;
        Prompted (differs_prompt "/etc/nginx/nginx.conf" "nginx.conf");
        Printed not_recognized;
        Prompted (differs_prompt "/etc/nginx/nginx.conf" "nginx.conf")] 0).
Proof.
  destruct (diff_mode_reports_only (os:=quiet_os) example_env diff_args "/var/cache/confcheck"
              eq_refl) as [Hentry _].
  destruct (Hentry "nginx.conf" "/etc/nginx/nginx.conf" "worker_processes 4;"
              "worker_processes 8;"
              (example_world nginx_line (Some "worker_processes 8;") ["q"; "n"; "y"])
              eq_refl eq_refl) as (_ & _ & Hasked).
  destruct (Hasked ltac:(discriminate) ["q"] "n" ["y"] eq_refl) as (_ & Hno & _).
  - repeat constructor. intros H. option_items H.
  - etransitivity; [apply Hno; exists "n"%char, EmptyString; split; reflexivity|].
    reflexivity.
Defined.
